(** * Lead distress-scoring and marketplace pipeline

  A shallow embedding of the two real-estate example services:

  - [Scraper]: [examples/real-estate/zillow_visual_scraper.py]
    (signal extractor, investment analyzer, photo analysis, the three
    endpoints);
  - [Market]: [examples/real-estate/secondary_market_eve.py]
    (gate, tier classifier, packaging, matching, marketplace, purchase,
    the five endpoints).

  Conventions of the embedding.

  - A Python [int] is a [Z].  A Python [float] is embedded twice.  In
    [Num] and [Scraper64] it is a binary64 number (finite values, signed
    zeros, infinities and NaN; every operation rounds to nearest, ties
    to even; an [int] too large to convert raises [OverflowError]): the
    statements about the numbers that the signal extractor, the
    investment analyzer and the visual score compute are made there.  In
    [Scraper] and [Market] it is a rational [Q], finite and not rounded:
    the statements made there are about control flow, ordering and
    state.  Equalities between rationals are stated with [==].
  - A Python [str] is a [string]; [str.lower] maps [A-Z] to [a-z] and
    leaves every other character alone, which is what Python does to a
    string of ASCII characters ([Py.is_ascii]).
  - A [dict] that the code uses as a keyed store (investors, packages,
    listings) is an insertion-ordered association list ([Py.dict]).  A
    [dict] that the code fills itself and uses as a struct is a record: a
    key read with [.get(k, default)] is an [option] field.  A [dict] that
    arrives in a request and is read with [d[k]] stays a dictionary, and
    the lookup raises [KeyError] on a missing key.  A value typed [Any]
    is taken at the type the code uses it at.
  - A function that can raise returns a [Py.result]; a function that
    mutates the service object or talks to the outside world (HTTP
    fetches, the lattice, the clock, Stripe, stdout) threads that state
    explicitly.  What the outside world answers is a parameter, indexed
    by the number of earlier calls.
  - No handler suspends between its reads and its writes of the service
    object (the coroutines it awaits do not yield, and the Stripe call
    blocks), so requests are served one after another. *)

From Stdlib Require Import ZArith QArith Qminmax Qabs Qreduction Qpower.
From Stdlib Require Import Bool List String Ascii.
From Stdlib Require Import Lia Permutation Sorted DecimalString.
Import ListNotations.

Set Implicit Arguments.

(* ================================================================== *)
(** * Python built-ins used by the two services *)
(* ================================================================== *)

Module Py.

(** ** Numbers *)

(** [x < y] and [x <= y] on numbers. *)
Definition Qltb (x y : Q) : bool := negb (Qle_bool y x).
Definition Qleb (x y : Q) : bool := Qle_bool x y.

(** Truthiness of a number: [bool(x)] is [x != 0]. *)
Definition truthy (x : Q) : bool := negb (Qeq_bool x 0).
Definition truthy_int (z : Z) : bool := negb (z =? 0)%Z.

(** [o or d] for an [Optional[int]] [o] and an [int] [d]. *)
Definition or_int (o : option Z) (d : Z) : Z :=
  match o with
  | Some z => if truthy_int z then z else d
  | None => d
  end.

(** [sum(bs)] for a list of [bool]: [True] counts 1. *)
Fixpoint sum_bools (bs : list bool) : Z :=
  match bs with
  | [] => 0
  | b :: bs' => (if b then 1 else 0) + sum_bools bs'
  end%Z.

(** [len(l)] as an [int]. *)
Definition len {A} (l : list A) : Z := Z.of_nat (List.length l).

(** [int(x)] for a float [x]: truncation toward zero. *)
Definition int_of_float (x : Q) : Z := (Qnum x ÷ Z.pos (Qden x))%Z.

(** ** Exceptions *)

Inductive exn : Type :=
| HTTPException (status_code : Z) (detail : string)
| ZeroDivisionError
| OverflowError
| ValueError
| KeyError (key : string)
| StripeError (message : string).

Inductive result (A : Type) : Type :=
| Ok (a : A)
| Raise (e : exn).
Arguments Ok {A} a.
Arguments Raise {A} e.

Definition bind {A B} (r : result A) (k : A -> result B) : result B :=
  match r with
  | Ok a => k a
  | Raise e => Raise e
  end.

(** [a / b]: true division raises [ZeroDivisionError] on a zero divisor. *)
Definition truediv (a b : Q) : result Q :=
  if Qeq_bool b 0 then Raise ZeroDivisionError else Ok (a / b).

(** Code that also reads or writes a state [S]; the state written before
    an exception is raised stays written. *)
Definition M (S A : Type) : Type := S -> result A * S.

Definition ret {S A} (a : A) : M S A := fun s => (Ok a, s).
Definition raise {S A} (e : exn) : M S A := fun s => (Raise e, s).
Definition lift {S A} (r : result A) : M S A := fun s => (r, s).
Definition get {S} : M S S := fun s => (Ok s, s).
Definition modify {S} (f : S -> S) : M S unit := fun s => (Ok tt, f s).

Definition mbind {S A B} (m : M S A) (k : A -> M S B) : M S B :=
  fun s =>
    match m s with
    | (Ok a, s') => k a s'
    | (Raise e, s') => (Raise e, s')
    end.

Declare Scope py_scope.
Delimit Scope py_scope with py.
Notation "x <- r ;; k" := (bind r (fun x => k))
  (at level 61, r at next level, right associativity) : py_scope.
Notation "x <~ m ;; k" := (mbind m (fun x => k))
  (at level 61, m at next level, right associativity) : py_scope.
Notation "m ;;; k" := (mbind m (fun _ => k))
  (at level 61, right associativity) : py_scope.

(** ** Strings *)

Definition lower_char (c : ascii) : ascii :=
  let n := N_of_ascii c in
  if ((65 <=? n) && (n <=? 90))%N then ascii_of_N (n + 32) else c.

(** [s.isascii()]. *)
Definition is_ascii (s : string) : bool :=
  forallb (fun c => (nat_of_ascii c <? 128)%nat) (list_ascii_of_string s).

(** [s.lower()], as Python computes it for a string of ASCII characters. *)
Fixpoint lower (s : string) : string :=
  match s with
  | EmptyString => EmptyString
  | String c s' => String (lower_char c) (lower s')
  end.

(** [needle in hay]. *)
Fixpoint contains (needle hay : string) : bool :=
  String.prefix needle hay
  || match hay with
     | EmptyString => false
     | String _ hay' => contains needle hay'
     end.

(** [s[:n]]. *)
Definition slice_to (n : nat) (s : string) : string := String.substring 0 n s.

(** [sep.join(parts)]. *)
Fixpoint join (sep : string) (parts : list string) : string :=
  match parts with
  | [] => EmptyString
  | [p] => p
  | p :: ps => (p ++ sep ++ join sep ps)%string
  end.

(** [str(z)] for an [int]. *)
Definition str_of_int (z : Z) : string := NilZero.string_of_int (Z.to_int z).

(** [s.title()]: a letter is upper case after a non-letter and lower case
    after a letter. *)
Definition upper_char (c : ascii) : ascii :=
  let n := N_of_ascii c in
  if ((97 <=? n) && (n <=? 122))%N then ascii_of_N (n - 32) else c.

Definition is_letter (c : ascii) : bool :=
  let n := N_of_ascii c in
  (((65 <=? n) && (n <=? 90)) || ((97 <=? n) && (n <=? 122)))%N.

Fixpoint title_from (after_letter : bool) (s : string) : string :=
  match s with
  | EmptyString => EmptyString
  | String c s' =>
      String (if after_letter then lower_char c else upper_char c)
             (title_from (is_letter c) s')
  end.

Definition title (s : string) : string := title_from false s.

(** Truthiness of an [Optional[str]]: [None] and the empty string are falsy. *)
Definition truthy_opt_str (o : option string) : bool :=
  match o with
  | Some EmptyString => false
  | Some _ => true
  | None => false
  end.

(** [x in l] for a list of strings. *)
Definition str_in (x : string) (l : list string) : bool :=
  existsb (String.eqb x) l.

(** *** Number formatting *)

(** The nearest integer to [x >= 0], ties to even. *)
Definition round_half_even (x : Q) : Z :=
  let n := Qnum x in
  let d := Z.pos (Qden x) in
  let q := (n / d)%Z in
  let r := (n mod d)%Z in
  if (2 * r <? d)%Z then q
  else if (d <? 2 * r)%Z then (q + 1)%Z
  else if Z.even q then q else (q + 1)%Z.

Fixpoint zeros (n : nat) (s : string) : string :=
  match n with
  | O => s
  | S n' => String "0" (zeros n' s)
  end.

(** [s] padded with zeros on the left to [width] characters. *)
Definition zero_pad (width : nat) (s : string) : string :=
  zeros (width - String.length s) s.

(** [f"{x:.Nf}"] with [N = digits]. *)
Definition format_fixed (digits : nat) (x : Q) : string :=
  let scale := (10 ^ Z.of_nat digits)%Z in
  let scaled := round_half_even (Qabs x * inject_Z scale) in
  let whole := str_of_int (scaled / scale) in
  let frac := zero_pad digits (str_of_int (scaled mod scale)) in
  ((if Qltb x 0 then "-" else "")
   ++ whole
   ++ (match digits with O => "" | S _ => "." ++ frac end))%string.

(** Groups of three digits, separated by commas, of [n >= 0]. *)
Fixpoint group_thousands (fuel : nat) (n : Z) : string :=
  match fuel with
  | O => str_of_int n
  | S fuel' =>
      if (n <? 1000)%Z then str_of_int n
      else (group_thousands fuel' (n / 1000) ++ ","
            ++ zero_pad 3 (str_of_int (n mod 1000)))%string
  end.

(** [f"{z:,}"] for an [int]. *)
Definition format_thousands (z : Z) : string :=
  ((if (z <? 0)%Z then "-" else "")
   ++ group_thousands (Z.to_nat (Z.log2 (Z.abs z))) (Z.abs z))%string.

(** *** [repr] of a string

    The quote is ['] unless the string holds a ['] and no double quote;
    the quote and the backslash are escaped with a backslash, tab, line
    feed and carriage return by their letter, every other control
    character by [\xNN]. *)

Definition squote : ascii := "039"%char.
Definition dquote : ascii := "034"%char.
Definition backslash : ascii := "092"%char.

Fixpoint has_char (c : ascii) (s : string) : bool :=
  match s with
  | EmptyString => false
  | String c' s' => Ascii.eqb c c' || has_char c s'
  end.

Definition hex_digit (n : N) : ascii :=
  if (n <? 10)%N then ascii_of_N (48 + n) else ascii_of_N (87 + n).

Definition repr_char (quote c : ascii) : string :=
  let n := N_of_ascii c in
  if Ascii.eqb c quote || Ascii.eqb c backslash then String backslash (String c EmptyString)
  else if (n =? 9)%N then String backslash "t"
  else if (n =? 10)%N then String backslash "n"
  else if (n =? 13)%N then String backslash "r"
  else if ((n <? 32) || (n =? 127))%N then
    String backslash
      (String "x" (String (hex_digit (n / 16)) (String (hex_digit (n mod 16)) EmptyString)))
  else String c EmptyString.

Fixpoint repr_chars (quote : ascii) (s : string) : string :=
  match s with
  | EmptyString => EmptyString
  | String c s' => (repr_char quote c ++ repr_chars quote s')%string
  end.

Definition repr_str (s : string) : string :=
  let quote := if has_char squote s && negb (has_char dquote s) then dquote else squote in
  String quote (repr_chars quote s ++ String quote EmptyString)%string.

(** ** Untyped values ([Any] in a JSON payload) *)

(** The values a price-history entry carries.  JSON numbers with a
    fraction are left out: their [repr] is made of digits, a sign, a
    point and [e], [inf] or [nan]. *)
#[local] Unset Elimination Schemes.
Inductive pyval : Type :=
| PyNone
| PyBool (b : bool)
| PyInt (z : Z)
| PyStr (s : string)
| PyList (l : list pyval)
| PyDict (d : list (string * pyval)).
#[local] Set Elimination Schemes.

(** [repr(v)]; [str(v)] of a [dict] or a [list] is its [repr]. *)
Fixpoint repr (v : pyval) : string :=
  match v with
  | PyNone => "None"
  | PyBool true => "True"
  | PyBool false => "False"
  | PyInt z => str_of_int z
  | PyStr s => repr_str s
  | PyList l => ("[" ++ join ", " (map repr l) ++ "]")%string
  | PyDict d =>
      ("{" ++ join ", " (map (fun kv => match kv with
                                        | (k, v') => repr_str k ++ ": " ++ repr v'
                                        end) d) ++ "}")%string
  end.

(** [str(d)] for a [Dict[str, Any]]. *)
Definition str_of_dict (d : list (string * pyval)) : string := repr (PyDict d).

(** ** Sorting *)

(** [sorted(l, key=..., reverse=True)] and [l.sort(key=..., reverse=True)]:
    descending, and equal keys keep their order. *)
Fixpoint insert_desc {A} (key : A -> Q) (x : A) (sorted : list A) : list A :=
  match sorted with
  | [] => [x]
  | y :: sorted' =>
      if Qleb (key y) (key x) then x :: y :: sorted'
      else y :: insert_desc key x sorted'
  end.

Fixpoint sort_desc {A} (key : A -> Q) (l : list A) : list A :=
  match l with
  | [] => []
  | x :: l' => insert_desc key x (sort_desc key l')
  end.

(** ** Insertion-ordered dictionaries with string keys *)

Section Dict.
Variable V : Type.

Definition dict := list (string * V).

(** [d.get(k)]. *)
Fixpoint dict_get (k : string) (d : dict) : option V :=
  match d with
  | [] => None
  | (k', v) :: d' => if String.eqb k k' then Some v else dict_get k d'
  end.

(** [d[k]]. *)
Definition subscript (d : dict) (k : string) : result V :=
  match dict_get k d with
  | Some v => Ok v
  | None => Raise (KeyError k)
  end.

(** [d[k] = v]: an existing key keeps its position. *)
Fixpoint dict_set (k : string) (v : V) (d : dict) : dict :=
  match d with
  | [] => [(k, v)]
  | (k', v') :: d' =>
      if String.eqb k k' then (k, v) :: d' else (k', v') :: dict_set k v d'
  end.

(** [del d[k]] for a key that is present. *)
Fixpoint dict_del (k : string) (d : dict) : dict :=
  match d with
  | [] => []
  | (k', v') :: d' =>
      if String.eqb k k' then d' else (k', v') :: dict_del k d'
  end.

Definition keys (d : dict) : list string := map fst d.
Definition values (d : dict) : list V := map snd d.
End Dict.

End Py.

Import Py.
Local Open Scope py_scope.

(* ================================================================== *)
(** * zillow_visual_scraper.py *)
(* ================================================================== *)

Module Scraper.

(** A point in time ([datetime]), in microseconds since the epoch. *)
Definition datetime := Z.

Record ZillowProperty : Type := {
  zpid : string;
  address : string;
  price : Z;
  bedrooms : Z;
  bathrooms : Q;
  sqft : Z;
  lot_size : option Q;
  year_built : option Z;
  property_type : string;
  listing_date : string;
  days_on_market : Z;
  price_history : list (list (string * pyval));
  photos : list string;
  description : string;
  neighborhood : string;
  zestimate : option Z;
  rent_zestimate : option Z
}.

Record PropertyAnalysisRequest : Type := {
  location : string;
  max_price : Z;
  min_price : Z;
  req_property_type : string;
  max_results : Z;
  include_photos : bool;
  enable_lattice_analysis : bool
}.

(** The request built from an empty body: every field has its default. *)
Definition default_request : PropertyAnalysisRequest := {|
  location := "Austin, TX";
  max_price := 500000;
  min_price := 50000;
  req_property_type := "single_family";
  max_results := 25;
  include_photos := true;
  enable_lattice_analysis := true
|}.

Record DistressSignal : Type := {
  price_below_market : bool;
  high_days_on_market : bool;
  price_reduction : bool;
  visual_distress : bool;
  neighborhood_decline : bool;
  geometric_anomaly : bool;
  overall_score : Q
}.

(** ** The visual-analysis dictionary *)

Record DistressIndicators : Type := {
  high_curvature_regions : Z;
  irregular_geometry : Q;
  visual_complexity : Z
}.

Record PhotoAnalysis : Type := {
  photo_index : Z;
  landmarks : list (list Q);
  curvatures : list Q;
  embedding_preview : list Q;
  distress_indicators : DistressIndicators
}.

(** [_summarize_geometric_features] returns [{}] or all four keys. *)
Record GeometricSummary : Type := {
  avg_curvature : option Q;
  max_curvature : option Q;
  curvature_variance : option Q;
  geometric_complexity : option Q
}.

Definition empty_summary : GeometricSummary :=
  {| avg_curvature := None; max_curvature := None;
     curvature_variance := None; geometric_complexity := None |}.

(** The [visual] dictionary: [overall_visual_score] and
    [geometric_summary] are read with [.get]. *)
Record VisualAnalysis : Type := {
  visual_analysis : list PhotoAnalysis;
  overall_visual_score : option Q;
  geometric_summary : option GeometricSummary
}.

Definition empty_visual : VisualAnalysis :=
  {| visual_analysis := []; overall_visual_score := None; geometric_summary := None |}.

(** ** The investment dictionary *)

(** Written in full by [generate_investment_analysis]; the marketplace
    reads [roi_percentage] with [.get]. *)
Record InvestmentDict : Type := {
  market_value : option Z;
  current_price : option Z;
  estimated_repairs : option Q;
  potential_profit : option Q;
  roi_percentage : option Q;
  investment_grade : option string;
  risk_factors : option (list string)
}.

Record MarketPosition : Type := {
  price_ratio : Q;
  market_time : Z;
  competition_level : string
}.

Record PropertyIntelligence : Type := {
  property : ZillowProperty;
  distress_signals : DistressSignal;
  geometric_analysis : VisualAnalysis;
  market_position : option MarketPosition;
  investment_opportunity : InvestmentDict;
  contract_recommendation : string
}.

(** ** Signal extractor *)

(** [visual.get("overall_visual_score", 0)]. *)
Definition get_overall_visual_score (visual : VisualAnalysis) : Q :=
  match overall_visual_score visual with
  | Some x => x
  | None => 0
  end.

(** [visual.get("geometric_summary", {}).get("geometric_complexity", 0)]. *)
Definition get_geometric_complexity (visual : VisualAnalysis) : Q :=
  match geometric_summary visual with
  | Some g => match geometric_complexity g with
              | Some x => x
              | None => 0
              end
  | None => 0
  end.

Definition detect_distress_signals
  (property : ZillowProperty) (visual : VisualAnalysis) : result DistressSignal :=
  let price_below_market :=
    match zestimate property with
    | Some z =>
        if truthy_int z
        then Qltb (inject_Z (price property)) (inject_Z z * 0.85)
        else false
    | None => false
    end in
  let high_days_on_market := (60 <? days_on_market property)%Z in
  let price_reduction :=
    existsb (fun change => contains "reduction" (lower (str_of_dict change)))
            (price_history property) in
  let visual_distress := Qltb 50 (get_overall_visual_score visual) in
  let neighborhood_decline :=
    existsb (fun keyword => contains keyword (lower (description property)))
            ["foreclosure"; "as-is"; "distress"]%string in
  let geometric_anomaly := Qltb 100 (get_geometric_complexity visual) in
  let signals :=
    [price_below_market; high_days_on_market; price_reduction;
     visual_distress; neighborhood_decline; geometric_anomaly] in
  ratio <- truediv (inject_Z (sum_bools signals)) (inject_Z (len signals)) ;;
  let overall_score := ratio * 100 in
  Ok {| price_below_market := price_below_market;
        high_days_on_market := high_days_on_market;
        price_reduction := price_reduction;
        visual_distress := visual_distress;
        neighborhood_decline := neighborhood_decline;
        geometric_anomaly := geometric_anomaly;
        overall_score := overall_score |}.

(** ** Investment analyzer *)

Definition generate_investment_analysis
  (property : ZillowProperty) (distress : DistressSignal) : result InvestmentDict :=
  let market_value := or_int (zestimate property) (price property) in
  let repairs := if visual_distress distress then inject_Z market_value * 0.15 else 0 in
  let total_investment := inject_Z (price property) + repairs in
  let potential_profit := inject_Z market_value - total_investment in
  roi <- (if truthy total_investment
          then q <- truediv potential_profit total_investment ;; Ok (q * 100)
          else Ok 0) ;;
  let risk_factors :=
    (if high_days_on_market distress then ["Market resistance"%string] else [])
    ++ (if visual_distress distress then ["Repair uncertainty"%string] else [])
    ++ (if neighborhood_decline distress then ["Area decline"%string] else []) in
  let investment_grade :=
    (if Qltb 25 roi then "A" else if Qltb 15 roi then "B" else "C")%string in
  Ok {| market_value := Some market_value;
        current_price := Some (price property);
        estimated_repairs := Some repairs;
        potential_profit := Some potential_profit;
        roi_percentage := Some roi;
        investment_grade := Some investment_grade;
        risk_factors := Some risk_factors |}.

(** ** Photo analysis *)

(** What one pass through the lattice yields for a photo:
    [extract_landmarks], [compute_curvature] and [embed_graph], and the
    standard deviation numpy computes for the curvatures (a square root,
    so it is taken from numpy rather than recomputed). *)
Record LatticeOut : Type := {
  lo_landmarks : list (list Q);
  lo_curvatures : list Q;
  lo_curvatures_std : Q;
  lo_embedding : list Q
}.

(** The scraper object and the calls it has made to the outside world. *)
Record World : Type := {
  requests : list string;          (* URLs given to [requests.get], oldest first *)
  lattice_runs : nat;              (* photos passed through the lattice *)
  gpt_calls : nat;                 (* calls of [scrape_properties_via_gpt] *)
  clock_reads : nat;               (* calls of [datetime.now] *)
  analysis_history : list datetime (* [scraper.analysis_history] *)
}.

Definition initial_world : World :=
  {| requests := []; lattice_runs := 0; gpt_calls := 0; clock_reads := 0;
     analysis_history := [] |}.

Definition sum_Q (l : list Q) : Q := fold_left Qplus l 0.

(** [a.mean()], [a.max()] and [a.var()] of a non-empty numpy array. *)
Definition np_mean (a : list Q) : Q := sum_Q a / inject_Z (len a).
Definition np_max (a : list Q) : Q :=
  match a with
  | [] => 0
  | x :: a' => fold_left Qmax a' x
  end.
Definition np_var (a : list Q) : Q :=
  let m := np_mean a in
  np_mean (map (fun x => (x - m) * (x - m)) a).

Definition _calculate_visual_distress_score (analyses : list PhotoAnalysis) : result Q :=
  match analyses with
  | [] => Ok 0
  | _ =>
      let total :=
        fold_left
          (fun total item =>
             let distress := distress_indicators item in
             total
             + (inject_Z (high_curvature_regions distress) * 10
                + irregular_geometry distress * 20
                + Qmin (inject_Z (visual_complexity distress) / 10) 5))
          analyses 0 in
      q <- truediv total (inject_Z (len analyses)) ;;
      Ok (Qmin q 100)
  end.

(** A reduction over an empty array: [mean] gives NaN with a warning, and
    [max], evaluated next, raises [ValueError]. *)
Definition _summarize_geometric_features
  (analyses : list PhotoAnalysis) : result GeometricSummary :=
  match analyses with
  | [] => Ok empty_summary
  | _ =>
      let curvatures := List.concat (map curvatures analyses) in
      match curvatures with
      | [] => Raise ValueError
      | _ =>
          Ok {| avg_curvature := Some (np_mean curvatures);
                max_curvature := Some (np_max curvatures);
                curvature_variance := Some (np_var curvatures);
                geometric_complexity :=
                  Some (np_var curvatures + inject_Z (len curvatures)) |}
      end
  end.

Section Service.

(** The outside world.  Each answer may depend on how many calls came
    before it. *)
Variable http_get : nat -> string -> bool.   (* [requests.get] + [raise_for_status] went through *)
Variable lattice_run : nat -> LatticeOut.
Variable clock : nat -> datetime.
Variable Diagnostics : Type.
Variable get_triad_diagnostics : Diagnostics.

(** [scrape_properties_via_gpt]: the listings GPT answered with, or the
    [HTTPException] (500) raised for a missing key or a failed call. *)
Variable scrape_properties_via_gpt :
  nat -> PropertyAnalysisRequest -> result (list ZillowProperty).

Definition fetch (url : string) : M World bool :=
  fun w =>
    (Ok (http_get (List.length (requests w)) url),
     {| requests := requests w ++ [url];
        lattice_runs := lattice_runs w;
        gpt_calls := gpt_calls w;
        clock_reads := clock_reads w;
        analysis_history := analysis_history w |}).

Definition run_lattice : M World LatticeOut :=
  fun w =>
    (Ok (lattice_run (lattice_runs w)),
     {| requests := requests w;
        lattice_runs := S (lattice_runs w);
        gpt_calls := gpt_calls w;
        clock_reads := clock_reads w;
        analysis_history := analysis_history w |}).

Definition datetime_now : M World datetime :=
  fun w =>
    (Ok (clock (clock_reads w)),
     {| requests := requests w;
        lattice_runs := lattice_runs w;
        gpt_calls := gpt_calls w;
        clock_reads := S (clock_reads w);
        analysis_history := analysis_history w |}).

Definition call_gpt (request : PropertyAnalysisRequest) : M World (list ZillowProperty) :=
  fun w =>
    (scrape_properties_via_gpt (gpt_calls w) request,
     {| requests := requests w;
        lattice_runs := lattice_runs w;
        gpt_calls := S (gpt_calls w);
        clock_reads := clock_reads w;
        analysis_history := analysis_history w |}).

Definition append_history (t : datetime) : M World unit :=
  modify (fun w =>
    {| requests := requests w;
       lattice_runs := lattice_runs w;
       gpt_calls := gpt_calls w;
       clock_reads := clock_reads w;
       analysis_history := analysis_history w ++ [t] |}).

Definition photo_entry (index : Z) (out : LatticeOut) : PhotoAnalysis :=
  {| photo_index := index;
     landmarks := lo_landmarks out;
     curvatures := lo_curvatures out;
     embedding_preview := firstn 10 (lo_embedding out);
     distress_indicators :=
       {| high_curvature_regions :=
            len (filter (fun c => Qltb 0.7 c) (lo_curvatures out));
          irregular_geometry := lo_curvatures_std out;
          visual_complexity := len (lo_landmarks out) |} |}.

(** The body of [for index, url in enumerate(...)]: a failed fetch skips
    the photo. *)
Fixpoint photo_loop (index : Z) (urls : list string) (analyses : list PhotoAnalysis)
  : M World (list PhotoAnalysis) :=
  match urls with
  | [] => ret analyses
  | url :: urls' =>
      fetched <~ fetch url ;;
      if fetched : bool
      then out <~ run_lattice ;;
           photo_loop (index + 1) urls' (analyses ++ [photo_entry index out])
      else photo_loop (index + 1) urls' analyses
  end.

Definition analyze_property_photos (photo_urls : list string) : M World VisualAnalysis :=
  match photo_urls with
  | [] => ret {| visual_analysis := []; overall_visual_score := Some 0;
                 geometric_summary := None |}
  | _ =>
      analyses <~ photo_loop 0 (firstn 3 photo_urls) [] ;;
      score <~ lift (_calculate_visual_distress_score analyses) ;;
      summary <~ lift (_summarize_geometric_features analyses) ;;
      ret {| visual_analysis := analyses;
             overall_visual_score := Some score;
             geometric_summary := Some summary |}
  end.

(** ** [POST /scrape-properties] *)

Record ScrapeResponse : Type := {
  total_properties_found : Z;
  analyzed_properties : Z;
  high_priority_leads : Z;
  properties : list PropertyIntelligence;
  lattice_diagnostics : Diagnostics;
  analysis_timestamp : datetime
}.

(** The body of [for prop in properties[:10]]. *)
Definition analyze_property (prop : ZillowProperty) : M World PropertyIntelligence :=
  visual <~ analyze_property_photos (photos prop) ;;
  distress <~ lift (detect_distress_signals prop visual) ;;
  investment <~ lift (generate_investment_analysis prop distress) ;;
  let contract_rec :=
    (if Qltb 70 (overall_score distress) then "IMMEDIATE_OFFER" else "WATCH_LIST")%string in
  ratio <~ lift (match zestimate prop with
                 | Some z => if truthy_int z
                             then truediv (inject_Z (price prop)) (inject_Z z)
                             else Ok 1
                 | None => Ok 1
                 end) ;;
  ret {| property := prop;
         distress_signals := distress;
         geometric_analysis := visual;
         market_position :=
           Some {| price_ratio := ratio;
                   market_time := days_on_market prop;
                   competition_level :=
                     if (60 <? days_on_market prop)%Z then "LOW" else "HIGH" |};
         investment_opportunity := investment;
         contract_recommendation := contract_rec |}.

Fixpoint analyze_loop (props : list ZillowProperty) (analyzed : list PropertyIntelligence)
  : M World (list PropertyIntelligence) :=
  match props with
  | [] => ret analyzed
  | prop :: props' =>
      intel <~ analyze_property prop ;;
      analyze_loop props' (analyzed ++ [intel])
  end.

Definition scrape_properties (request : PropertyAnalysisRequest) : M World ScrapeResponse :=
  properties <~ call_gpt request ;;
  analyzed <~ analyze_loop (firstn 10 properties) [] ;;
  let analyzed := sort_desc (fun a => overall_score (distress_signals a)) analyzed in
  stamp <~ datetime_now ;;
  append_history stamp ;;;
  now <~ datetime_now ;;
  ret {| total_properties_found := len properties;
         analyzed_properties := len analyzed;
         high_priority_leads :=
           len (filter (fun item => Qltb 70 (overall_score (distress_signals item))) analyzed);
         properties := analyzed;
         lattice_diagnostics := get_triad_diagnostics;
         analysis_timestamp := now |}.

(** ** The service and its three endpoints *)

(** The [ZillowVisualScraper] object: what [scrape_properties] reads and
    writes, and the [property_cache] that [__init__] creates. *)
Record ZillowVisualScraper : Type := {
  world : World;
  property_cache : dict PropertyIntelligence
}.

Definition scraper : ZillowVisualScraper :=
  {| world := initial_world; property_cache := [] |}.

(** Code that works on the [world] of the service. *)
Definition on_world {A} (m : M World A) : M ZillowVisualScraper A :=
  fun s =>
    (fst (m (world s)),
     {| world := snd (m (world s)); property_cache := property_cache s |}).

Inductive Request : Type :=
| PostScrapeProperties (request : PropertyAnalysisRequest)
| GetHealth
| GetMetrics.

Inductive Response : Type :=
| Scraped (response : ScrapeResponse)
| Health (status : string) (analysis_runs : Z)
| Metrics (properties_analyzed : Z) (cache_size : Z) (lattice_performance : Diagnostics).

Definition health_check : M ZillowVisualScraper Response :=
  s <~ get ;;
  ret (Health "ok" (len (analysis_history (world s)))).

Definition metrics : M ZillowVisualScraper Response :=
  s <~ get ;;
  ret (Metrics (len (analysis_history (world s))) (len (property_cache s))
         get_triad_diagnostics).

Definition handle (request : Request) : M ZillowVisualScraper Response :=
  match request with
  | PostScrapeProperties request =>
      response <~ on_world (scrape_properties request) ;;
      ret (Scraped response)
  | GetHealth => health_check
  | GetMetrics => metrics
  end.

(** The service after a sequence of requests, whatever each one answered
    or raised. *)
Definition run (requests : list Request) (s : ZillowVisualScraper) : ZillowVisualScraper :=
  fold_left (fun s request => snd (handle request s)) requests s.

End Service.

End Scraper.

(* ================================================================== *)
(** * secondary_market_eve.py *)
(* ================================================================== *)

Module Market.

Import Scraper.

Inductive LeadTier : Type := BRONZE | SILVER | GOLD | PLATINUM.

(** [tier.value]. *)
Definition value (tier : LeadTier) : string :=
  match tier with
  | BRONZE => "bronze"
  | SILVER => "silver"
  | GOLD => "gold"
  | PLATINUM => "platinum"
  end.

Definition tier_eqb (a b : LeadTier) : bool :=
  match a, b with
  | BRONZE, BRONZE | SILVER, SILVER | GOLD, GOLD | PLATINUM, PLATINUM => true
  | _, _ => false
  end.

Record InvestorProfile : Type := {
  investor_id : string;
  name : string;
  email : string;
  phone : option string;
  preferred_markets : list string;
  price_range : dict Z;
  property_types : list string;
  investment_strategy : string;
  risk_tolerance : string;
  deal_velocity : Z;
  subscription_tier : LeadTier;
  credit_balance : Q;
  last_purchase : option datetime
}.

Record LeadPackage : Type := {
  package_id : string;
  property_intelligence : PropertyIntelligence;
  lead_tier : LeadTier;
  price : Q;
  geometric_analysis_included : bool;
  contract_template_included : bool;
  market_comps_included : bool;
  roi_projection : InvestmentDict;
  exclusive_period_hours : Z;
  created_at : datetime;
  expires_at : datetime
}.

Record PreviewData : Type := {
  preview_bedrooms : Z;
  preview_bathrooms : Q;
  preview_sqft : Z;
  preview_days_on_market : Z;
  price_below_zestimate : bool
}.

Record MarketplaceListing : Type := {
  listing_id : string;
  title : string;
  description : string;
  location : string;
  listing_price_range : string;
  distress_score : Q;
  roi_potential : string;
  listing_lead_tier : LeadTier;
  package_price : Q;
  preview_data : PreviewData;
  full_package_id : string
}.

(** [revenue_metrics]: a dictionary with five fixed keys. *)
Record RevenueMetrics : Type := {
  total_sales : Q;
  packages_sold : Q;
  avg_package_price : Q;
  conversion_rate : Q;
  monthly_recurring : Q
}.

(** What [_notify_investor] prints: one line per channel. *)
Inductive Channel : Type := Email | SMS.

Record Notification : Type := {
  channel : Channel;
  recipient : string;
  notified_investor_id : string;
  notified_package_id : string;
  notified_lead_tier : string;
  notified_price : Q;
  notified_distress_score : Q
}.

(** The [SecondaryMarketEve] object, and the calls made to the outside
    world so far. *)
Record World : Type := {
  investors : dict InvestorProfile;
  lead_packages : dict LeadPackage;
  marketplace_listings : dict MarketplaceListing;
  revenue_metrics : RevenueMetrics;
  stdout : list Notification;  (* printed lines, oldest first *)
  clock_reads : nat;           (* calls of [datetime.now] *)
  stripe_calls : nat           (* calls of [stripe.PaymentIntent.create] *)
}.

Definition initial_world : World :=
  {| investors := [];
     lead_packages := [];
     marketplace_listings := [];
     revenue_metrics :=
       {| total_sales := 0; packages_sold := 0; avg_package_price := 0;
          conversion_rate := 0; monthly_recurring := 0 |};
     stdout := [];
     clock_reads := 0;
     stripe_calls := 0 |}.

(** [pricing_ai["base_prices"][tier]]. *)
Definition base_prices (tier : LeadTier) : Q :=
  match tier with
  | BRONZE => 50
  | SILVER => 150
  | GOLD => 300
  | PLATINUM => 500
  end.

(** ** Tier classifier *)

(** [intel.investment_opportunity.get("roi_percentage", 0)]. *)
Definition get_roi_percentage (intel : PropertyIntelligence) : Q :=
  match roi_percentage (investment_opportunity intel) with
  | Some roi => roi
  | None => 0
  end.

Definition _classify_lead_tier (intel : PropertyIntelligence) : LeadTier :=
  let distress := overall_score (distress_signals intel) in
  let roi := get_roi_percentage intel in
  let has_photos := match photos (property intel) with [] => false | _ => true end in
  let geom_score := get_overall_visual_score (geometric_analysis intel) in
  if Qltb 70 distress && Qltb 20 roi
     && String.eqb (contract_recommendation intel) "IMMEDIATE_OFFER"
  then PLATINUM
  else if Qltb 60 distress && Qltb 15 roi && Qltb 0 geom_score
  then GOLD
  else if Qltb 50 distress && Qltb 12 roi && has_photos
  then SILVER
  else BRONZE.

Definition _calculate_market_multiplier (neighborhood : string) : Q :=
  let hot_markets := ["austin"; "dallas"; "houston"; "atlanta"; "phoenix"]%string in
  if existsb (fun city => contains city (lower neighborhood)) hot_markets
  then 1.5
  else 1.0.

(** ** Marketplace *)

Definition set_listings (f : dict MarketplaceListing -> dict MarketplaceListing)
  (w : World) : World :=
  {| investors := investors w;
     lead_packages := lead_packages w;
     marketplace_listings := f (marketplace_listings w);
     revenue_metrics := revenue_metrics w;
     stdout := stdout w;
     clock_reads := clock_reads w;
     stripe_calls := stripe_calls w |}.

Definition set_packages (f : dict LeadPackage -> dict LeadPackage) (w : World) : World :=
  {| investors := investors w;
     lead_packages := f (lead_packages w);
     marketplace_listings := marketplace_listings w;
     revenue_metrics := revenue_metrics w;
     stdout := stdout w;
     clock_reads := clock_reads w;
     stripe_calls := stripe_calls w |}.

Definition set_investors (f : dict InvestorProfile -> dict InvestorProfile)
  (w : World) : World :=
  {| investors := f (investors w);
     lead_packages := lead_packages w;
     marketplace_listings := marketplace_listings w;
     revenue_metrics := revenue_metrics w;
     stdout := stdout w;
     clock_reads := clock_reads w;
     stripe_calls := stripe_calls w |}.

Definition set_metrics (f : RevenueMetrics -> RevenueMetrics) (w : World) : World :=
  {| investors := investors w;
     lead_packages := lead_packages w;
     marketplace_listings := marketplace_listings w;
     revenue_metrics := f (revenue_metrics w);
     stdout := stdout w;
     clock_reads := clock_reads w;
     stripe_calls := stripe_calls w |}.

Definition print (n : Notification) : M World unit :=
  modify (fun w =>
    {| investors := investors w;
       lead_packages := lead_packages w;
       marketplace_listings := marketplace_listings w;
       revenue_metrics := revenue_metrics w;
       stdout := stdout w ++ [n];
       clock_reads := clock_reads w;
       stripe_calls := stripe_calls w |}).

Definition _create_marketplace_listing (package : LeadPackage) : M World unit :=
  let prop := property (property_intelligence package) in
  let intel := property_intelligence package in
  let listing :=
    {| listing_id := "LIST_" ++ package_id package;
       title := "Distressed Property - " ++ slice_to 32 (address prop);
       description :=
         Py.title (value (lead_tier package)) ++ " tier lead with "
         ++ format_fixed 0 (overall_score (distress_signals intel))
         ++ "% distress score";
       location := neighborhood prop;
       listing_price_range := "$" ++ format_thousands (Scraper.price prop);
       distress_score := overall_score (distress_signals intel);
       roi_potential := format_fixed 1 (get_roi_percentage intel) ++ "%";
       listing_lead_tier := lead_tier package;
       package_price := price package;
       preview_data :=
         {| preview_bedrooms := bedrooms prop;
            preview_bathrooms := bathrooms prop;
            preview_sqft := sqft prop;
            preview_days_on_market := days_on_market prop;
            price_below_zestimate := price_below_market (distress_signals intel) |};
       full_package_id := package_id package |}%string in
  modify (set_listings (dict_set (listing_id listing) listing)).

Definition _notify_investor (investor : InvestorProfile) (package : LeadPackage)
  : M World unit :=
  let payload (ch : Channel) (to : string) :=
    {| channel := ch;
       recipient := to;
       notified_investor_id := investor_id investor;
       notified_package_id := package_id package;
       notified_lead_tier := value (lead_tier package);
       notified_price := price package;
       notified_distress_score :=
         overall_score (distress_signals (property_intelligence package)) |} in
  print (payload Email (email investor)) ;;;
  match phone investor with
  | Some number =>
      if truthy_opt_str (phone investor) then print (payload SMS number) else ret tt
  | None => ret tt
  end.

(** The three tests of the matching loop, in order; an investor that
    fails one is skipped.  The upper bound is read only when the price is
    not under the lower one. *)
Definition investor_matches (prop : ZillowProperty) (investor : InvestorProfile)
  : result bool :=
  if negb (existsb (fun market => contains (lower market) (lower (address prop)))
                   (preferred_markets investor))
  then Ok false
  else
    lowest <- subscript (price_range investor) "min" ;;
    if (Scraper.price prop <? lowest)%Z then Ok false
    else
      highest <- subscript (price_range investor) "max" ;;
      if (highest <? Scraper.price prop)%Z then Ok false
      else Ok (str_in (Scraper.property_type prop) (property_types investor)).

(** The first loop: the investors that match, in the order of the
    dictionary. *)
Fixpoint matching_investors (prop : ZillowProperty) (candidates : list InvestorProfile)
  (matches : list InvestorProfile) : result (list InvestorProfile) :=
  match candidates with
  | [] => Ok matches
  | investor :: candidates' =>
      matched <- investor_matches prop investor ;;
      matching_investors prop candidates'
        (if matched : bool then matches ++ [investor] else matches)
  end.

(** The second loop. *)
Fixpoint notify_all (matches : list InvestorProfile) (package : LeadPackage)
  : M World unit :=
  match matches with
  | [] => ret tt
  | investor :: matches' =>
      _notify_investor investor package ;;;
      notify_all matches' package
  end.

Definition _match_with_investors (package : LeadPackage) : M World unit :=
  let prop := property (property_intelligence package) in
  w <~ get ;;
  matches <~ lift (matching_investors prop (values (investors w)) []) ;;
  notify_all matches package.

(** The loop of [_remove_from_marketplace]: the id of the first listing,
    in insertion order, that points to the package. *)
Fixpoint first_listing_of (package_id : string) (items : dict MarketplaceListing)
  : option string :=
  match items with
  | [] => None
  | (listing_id, listing) :: items' =>
      if String.eqb (full_package_id listing) package_id
      then Some listing_id
      else first_listing_of package_id items'
  end.

Definition _remove_from_marketplace (package_id : string)
  (listings : dict MarketplaceListing) : dict MarketplaceListing :=
  match first_listing_of package_id listings with
  | Some listing_id => dict_del listing_id listings
  | None => listings
  end.

Record FullPackage : Type := {
  property_details : PropertyIntelligence;
  full_geometric_analysis : option VisualAnalysis;
  contract_template : string;
  market_comps : option (list (list (string * pyval)));
  roi_calculator : InvestmentDict
}.

Definition _prepare_full_package (package : LeadPackage) : FullPackage :=
  {| property_details := property_intelligence package;
     full_geometric_analysis :=
       if geometric_analysis_included package
       then Some (geometric_analysis (property_intelligence package))
       else None;
     contract_template := "Contract template generated...";
     market_comps :=
       if market_comps_included package
       then Some [[("comp"%string, PyStr "example")]]
       else None;
     roi_calculator := roi_projection package |}.

(** ** The service *)

(** What [stripe.PaymentIntent.create] is called with. *)
Record PaymentRequest : Type := {
  amount : Z;
  currency : string;
  payment_method : string;
  customer : string;
  payment_description : string;
  confirm : bool
}.

(** What it answers: a payment intent, or an exception of the client. *)
Inductive StripeOutcome : Type :=
| PaymentIntent (id : string) (status : string)
| StripeRaises (message : string).

(** The result dictionary of [process_purchase]. *)
Inductive PurchaseResult : Type :=
| PurchaseFailed (error : string)   (* [purchase_successful] is [False] *)
| PurchaseSucceeded (payment_intent_id : string) (package_data : FullPackage)
    (exclusive_until : datetime).   (* [purchase_successful] is [True] *)

Definition purchase_successful (r : PurchaseResult) : bool :=
  match r with
  | PurchaseFailed _ => false
  | PurchaseSucceeded _ _ _ => true
  end.

Section Service.

(** The outside world.  Each answer may depend on how many calls came
    before it. *)
Variable clock : nat -> datetime.
Variable stripe_api_key : option string.   (* [os.getenv("STRIPE_SECRET_KEY")] *)
Variable stripe_create : nat -> PaymentRequest -> StripeOutcome.

Definition datetime_now : M World datetime :=
  fun w =>
    (Ok (clock (clock_reads w)),
     {| investors := investors w;
        lead_packages := lead_packages w;
        marketplace_listings := marketplace_listings w;
        revenue_metrics := revenue_metrics w;
        stdout := stdout w;
        clock_reads := S (clock_reads w);
        stripe_calls := stripe_calls w |}).

Definition call_stripe (request : PaymentRequest) : M World StripeOutcome :=
  fun w =>
    (Ok (stripe_create (stripe_calls w) request),
     {| investors := investors w;
        lead_packages := lead_packages w;
        marketplace_listings := marketplace_listings w;
        revenue_metrics := revenue_metrics w;
        stdout := stdout w;
        clock_reads := clock_reads w;
        stripe_calls := S (stripe_calls w) |}).

(** [int(t.timestamp())]: the whole seconds of the reading.  The
    timestamp is a binary64 number; its integer part is the whole seconds
    for every reading from 1970 to 2242
    ([NumFacts.timestamp_whole_seconds]). *)
Definition timestamp_int (t : datetime) : Z := (t ÷ 1000000)%Z.

(** [timedelta(days=7)]. *)
Definition seven_days : Z := (7 * 86400 * 1000000)%Z.

Definition process_overflow_lead (property_intel : PropertyIntelligence)
  : M World (option LeadPackage) :=
  let distress_score := overall_score (distress_signals property_intel) in
  let roi_potential := get_roi_percentage property_intel in
  if Qltb distress_score 40 || Qltb roi_potential 10 then ret None
  else
    let tier := _classify_lead_tier property_intel in
    let base_price := base_prices tier in
    let final_price :=
      base_price * _calculate_market_multiplier (neighborhood (property property_intel)) in
    stamp <~ datetime_now ;;
    let package_id :=
      ("PKG_" ++ zpid (property property_intel) ++ "_"
       ++ str_of_int (timestamp_int stamp))%string in
    created <~ datetime_now ;;
    expiry_base <~ datetime_now ;;
    let package :=
      {| package_id := package_id;
         property_intelligence := property_intel;
         lead_tier := tier;
         price := final_price;
         geometric_analysis_included := tier_eqb tier GOLD || tier_eqb tier PLATINUM;
         contract_template_included := tier_eqb tier PLATINUM;
         market_comps_included := negb (tier_eqb tier BRONZE);
         roi_projection := investment_opportunity property_intel;
         exclusive_period_hours := if tier_eqb tier PLATINUM then 24 else 12;
         created_at := created;
         expires_at := (expiry_base + seven_days)%Z |} in
    modify (set_packages (dict_set package_id package)) ;;;
    _create_marketplace_listing package ;;;
    _match_with_investors package ;;;
    ret (Some package).

(** The arguments of [stripe.PaymentIntent.create]. *)
Definition payment_request (package : LeadPackage) (investor : InvestorProfile)
  (package_id payment_method_id : string) : PaymentRequest :=
  {| amount := int_of_float (price package * 100);
     currency := "usd";
     payment_method := payment_method_id;
     customer := investor_id investor;
     payment_description := "Real Estate Lead Package: " ++ package_id;
     confirm := true |}.

Definition process_purchase (investor_id package_id payment_method_id : string)
  : M World PurchaseResult :=
  w <~ get ;;
  match dict_get package_id (lead_packages w) with
  | None => raise (HTTPException 404 "Package not found")
  | Some package =>
      match dict_get investor_id (investors w) with
      | None => raise (HTTPException 404 "Investor not found")
      | Some investor =>
          if negb (truthy_opt_str stripe_api_key)
          then raise (HTTPException 500 "Stripe key missing")
          else
            outcome <~ call_stripe
              (payment_request package investor package_id payment_method_id) ;;
            match outcome with
            | StripeRaises message => raise (StripeError message)
            | PaymentIntent intent_id status =>
                if negb (String.eqb status "succeeded")
                then ret (PurchaseFailed "Payment failed")
                else
                  let lead_payload := _prepare_full_package package in
                  modify (set_metrics (fun m =>
                    {| total_sales := total_sales m + price package;
                       packages_sold := packages_sold m;
                       avg_package_price := avg_package_price m;
                       conversion_rate := conversion_rate m;
                       monthly_recurring := monthly_recurring m |})) ;;;
                  modify (set_metrics (fun m =>
                    {| total_sales := total_sales m;
                       packages_sold := packages_sold m + 1;
                       avg_package_price := avg_package_price m;
                       conversion_rate := conversion_rate m;
                       monthly_recurring := monthly_recurring m |})) ;;;
                  modify (set_listings (_remove_from_marketplace package_id)) ;;;
                  ret (PurchaseSucceeded intent_id lead_payload (expires_at package))
            end
      end
  end.

(** ** Endpoints *)

Inductive Request : Type :=
| PostRegisterInvestor (investor : InvestorProfile)
| PostProcessOverflowLead (payload : PropertyIntelligence)
| GetMarketplace
| PostPurchaseLead (investor_id package_id payment_method_id : string)
| GetRevenueDashboard.

Inductive Response : Type :=
| Registered (investor_id : string) (subscription_tier : string)
| PackageNotCreated (reason : string)      (* [package_created] is [False] *)
| PackageCreated (package_id : string) (lead_tier : string) (price : Q)
| Marketplace (total_listings : Z) (listings : list MarketplaceListing)
    (metrics : RevenueMetrics)
| Purchase (result : PurchaseResult)
| Dashboard (metrics : RevenueMetrics) (active_packages : Z)
    (listed : Z) (registered_investors : Z).

Definition register_investor (investor : InvestorProfile) : M World Response :=
  modify (set_investors (dict_set (investor_id investor) investor)) ;;;
  ret (Registered (investor_id investor) (value (subscription_tier investor))).

Definition process_overflow_lead_endpoint (payload : PropertyIntelligence)
  : M World Response :=
  package <~ process_overflow_lead payload ;;
  match package with
  | None => ret (PackageNotCreated "Lead quality below threshold")
  | Some package =>
      ret (PackageCreated (package_id package) (value (lead_tier package)) (price package))
  end.

Definition marketplace : M World Response :=
  w <~ get ;;
  let listings := sort_desc distress_score (values (marketplace_listings w)) in
  ret (Marketplace (len listings) listings (revenue_metrics w)).

Definition purchase_lead (investor_id package_id payment_method_id : string)
  : M World Response :=
  result <~ process_purchase investor_id package_id payment_method_id ;;
  ret (Purchase result).

Definition revenue_dashboard : M World Response :=
  w <~ get ;;
  let metrics := revenue_metrics w in
  avg <~ lift (if truthy (packages_sold metrics)
               then truediv (total_sales metrics) (packages_sold metrics)
               else Ok 0) ;;
  modify (set_metrics (fun m =>
    {| total_sales := total_sales m;
       packages_sold := packages_sold m;
       avg_package_price := avg;
       conversion_rate := conversion_rate m;
       monthly_recurring := monthly_recurring m |})) ;;;
  w' <~ get ;;
  ret (Dashboard (revenue_metrics w') (len (lead_packages w'))
         (len (marketplace_listings w')) (len (investors w'))).

Definition handle (request : Request) : M World Response :=
  match request with
  | PostRegisterInvestor investor => register_investor investor
  | PostProcessOverflowLead payload => process_overflow_lead_endpoint payload
  | GetMarketplace => marketplace
  | PostPurchaseLead investor_id package_id payment_method_id =>
      purchase_lead investor_id package_id payment_method_id
  | GetRevenueDashboard => revenue_dashboard
  end.

(** The service after a sequence of requests, whatever each one answered
    or raised. *)
Definition run (requests : list Request) (w : World) : World :=
  fold_left (fun w request => snd (handle request w)) requests w.

End Service.

End Market.

(* ================================================================== *)
(** * Python's numbers: [int] and binary64 [float] *)
(* ================================================================== *)

Module Num.

(** ** binary64

    A Python [float] is an IEEE 754 double: not a number, an infinity, a
    zero (each with its sign), or a finite value other than zero, kept
    as the rational it stands for.  Operations round to nearest, ties to
    even. *)

Inductive float : Type :=
| NaN
| Inf (negative : bool)
| Zero (negative : bool)
| Finite (q : Q).

(** The exponent of [x > 0]: the [e] with [2^e <= x < 2^(e+1)]. *)
Definition Qlog2 (x : Q) : Z :=
  let e0 := (Z.log2 (Qnum x) - Z.log2 (Z.pos (Qden x)))%Z in
  if Qltb x (2 ^ e0) then (e0 - 1)%Z else e0.

(** The exponent of the smallest subnormal number, [2^-1074]. *)
Definition emin : Z := (-1074)%Z.

(** The exponent of the unit in the last place of the doubles around
    [x > 0]: 53 significant bits, and no less than [emin]. *)
Definition ulp_exponent (x : Q) : Z := Z.max (Qlog2 x - 52) emin.

(** The multiple of that unit nearest to [x > 0], ties to even. *)
Definition round_pos (x : Q) : Q :=
  let e := ulp_exponent x in
  inject_Z (round_half_even (x / 2 ^ e)) * 2 ^ e.

(** Half way between the largest double and [2^1024]: from here on a
    number rounds to an infinity, and an [int] does not convert. *)
Definition overflow_threshold : Z := (2 ^ 1024 - 2 ^ 970)%Z.

(** The double nearest to [x]. *)
Definition round (x : Q) : float :=
  if Qeq_bool x 0 then Zero false
  else if Qleb (inject_Z overflow_threshold) (Qabs x) then Inf (Qltb x 0)
  else
    let r := round_pos (Qabs x) in
    if Qeq_bool r 0 then Zero (Qltb x 0)
    else Finite (Qred (if Qltb x 0 then - r else r)).

(** A literal: the double nearest to the decimal written. *)
Definition lit (q : Q) : float := round q.

(** The value of a finite double (0 for the others). *)
Definition value (x : float) : Q :=
  match x with
  | Finite q => q
  | _ => 0
  end.

(** The sign bit. *)
Definition negative (x : float) : bool :=
  match x with
  | NaN => false
  | Inf s | Zero s => s
  | Finite q => Qltb q 0
  end.

(** [-x], [x * y], [x + y], [x - y] and [x / y] on doubles ([x / y] for
    [y] other than zero: Python raises before dividing by zero). *)
Definition fopp (x : float) : float :=
  match x with
  | NaN => NaN
  | Inf s => Inf (negb s)
  | Zero s => Zero (negb s)
  | Finite q => Finite (- q)
  end.

Definition fmul (x y : float) : float :=
  match x, y with
  | NaN, _ | _, NaN => NaN
  | Inf _, Zero _ | Zero _, Inf _ => NaN
  | Inf _, _ | _, Inf _ => Inf (xorb (negative x) (negative y))
  | Zero _, _ | _, Zero _ => Zero (xorb (negative x) (negative y))
  | Finite a, Finite b => round (a * b)
  end.

Definition fadd (x y : float) : float :=
  match x, y with
  | NaN, _ | _, NaN => NaN
  | Inf s1, Inf s2 => if Bool.eqb s1 s2 then Inf s1 else NaN
  | Inf s, _ | _, Inf s => Inf s
  | Zero s1, Zero s2 => Zero (s1 && s2)
  | Zero _, Finite b => Finite b
  | Finite a, Zero _ => Finite a
  | Finite a, Finite b => round (a + b)
  end.

Definition fsub (x y : float) : float := fadd x (fopp y).

Definition fdiv (x y : float) : float :=
  match x, y with
  | NaN, _ | _, NaN => NaN
  | Inf _, Inf _ | Zero _, Zero _ => NaN
  | Inf _, _ | _, Zero _ => Inf (xorb (negative x) (negative y))
  | Zero _, _ | _, Inf _ => Zero (xorb (negative x) (negative y))
  | Finite a, Finite b => round (a / b)
  end.

(** [x < y]: false when either is not a number. *)
Definition flt (x y : float) : bool :=
  match x, y with
  | NaN, _ | _, NaN => false
  | Inf s1, Inf s2 => s1 && negb s2
  | Inf s, _ => s
  | _, Inf s => negb s
  | _, _ => Qltb (value x) (value y)
  end.

Definition is_zero (x : float) : bool :=
  match x with
  | Zero _ => true
  | _ => false
  end.

(** ** Numbers: [int] or [float] *)

Inductive num : Type :=
| Int (z : Z)
| Float (x : float).

(** An [int] that does not convert to a [float]. *)
Definition too_large (z : Z) : bool := (overflow_threshold <=? Z.abs z)%Z.

(** [float(z)]: the nearest double, or [OverflowError]. *)
Definition float_of_int (z : Z) : result float :=
  if too_large z then Raise OverflowError else Ok (round (inject_Z z)).

(** The conversion of an operand when the other one is a [float]. *)
Definition to_float (a : num) : result float :=
  match a with
  | Int z => float_of_int z
  | Float x => Ok x
  end.

(** Comparisons between an [int] and a [float] are exact: the [int] is
    taken at its value, not converted. *)
Definition exact (z : Z) : float :=
  if (z =? 0)%Z then Zero false else Finite (inject_Z z).

Definition exactly (a : num) : float :=
  match a with
  | Int z => exact z
  | Float x => x
  end.

Definition lt (a b : num) : bool := flt (exactly a) (exactly b).
Definition gt (a b : num) : bool := lt b a.

(** [bool(a)]: a number other than zero. *)
Definition truthy (a : num) : bool :=
  match a with
  | Int z => truthy_int z
  | Float x => negb (is_zero x)
  end.

(** [a + b], [a - b] and [a * b]: exact on two [int]s, on doubles
    otherwise, once the [int] operand has been converted. *)
Definition add (a b : num) : result num :=
  match a, b with
  | Int x, Int y => Ok (Int (x + y))
  | _, _ => x <- to_float a ;; y <- to_float b ;; Ok (Float (fadd x y))
  end.

Definition sub (a b : num) : result num :=
  match a, b with
  | Int x, Int y => Ok (Int (x - y))
  | _, _ => x <- to_float a ;; y <- to_float b ;; Ok (Float (fsub x y))
  end.

Definition mul (a b : num) : result num :=
  match a, b with
  | Int x, Int y => Ok (Int (x * y))
  | _, _ => x <- to_float a ;; y <- to_float b ;; Ok (Float (fmul x y))
  end.

(** The quotient of two integers is too large for a float. *)
Definition quotient_too_large (x y : Z) : bool :=
  Qleb (inject_Z overflow_threshold) (Qabs (inject_Z x / inject_Z y)).

(** [a / b].  The quotient of two [int]s is the double nearest to the
    exact quotient, whatever their size. *)
Definition truediv (a b : num) : result num :=
  match a, b with
  | Int x, Int y =>
      if (y =? 0)%Z then Raise ZeroDivisionError
      else if (x =? 0)%Z then Ok (Float (Zero (y <? 0)%Z))
      else if quotient_too_large x y then Raise OverflowError
      else Ok (Float (round (inject_Z x / inject_Z y)))
  | _, _ =>
      x <- to_float a ;;
      y <- to_float b ;;
      if is_zero y then Raise ZeroDivisionError else Ok (Float (fdiv x y))
  end.

(** [min(a, b)]: the first argument, unless the second is smaller. *)
Definition min2 (a b : num) : num := if lt b a then b else a.

(** [int(x)] for a float: the integer part, toward zero. *)
Definition int_of_float (x : float) : result Z :=
  match x with
  | NaN => Raise ValueError
  | Inf _ => Raise OverflowError
  | Zero _ => Ok 0%Z
  | Finite q => Ok (Qnum q ÷ Z.pos (Qden q))%Z
  end.

(** [t.timestamp()] for a [datetime] [t], given in microseconds since the
    epoch: the whole seconds as a double, plus the microseconds of the
    second divided by [1e6]. *)
Definition timestamp (t : Z) : float :=
  let seconds := (t / 1000000)%Z in
  let microsecond := (t mod 1000000)%Z in
  fadd (round (inject_Z seconds)) (fdiv (round (inject_Z microsecond)) (lit 1000000)).

End Num.

(* ================================================================== *)
(** * zillow_visual_scraper.py: the arithmetic on Python's numbers *)
(* ================================================================== *)

Module Scraper64.

(** [detect_distress_signals], [generate_investment_analysis] and
    [_calculate_visual_distress_score] with the numbers they compute.
    The listing is the record of [Scraper]; the dictionaries that carry
    floats are declared again, with [Num.float] and [Num.num] where
    [Scraper] has rationals. *)

Import Num.
Export Scraper(ZillowProperty, zpid, address, price, bedrooms, bathrooms, sqft, lot_size,
  year_built, property_type, listing_date, days_on_market, price_history, photos,
  description, neighborhood, zestimate, rent_zestimate).

Record DistressSignal : Type := {
  price_below_market : bool;
  high_days_on_market : bool;
  price_reduction : bool;
  visual_distress : bool;
  neighborhood_decline : bool;
  geometric_anomaly : bool;
  overall_score : float
}.

(** The indicators of a photo: a count of curvature values, their
    standard deviation ([nan] when numpy has none to compute it from),
    and a count of landmarks. *)
Record DistressIndicators : Type := {
  high_curvature_regions : Z;
  irregular_geometry : float;
  visual_complexity : Z
}.

Record PhotoAnalysis : Type := {
  photo_index : Z;
  landmarks : list (list float);
  curvatures : list float;
  embedding_preview : list float;
  distress_indicators : DistressIndicators
}.

Record GeometricSummary : Type := {
  avg_curvature : option float;
  max_curvature : option float;
  curvature_variance : option float;
  geometric_complexity : option float
}.

Record VisualAnalysis : Type := {
  visual_analysis : list PhotoAnalysis;
  overall_visual_score : option num;
  geometric_summary : option GeometricSummary
}.

Definition empty_visual : VisualAnalysis :=
  {| visual_analysis := []; overall_visual_score := None; geometric_summary := None |}.

Record InvestmentDict : Type := {
  market_value : Z;
  current_price : Z;
  estimated_repairs : num;
  potential_profit : num;
  roi_percentage : num;
  investment_grade : string;
  risk_factors : list string
}.

(** [visual.get("overall_visual_score", 0)]. *)
Definition get_overall_visual_score (visual : VisualAnalysis) : num :=
  match overall_visual_score visual with
  | Some x => x
  | None => Int 0
  end.

(** [visual.get("geometric_summary", {}).get("geometric_complexity", 0)]. *)
Definition get_geometric_complexity (visual : VisualAnalysis) : num :=
  match geometric_summary visual with
  | Some g => match geometric_complexity g with
              | Some x => Float x
              | None => Int 0
              end
  | None => Int 0
  end.

Definition detect_distress_signals
  (property : ZillowProperty) (visual : VisualAnalysis) : result DistressSignal :=
  price_below_market <-
    match zestimate property with
    | Some z =>
        if truthy_int z
        then estimate <- mul (Int z) (Float (lit 0.85)) ;;
             Ok (lt (Int (price property)) estimate)
        else Ok false
    | None => Ok false
    end ;;
  let high_days_on_market := (60 <? days_on_market property)%Z in
  let price_reduction :=
    existsb (fun change => contains "reduction" (lower (str_of_dict change)))
            (price_history property) in
  let visual_distress := gt (get_overall_visual_score visual) (Int 50) in
  let neighborhood_decline :=
    existsb (fun keyword => contains keyword (lower (description property)))
            ["foreclosure"; "as-is"; "distress"]%string in
  let geometric_anomaly := gt (get_geometric_complexity visual) (Int 100) in
  let signals :=
    [price_below_market; high_days_on_market; price_reduction;
     visual_distress; neighborhood_decline; geometric_anomaly] in
  ratio <- truediv (Int (sum_bools signals)) (Int (len signals)) ;;
  score <- mul ratio (Int 100) ;;
  overall_score <- to_float score ;;
  Ok {| price_below_market := price_below_market;
        high_days_on_market := high_days_on_market;
        price_reduction := price_reduction;
        visual_distress := visual_distress;
        neighborhood_decline := neighborhood_decline;
        geometric_anomaly := geometric_anomaly;
        overall_score := overall_score |}.

Definition generate_investment_analysis
  (property : ZillowProperty) (distress : DistressSignal) : result InvestmentDict :=
  let market_value := or_int (zestimate property) (price property) in
  repairs <- (if visual_distress distress
              then mul (Int market_value) (Float (lit 0.15))
              else Ok (Int 0)) ;;
  total_investment <- add (Int (price property)) repairs ;;
  potential_profit <- sub (Int market_value) total_investment ;;
  roi <- (if truthy total_investment
          then q <- truediv potential_profit total_investment ;; mul q (Int 100)
          else Ok (Int 0)) ;;
  let risk_factors :=
    (if high_days_on_market distress then ["Market resistance"%string] else [])
    ++ (if visual_distress distress then ["Repair uncertainty"%string] else [])
    ++ (if neighborhood_decline distress then ["Area decline"%string] else []) in
  let investment_grade :=
    (if gt roi (Int 25) then "A" else if gt roi (Int 15) then "B" else "C")%string in
  Ok {| market_value := market_value;
        current_price := price property;
        estimated_repairs := repairs;
        potential_profit := potential_profit;
        roi_percentage := roi;
        investment_grade := investment_grade;
        risk_factors := risk_factors |}.

(** What one photo adds to the total. *)
Definition photo_points (item : PhotoAnalysis) : result num :=
  let distress := distress_indicators item in
  regions <- mul (Int (high_curvature_regions distress)) (Int 10) ;;
  irregular <- mul (Float (irregular_geometry distress)) (Int 20) ;;
  both <- add regions irregular ;;
  complexity <- truediv (Int (visual_complexity distress)) (Int 10) ;;
  add both (min2 complexity (Int 5)).

Fixpoint total_points (analyses : list PhotoAnalysis) (total : num) : result num :=
  match analyses with
  | [] => Ok total
  | item :: analyses' =>
      points <- photo_points item ;;
      total' <- add total points ;;
      total_points analyses' total'
  end.

Definition _calculate_visual_distress_score (analyses : list PhotoAnalysis) : result num :=
  match analyses with
  | [] => Ok (Float (lit 0))
  | _ =>
      total <- total_points analyses (Float (lit 0)) ;;
      mean <- truediv total (Int (len analyses)) ;;
      Ok (min2 mean (Float (lit 100)))
  end.

End Scraper64.

(* ================================================================== *)
(** * Facts about the built-ins *)
(* ================================================================== *)

Module PyFacts.

Lemma Qltb_lt (x y : Q) : Qltb x y = true <-> x < y.
Proof.
  unfold Qltb. rewrite negb_true_iff. split; intro H.
  - apply Qnot_le_lt. intro Hle. apply Qle_bool_iff in Hle. congruence.
  - destruct (Qle_bool y x) eqn:E; trivial.
    apply Qle_bool_iff in E. exfalso. exact (Qlt_not_le _ _ H E).
Qed.

Lemma Qltb_ge (x y : Q) : Qltb x y = false <-> y <= x.
Proof.
  unfold Qltb. rewrite negb_false_iff. apply Qle_bool_iff.
Qed.

Lemma truthy_nonzero (x : Q) : truthy x = true <-> ~ x == 0.
Proof.
  unfold truthy. rewrite negb_true_iff. split; intro H.
  - intro E. apply Qeq_bool_iff in E. congruence.
  - destruct (Qeq_bool x 0) eqn:E; trivial.
    apply Qeq_bool_iff in E. contradiction.
Qed.

Lemma truthy_zero (x : Q) : truthy x = false <-> x == 0.
Proof.
  unfold truthy. rewrite negb_false_iff. apply Qeq_bool_iff.
Qed.

(** A guarded division never raises. *)
Lemma truediv_nonzero (a b : Q) : ~ b == 0 -> truediv a b = Ok (a / b).
Proof.
  intro H. unfold truediv. destruct (Qeq_bool b 0) eqn:E; trivial.
  apply Qeq_bool_iff in E. contradiction.
Qed.

(** ** Dictionaries *)

Section DictFacts.
Variable V : Type.
Implicit Types (d : dict V) (k : string) (v : V).

Lemma dict_get_set k v d : dict_get k (dict_set k v d) = Some v.
Proof.
  induction d as [|[k' v'] d IH]; cbn.
  - rewrite String.eqb_refl. reflexivity.
  - destruct (String.eqb k k') eqn:E; cbn; rewrite ?String.eqb_refl, ?E; auto.
Qed.

Lemma dict_get_In k v d : dict_get k d = Some v -> In (k, v) d.
Proof.
  induction d as [|[k' v'] d IH]; cbn; [discriminate|].
  destruct (String.eqb k k') eqn:E.
  - apply String.eqb_eq in E. intros [= ->]. left. congruence.
  - auto.
Qed.

Lemma In_dict_set k v d k' v' :
  In (k', v') (dict_set k v d) -> (k' = k /\ v' = v) \/ In (k', v') d.
Proof.
  induction d as [|[k0 v0] d IH]; cbn.
  - intros [[= <- <-]|[]]. auto.
  - destruct (String.eqb k k0) eqn:E; cbn.
    + intros [[= <- <-]|H]; auto.
    + intros [H|H]; auto. destruct (IH H); auto.
Qed.

Lemma keys_dict_set_In k v d k' :
  In k' (keys (dict_set k v d)) -> k' = k \/ In k' (keys d).
Proof.
  unfold keys. induction d as [|[k0 v0] d IH]; cbn.
  - intros [<-|[]]. auto.
  - destruct (String.eqb k k0) eqn:E; cbn.
    + intros [<-|H]; auto.
    + intros [H|H]; auto. destruct (IH H); auto.
Qed.

Lemma NoDup_keys_dict_set k v d : NoDup (keys d) -> NoDup (keys (dict_set k v d)).
Proof.
  unfold keys. induction d as [|[k0 v0] d IH]; cbn; intro H.
  - constructor; [intros []|constructor].
  - inversion H as [|? ? Hn Hd]; subst.
    destruct (String.eqb k k0) eqn:E; cbn.
    + apply String.eqb_eq in E. subst. constructor; assumption.
    + constructor; [|auto].
      intro Hin. apply keys_dict_set_In in Hin. destruct Hin as [->|Hin].
      * rewrite String.eqb_refl in E. discriminate.
      * contradiction.
Qed.

Lemma In_dict_del k d x : In x (dict_del k d) -> In x d.
Proof.
  induction d as [|[k0 v0] d IH]; cbn; [auto|].
  destruct (String.eqb k k0); cbn; intuition.
Qed.

Lemma NoDup_keys_dict_del k d : NoDup (keys d) -> NoDup (keys (dict_del k d)).
Proof.
  unfold keys. induction d as [|[k0 v0] d IH]; cbn; intro H; [constructor|].
  inversion H as [|? ? Hn Hd]; subst.
  destruct (String.eqb k k0); cbn; [assumption|].
  constructor; [|auto].
  intro Hin. apply Hn. apply in_map_iff in Hin. destruct Hin as [x [Hx Hin]].
  apply in_map_iff. exists x. split; [exact Hx|]. eapply In_dict_del; eassumption.
Qed.

End DictFacts.

(** ** Substrings *)

(** [needle] occurs in [hay]. *)
Definition occurs_in (needle hay : string) : Prop :=
  exists before after, hay = (before ++ needle ++ after)%string.

Lemma prefix_append (needle hay : string) :
  String.prefix needle hay = true <-> exists after, hay = (needle ++ after)%string.
Proof.
  revert hay. induction needle as [|c needle IH]; intro hay.
  - split; [intros _; exists hay; reflexivity | intros _; destruct hay; reflexivity].
  - destruct hay as [|c' hay]; cbn [String.prefix].
    + split; [discriminate | intros [after H]; discriminate].
    + destruct (Ascii.ascii_dec c c') as [->|Hne].
      * rewrite IH. split; intros [after H]; exists after.
        -- cbn. rewrite H. reflexivity.
        -- cbn in H. injection H as H. exact H.
      * split; [discriminate | intros [after H]; cbn in H; congruence].
Qed.

(** [needle in hay] decides [occurs_in]. *)
Lemma contains_occurs_in (needle hay : string) :
  contains needle hay = true <-> occurs_in needle hay.
Proof.
  induction hay as [|c hay IH]; cbn [contains]; rewrite orb_true_iff.
  - split.
    + intros [H|H]; [|discriminate].
      apply prefix_append in H. destruct H as [after H].
      exists EmptyString, after. exact H.
    + intros [before [after H]]. left. apply prefix_append.
      destruct before; [exists after; exact H | discriminate].
  - rewrite IH. split.
    + intros [H|[before [after H]]].
      * apply prefix_append in H. destruct H as [after H].
        exists EmptyString, after. exact H.
      * exists (String c before), after. cbn. rewrite H. reflexivity.
    + intros [before [after H]]. destruct before as [|c' before].
      * left. apply prefix_append. exists after. exact H.
      * right. cbn in H. injection H as _ H. exists before, after. exact H.
Qed.











(** ** Quoting keeps words

    [repr] of a string leaves its letters alone, so a word found in the
    string is found in its [repr]. *)







End PyFacts.

(* ================================================================== *)
(** * Facts about rounding and the operations on numbers *)
(* ================================================================== *)

Module NumFacts.

Import PyFacts Num.

(** ** Powers of two *)

Lemma two_nonzero : ~ 2 == 0.
Proof. discriminate. Qed.

Lemma pow2_pos (e : Z) : 0 < 2 ^ e.
Proof. apply Qpower_0_lt. reflexivity. Qed.

Lemma pow2_add (a b : Z) : 2 ^ (a + b) == 2 ^ a * 2 ^ b.
Proof. apply Qpower_plus, two_nonzero. Qed.

Lemma pow2_le (a b : Z) : (a <= b)%Z -> 2 ^ a <= 2 ^ b.
Proof. intro H. apply Qpower_le_compat_l; [exact H|discriminate]. Qed.

Lemma pow2_Z (n : Z) : (0 <= n)%Z -> inject_Z (2 ^ n) == 2 ^ n.
Proof. intro H. apply (Zpower_Qpower 2 n H). Qed.

(** ** Rounding to the nearest integer *)

Lemma round_half_even_ge (k : Z) (x : Q) :
  inject_Z k <= x -> (k <= round_half_even x)%Z.
Proof.
  destruct x as [n d]. unfold Qle, round_half_even. cbn [Qnum Qden inject_Z].
  intro H.
  assert (Hq : (k <= n / Z.pos d)%Z) by (apply Z.div_le_lower_bound; lia).
  destruct (2 * (n mod Z.pos d) <? Z.pos d)%Z; [exact Hq|].
  destruct (Z.pos d <? 2 * (n mod Z.pos d))%Z; [lia|].
  destruct (Z.even (n / Z.pos d)); lia.
Qed.

Lemma round_half_even_le (k : Z) (x : Q) :
  x <= inject_Z k -> (round_half_even x <= k)%Z.
Proof.
  destruct x as [n d]. unfold Qle, round_half_even. cbn [Qnum Qden inject_Z].
  intro H.
  pose proof (Z.div_mod n (Z.pos d) ltac:(lia)) as Hdm.
  pose proof (Z.mod_pos_bound n (Z.pos d) ltac:(lia)) as Hr.
  set (q := (n / Z.pos d)%Z) in *. set (r := (n mod Z.pos d)%Z) in *.
  assert (Hq : (q <= k)%Z) by nia.
  destruct (2 * r <? Z.pos d)%Z eqn:E1; [exact Hq|].
  apply Z.ltb_ge in E1.
  assert (q < k)%Z by nia.
  destruct (Z.pos d <? 2 * r)%Z; [lia|].
  destruct (Z.even q); lia.
Qed.

Lemma round_half_even_nonneg (x : Q) : 0 <= x -> (0 <= round_half_even x)%Z.
Proof. intro H. apply round_half_even_ge. exact H. Qed.

(** ** The exponent *)

Lemma Qlog2_le (x : Q) : 0 < x -> 2 ^ Qlog2 x <= x.
Proof.
  intro Hx. unfold Qlog2.
  set (e0 := (Z.log2 (Qnum x) - Z.log2 (Z.pos (Qden x)))%Z).
  destruct (Qltb x (2 ^ e0)) eqn:E; [|apply Qltb_ge; exact E].
  destruct x as [n d]. cbn [Qnum Qden] in *.
  assert (Hn : (0 < n)%Z) by (unfold Qlt in Hx; cbn in Hx; lia).
  set (p := Z.log2 n) in *. set (q := Z.log2 (Z.pos d)) in *.
  assert (Hp : (0 <= p)%Z) by apply Z.log2_nonneg.
  assert (Hq : (0 <= q)%Z) by apply Z.log2_nonneg.
  destruct (Z.log2_spec n Hn) as [Hlo _]. fold p in Hlo.
  destruct (Z.log2_spec (Z.pos d) ltac:(lia)) as [_ Hhi]. fold q in Hhi.
  (* 2^(e0-1) * 2^(q+1) == 2^p <= n < (n/d) * 2^(q+1) *)
  apply (Qmult_le_r _ _ (2 ^ (q + 1))); [apply pow2_pos|].
  rewrite <- pow2_add. replace (e0 - 1 + (q + 1))%Z with p by (unfold e0; lia).
  rewrite <- (pow2_Z Hp), <- (pow2_Z (n := q + 1)) by lia.
  unfold Qle. cbn [Qnum Qden inject_Z Qmult].
  replace (Z.succ q) with (q + 1)%Z in Hhi by lia.
  nia.
Qed.

(** ** Numbers that binary64 holds *)

(** A positive number [m * 2^e] with a significand under [2^53] and an
    exponent that binary64 reaches. *)
Definition representable (v : Q) : Prop :=
  exists m e, v == inject_Z m * 2 ^ e /\ (0 < m < 2 ^ 53)%Z /\ (emin <= e)%Z.

Lemma representable_int (m : Z) : (0 < m < 2 ^ 53)%Z -> representable (inject_Z m).
Proof.
  intro H. exists m, 0%Z. split; [|split; [exact H|unfold emin; lia]].
  cbn. ring.
Qed.

Lemma representable_dyadic (m k : Z) :
  (0 < m < 2 ^ 53)%Z -> (0 <= k <= 1074)%Z ->
  representable (inject_Z m / inject_Z (2 ^ k)).
Proof.
  intros Hm Hk. exists m, (- k)%Z. split; [|split; [exact Hm|unfold emin; lia]].
  rewrite Qpower_opp, pow2_Z by lia. reflexivity.
Qed.

Lemma representable_over (m k : Z) (d : positive) :
  Z.pos d = (2 ^ k)%Z -> (0 <= k <= 1074)%Z -> (0 < m < 2 ^ 53)%Z ->
  representable (m # d).
Proof.
  intros Hd Hk Hm.
  destruct (representable_dyadic Hm Hk) as [m' [e [Ev H]]].
  exists m', e. split; [|exact H]. rewrite <- Ev, <- Hd.
  unfold Qeq, Qdiv, Qmult, Qinv. cbn. lia.
Qed.

Lemma representable_pos (v : Q) : representable v -> 0 < v.
Proof.
  intros [m [e [Hv [Hm _]]]]. rewrite Hv.
  apply Qmult_lt_0_compat; [|apply pow2_pos].
  change 0 with (inject_Z 0). rewrite <- Zlt_Qlt. lia.
Qed.

(** When the exponent of [x] is above that of [v], [x] is above [v]. *)
Lemma above_exponent (x : Q) (m e : Z) :
  0 < x -> (0 < m < 2 ^ 53)%Z -> (emin <= e)%Z -> (e < ulp_exponent x)%Z ->
  inject_Z (2 ^ 52) * 2 ^ ulp_exponent x <= x
  /\ inject_Z m * 2 ^ e < inject_Z (2 ^ 52) * 2 ^ ulp_exponent x.
Proof.
  intros Hx Hm He Hlt.
  pose proof (Qlog2_le Hx) as Hlog.
  unfold ulp_exponent in *.
  assert (E : Z.max (Qlog2 x - 52) emin = (Qlog2 x - 52)%Z) by lia.
  rewrite E in *. clear E.
  assert (E52 : inject_Z (2 ^ 52) * 2 ^ (Qlog2 x - 52) == 2 ^ Qlog2 x).
  { rewrite pow2_Z by lia. rewrite <- pow2_add. f_equiv. lia. }
  split; [rewrite E52; exact Hlog|].
  rewrite E52.
  apply Qlt_le_trans with (inject_Z (2 ^ 53) * 2 ^ e).
  - apply Qmult_lt_compat_r; [apply pow2_pos|]. rewrite <- Zlt_Qlt. lia.
  - rewrite pow2_Z by lia. rewrite <- pow2_add. apply pow2_le. lia.
Qed.

(** When it is not, [v] is a whole number of units of [x]. *)
Lemma whole_units (m e e' : Z) :
  (e' <= e)%Z ->
  inject_Z m * 2 ^ e == inject_Z (m * 2 ^ (e - e')) * 2 ^ e'.
Proof.
  intro H. rewrite inject_Z_mult, pow2_Z by lia.
  rewrite <- Qmult_assoc, <- pow2_add. f_equiv. f_equiv. lia.
Qed.

Lemma round_pos_ge (v x : Q) : representable v -> v <= x -> v <= round_pos x.
Proof.
  intros Hv Hle. pose proof (representable_pos Hv) as Hpos.
  assert (Hx : 0 < x) by (eapply Qlt_le_trans; eassumption).
  destruct Hv as [m [e [Ev [Hm He]]]].
  unfold round_pos. set (ex := ulp_exponent x).
  destruct (Z_le_gt_dec ex e) as [Hcase|Hcase].
  - rewrite Ev, (whole_units m Hcase).
    apply Qmult_le_compat_r; [|apply Qlt_le_weak, pow2_pos].
    rewrite <- Zle_Qle. apply round_half_even_ge.
    apply Qle_shift_div_l; [apply pow2_pos|].
    rewrite <- (whole_units m Hcase), <- Ev. exact Hle.
  - destruct (@above_exponent x m e Hx Hm He ltac:(fold ex; lia)) as [H1 H2].
    fold ex in H1, H2. rewrite Ev.
    apply Qlt_le_weak. eapply Qlt_le_trans; [exact H2|].
    apply Qmult_le_compat_r; [|apply Qlt_le_weak, pow2_pos].
    rewrite <- Zle_Qle. apply round_half_even_ge.
    apply Qle_shift_div_l; [apply pow2_pos|exact H1].
Qed.

Lemma round_pos_le (v x : Q) : representable v -> 0 < x -> x <= v -> round_pos x <= v.
Proof.
  intros Hv Hx Hle.
  destruct Hv as [m [e [Ev [Hm He]]]].
  unfold round_pos. set (ex := ulp_exponent x).
  destruct (Z_le_gt_dec ex e) as [Hcase|Hcase].
  - rewrite Ev, (whole_units m Hcase).
    apply Qmult_le_compat_r; [|apply Qlt_le_weak, pow2_pos].
    rewrite <- Zle_Qle. apply round_half_even_le.
    apply Qle_shift_div_r; [apply pow2_pos|].
    rewrite <- (whole_units m Hcase), <- Ev. exact Hle.
  - exfalso.
    destruct (@above_exponent x m e Hx Hm He ltac:(fold ex; lia)) as [H1 H2].
    rewrite <- Ev in H2.
    apply (Qlt_irrefl v). eapply Qlt_le_trans; [exact H2|].
    eapply Qle_trans; eassumption.
Qed.

Lemma round_pos_nonneg (x : Q) : 0 <= x -> 0 <= round_pos x.
Proof.
  intro H. unfold round_pos.
  apply Qmult_le_0_compat; [|apply Qlt_le_weak, pow2_pos].
  change 0 with (inject_Z 0). rewrite <- Zle_Qle.
  apply round_half_even_nonneg.
  apply Qle_shift_div_l; [apply pow2_pos|]. rewrite Qmult_0_l. exact H.
Qed.


(** ** Rounding to binary64 *)

Definition threshold : Q := inject_Z overflow_threshold.

Lemma Qeq_bool_false (x y : Q) : ~ x == y -> Qeq_bool x y = false.
Proof.
  intro H. destruct (Qeq_bool x y) eqn:E; [|reflexivity].
  apply Qeq_bool_iff in E. contradiction.
Qed.

Lemma Qleb_false (x y : Q) : y < x -> Qleb x y = false.
Proof.
  intro H. unfold Qleb. destruct (Qle_bool x y) eqn:E; [|reflexivity].
  apply Qle_bool_iff in E. exfalso. exact (Qlt_not_le _ _ H E).
Qed.


(** A number between two numbers that binary64 holds rounds to a number
    between them. *)
Lemma round_between (lo hi x : Q) :
  representable lo -> representable hi -> hi < threshold ->
  lo <= x -> x <= hi ->
  exists q, round x = Finite q /\ lo <= q /\ q <= hi.
Proof.
  intros Hlo Hhi Hth Hl Hh.
  pose proof (representable_pos Hlo) as Hpos.
  assert (Hx : 0 < x) by (eapply Qlt_le_trans; eassumption).
  assert (Ha : Qabs x == x) by (apply Qabs_pos, Qlt_le_weak, Hx).
  assert (Hr1 : lo <= round_pos (Qabs x)) by (apply round_pos_ge; [exact Hlo|rewrite Ha; exact Hl]).
  assert (Hr2 : round_pos (Qabs x) <= hi)
    by (apply round_pos_le; [exact Hhi|rewrite Ha; exact Hx|rewrite Ha; exact Hh]).
  unfold round.
  rewrite Qeq_bool_false by (intro E; rewrite E in Hx; exact (Qlt_irrefl _ Hx)).
  rewrite Qleb_false by (rewrite Ha; eapply Qle_lt_trans; eassumption).
  cbv zeta.
  rewrite Qeq_bool_false
    by (intro E; rewrite E in Hr1; exact (Qlt_irrefl _ (Qlt_le_trans _ _ _ Hpos Hr1))).
  assert (Hn : Qltb x 0 = false) by (apply Qltb_ge, Qlt_le_weak, Hx).
  rewrite Hn. eexists. split; [reflexivity|].
  rewrite Qred_correct. split; assumption.
Qed.

Lemma round_between_neg (lo hi x : Q) :
  representable lo -> representable hi -> hi < threshold ->
  - hi <= x -> x <= - lo ->
  exists q, round x = Finite q /\ - hi <= q /\ q <= - lo.
Proof.
  intros Hlo Hhi Hth Hl Hh.
  pose proof (representable_pos Hlo) as Hpos.
  assert (Hx : x < 0).
  { eapply Qle_lt_trans; [exact Hh|].
    apply (Qplus_lt_l _ _ lo). ring_simplify. exact Hpos. }
  assert (Ha : Qabs x == - x) by (apply Qabs_neg, Qlt_le_weak, Hx).
  assert (Hl' : lo <= - x) by (apply (Qplus_le_l _ _ (x - lo)); ring_simplify; exact Hh).
  assert (Hh' : - x <= hi) by (apply (Qplus_le_l _ _ (x - hi)); ring_simplify; exact Hl).
  assert (Hr1 : lo <= round_pos (Qabs x)) by (apply round_pos_ge; [exact Hlo|rewrite Ha; exact Hl']).
  assert (Hr2 : round_pos (Qabs x) <= hi).
  { apply round_pos_le; [exact Hhi| |rewrite Ha; exact Hh'].
    rewrite Ha. eapply Qlt_le_trans; eassumption. }
  unfold round.
  rewrite Qeq_bool_false by (intro E; rewrite E in Hx; exact (Qlt_irrefl _ Hx)).
  rewrite Qleb_false by (rewrite Ha; eapply Qle_lt_trans; eassumption).
  cbv zeta.
  rewrite Qeq_bool_false
    by (intro E; rewrite E in Hr1; exact (Qlt_irrefl _ (Qlt_le_trans _ _ _ Hpos Hr1))).
  assert (Hn : Qltb x 0 = true) by (apply Qltb_lt, Hx).
  rewrite Hn. eexists. split; [reflexivity|].
  rewrite Qred_correct. split.
  - apply Qopp_le_compat. exact Hr2.
  - apply Qopp_le_compat. exact Hr1.
Qed.


(** A number at least as large as one that binary64 holds rounds to a
    number at least as large. *)
Lemma round_ge (lo x : Q) :
  representable lo -> lo <= x -> x < threshold ->
  exists q, round x = Finite q /\ lo <= q.
Proof.
  intros Hlo Hl Hth.
  pose proof (representable_pos Hlo) as Hpos.
  assert (Hx : 0 < x) by (eapply Qlt_le_trans; eassumption).
  assert (Ha : Qabs x == x) by (apply Qabs_pos, Qlt_le_weak, Hx).
  assert (Hr1 : lo <= round_pos (Qabs x)) by (apply round_pos_ge; [exact Hlo|rewrite Ha; exact Hl]).
  unfold round.
  rewrite Qeq_bool_false by (intro E; rewrite E in Hx; exact (Qlt_irrefl _ Hx)).
  rewrite Qleb_false by (rewrite Ha; exact Hth).
  cbv zeta.
  rewrite Qeq_bool_false
    by (intro E; rewrite E in Hr1; exact (Qlt_irrefl _ (Qlt_le_trans _ _ _ Hpos Hr1))).
  assert (Hn : Qltb x 0 = false) by (apply Qltb_ge, Qlt_le_weak, Hx).
  rewrite Hn. eexists. split; [reflexivity|].
  rewrite Qred_correct. exact Hr1.
Qed.

(** An integer under [2^53] converts exactly. *)
Lemma round_int (z : Z) :
  (0 < z < 2 ^ 53)%Z -> exists q, round (inject_Z z) = Finite q /\ q == inject_Z z.
Proof.
  intro H.
  destruct (@round_between (inject_Z z) (inject_Z z) (inject_Z z)) as [q [E [H1 H2]]];
    try apply representable_int; try exact H; try apply Qle_refl.
  - unfold threshold. rewrite <- Zlt_Qlt. unfold overflow_threshold. lia.
  - exists q. split; [exact E|]. apply Qle_antisym; assumption.
Qed.

Lemma round_int_neg (z : Z) :
  (- 2 ^ 53 < z < 0)%Z -> exists q, round (inject_Z z) = Finite q /\ q == inject_Z z.
Proof.
  intro H.
  destruct (@round_between_neg (inject_Z (- z)) (inject_Z (- z)) (inject_Z z))
    as [q [E [H1 H2]]];
    try apply representable_int; try lia.
  - unfold threshold. rewrite <- Zlt_Qlt. unfold overflow_threshold. lia.
  - rewrite inject_Z_opp, Qopp_opp. apply Qle_refl.
  - rewrite inject_Z_opp, Qopp_opp. apply Qle_refl.
  - exists q. split; [exact E|].
    rewrite inject_Z_opp, Qopp_opp in H1, H2. apply Qle_antisym; assumption.
Qed.

(** ** Comparisons *)

Lemma lt_int_finite (p : Z) (q : Q) :
  lt (Int p) (Float (Finite q)) = Qltb (inject_Z p) q.
Proof.
  unfold lt, exactly, exact. destruct (p =? 0)%Z eqn:E; [|reflexivity].
  apply Z.eqb_eq in E. subst p. reflexivity.
Qed.


(** ** Signs *)

(** A float that is not above zero: a zero, a negative number or
    [-inf]; [nan] is neither. *)
Definition nonpositive (x : float) : Prop :=
  match x with
  | NaN => False
  | Inf s => s = true
  | Zero _ => True
  | Finite q => q < 0
  end.

Definition nonnegative (x : float) : Prop :=
  match x with
  | NaN => False
  | Inf s => s = false
  | Zero _ => True
  | Finite q => 0 < q
  end.

Lemma round_pos_abs_positive (x : Q) :
  Qeq_bool (round_pos (Qabs x)) 0 = false -> 0 < round_pos (Qabs x).
Proof.
  intro E. pose proof (round_pos_nonneg (Qabs_nonneg x)) as H.
  apply Qle_lteq in H. destruct H as [H|H]; [exact H|].
  symmetry in H. apply Qeq_bool_iff in H. congruence.
Qed.

Lemma round_nonpositive (x : Q) : x <= 0 -> nonpositive (round x).
Proof.
  intro Hx. unfold round.
  destruct (Qeq_bool x 0) eqn:E0; [exact I|].
  assert (Hn : Qltb x 0 = true).
  { apply Qltb_lt. apply Qle_lteq in Hx. destruct Hx as [H|H]; [exact H|].
    apply Qeq_bool_iff in H. congruence. }
  rewrite Hn.
  destruct (Qleb _ _); [reflexivity|]. cbv zeta.
  destruct (Qeq_bool (round_pos (Qabs x)) 0) eqn:E; [exact I|].
  cbn [nonpositive]. rewrite Qred_correct.
  apply round_pos_abs_positive in E.
  apply (Qplus_lt_l _ _ (round_pos (Qabs x))). ring_simplify. exact E.
Qed.

Lemma round_nonnegative (x : Q) : 0 <= x -> nonnegative (round x).
Proof.
  intro Hx. unfold round.
  destruct (Qeq_bool x 0) eqn:E0; [exact I|].
  assert (Hn : Qltb x 0 = false) by (apply Qltb_ge; exact Hx).
  rewrite Hn.
  destruct (Qleb _ _); [reflexivity|]. cbv zeta.
  destruct (Qeq_bool (round_pos (Qabs x)) 0) eqn:E; [exact I|].
  cbn [nonnegative]. rewrite Qred_correct.
  apply round_pos_abs_positive. exact E.
Qed.


Lemma small_below_threshold (z : Z) : (z < 2 ^ 60)%Z -> inject_Z z < threshold.
Proof.
  intro H. unfold threshold. rewrite <- Zlt_Qlt. unfold overflow_threshold. lia.
Qed.

Lemma representable_double (m : Z) : (0 < m < 2 ^ 53)%Z -> representable (inject_Z (2 * m)).
Proof.
  intro H. exists m, 1%Z. split; [|split; [exact H|unfold emin; lia]].
  rewrite inject_Z_mult. change (2 ^ 1) with 2. ring.
Qed.

(** ** Literals *)

Lemma lit_085 : lit 0.85 = Finite (7656119366529843 # 9007199254740992).
Proof. vm_compute. reflexivity. Qed.

Lemma lit_015 : lit 0.15 = Finite (5404319552844595 # 36028797018963968).
Proof. vm_compute. reflexivity. Qed.

Lemma lit_100 : lit 100 = Finite 100.
Proof. vm_compute. reflexivity. Qed.

(** ** The operations on [int] and [float] *)

Lemma mul_int_float (z : Z) (x : float) :
  mul (Int z) (Float x)
  = if too_large z then Raise OverflowError else Ok (Float (fmul (round (inject_Z z)) x)).
Proof.
  unfold mul, to_float, float_of_int. destruct (too_large z); reflexivity.
Qed.

Lemma add_int_float (z : Z) (x : float) :
  add (Int z) (Float x)
  = if too_large z then Raise OverflowError else Ok (Float (fadd (round (inject_Z z)) x)).
Proof.
  unfold add, to_float, float_of_int. destruct (too_large z); reflexivity.
Qed.

Lemma sub_int_float (z : Z) (x : float) :
  sub (Int z) (Float x)
  = if too_large z then Raise OverflowError else Ok (Float (fsub (round (inject_Z z)) x)).
Proof.
  unfold sub, to_float, float_of_int. destruct (too_large z); reflexivity.
Qed.

Lemma truediv_int (a b : Z) :
  b <> 0%Z ->
  truediv (Int a) (Int b)
  = if quotient_too_large a b then Raise OverflowError
    else Ok (Float (if (a =? 0)%Z then Zero (b <? 0)%Z
                    else round (inject_Z a / inject_Z b))).
Proof.
  intro Hb. unfold truediv, quotient_too_large.
  apply Z.eqb_neq in Hb. rewrite Hb.
  destruct (a =? 0)%Z eqn:Ea; [|reflexivity].
  apply Z.eqb_eq in Ea. subst a.
  rewrite Qleb_false; [reflexivity|].
  assert (E : inject_Z 0 / inject_Z b == 0) by (unfold Qdiv; ring).
  rewrite E. reflexivity.
Qed.

Lemma truediv_float (x y : float) :
  is_zero y = false -> truediv (Float x) (Float y) = Ok (Float (fdiv x y)).
Proof. intro H. unfold truediv, to_float. cbn [bind]. rewrite H. reflexivity. Qed.

Lemma mul_float_100 (x : float) : mul (Float x) (Int 100) = Ok (Float (fmul x (Finite 100))).
Proof. reflexivity. Qed.

(** ** Signs through the operations *)

Lemma nonpositive_quotient (q t : Q) : q <= 0 -> 0 < t -> q / t <= 0.
Proof.
  intros Hq Ht. apply Qle_shift_div_r; [exact Ht|]. rewrite Qmult_0_l. exact Hq.
Qed.

Lemma nonpositive_quotient_neg (q t : Q) : 0 <= q -> t < 0 -> q / t <= 0.
Proof.
  intros Hq Ht.
  assert (E : q / t == (- q) / (- t)).
  { field. intro H. rewrite H in Ht. exact (Qlt_irrefl _ Ht). }
  rewrite E. apply nonpositive_quotient.
  - apply (Qplus_le_l _ _ q). ring_simplify. exact Hq.
  - apply (Qplus_lt_l _ _ t). ring_simplify. exact Ht.
Qed.

Lemma fdiv_nonpositive (x : float) (t : Q) :
  nonpositive x -> 0 < t -> nonpositive (fdiv x (Finite t)).
Proof.
  intros Hx Ht. assert (Hn : Qltb t 0 = false) by (apply Qltb_ge, Qlt_le_weak, Ht).
  destruct x as [|s|s|q]; cbn [fdiv nonpositive negative] in *.
  - exact Hx.
  - rewrite Hn, Hx. reflexivity.
  - exact I.
  - apply round_nonpositive, nonpositive_quotient; [apply Qlt_le_weak, Hx|exact Ht].
Qed.

Lemma fdiv_nonnegative_neg (x : float) (t : Q) :
  nonnegative x -> t < 0 -> nonpositive (fdiv x (Finite t)).
Proof.
  intros Hx Ht. assert (Hn : Qltb t 0 = true) by (apply Qltb_lt, Ht).
  destruct x as [|s|s|q]; cbn [fdiv nonnegative nonpositive negative] in *.
  - exact Hx.
  - rewrite Hn, Hx. reflexivity.
  - exact I.
  - apply round_nonpositive, nonpositive_quotient_neg; [apply Qlt_le_weak, Hx|exact Ht].
Qed.

Lemma fmul_100_nonpositive (x : float) : nonpositive x -> nonpositive (fmul x (Finite 100)).
Proof.
  intro Hx. destruct x as [|s|s|q]; cbn [fmul nonpositive negative] in *.
  - exact Hx.
  - rewrite Hx. reflexivity.
  - exact I.
  - apply round_nonpositive.
    setoid_replace 0 with (0 * 100) by ring.
    apply Qmult_le_compat_r; [apply Qlt_le_weak, Hx|discriminate].
Qed.

(** A float that is not above zero is under 10 and above no integer
    from 0 on. *)
Lemma nonpositive_under (x : float) (k : Z) :
  nonpositive x -> (0 <= k)%Z ->
  lt (Float x) (Int 10) = true /\ gt (Float x) (Int k) = false.
Proof.
  intros Hx Hk. unfold gt, lt, exactly, exact.
  assert (Hk' : 0 <= inject_Z k) by (change 0 with (inject_Z 0); rewrite <- Zle_Qle; exact Hk).
  destruct x as [|s|s|q]; cbn [nonpositive] in Hx.
  - destruct Hx.
  - subst s. destruct (k =? 0)%Z; split; reflexivity.
  - destruct (k =? 0)%Z eqn:E; (split; [reflexivity|]); cbn [flt value].
    + reflexivity.
    + apply Qltb_ge. exact Hk'.
  - split.
    + cbn [Z.eqb flt value]. apply Qltb_lt. eapply Qlt_trans; [exact Hx|reflexivity].
    + destruct (k =? 0)%Z; cbn [flt value]; apply Qltb_ge.
      * apply Qlt_le_weak, Hx.
      * eapply Qle_trans; [apply Qlt_le_weak, Hx|exact Hk'].
Qed.

(** ** [nan] *)

Lemma fadd_nan_r (x : float) : fadd x NaN = NaN.
Proof. destruct x; reflexivity. Qed.

Lemma fmul_nan_r (x : float) : fmul x NaN = NaN.
Proof. destruct x; reflexivity. Qed.

(** ** Timestamps *)

(** The integer part of a number between [s] and [s + 1]. *)
Lemma integer_part (q : Q) (s : Z) :
  (0 <= s)%Z -> inject_Z s <= q -> q < inject_Z (s + 1) ->
  (Qnum q ÷ Z.pos (Qden q))%Z = s.
Proof.
  destruct q as [n d]. unfold Qle, Qlt. cbn [Qnum Qden inject_Z]. intros Hs H1 H2.
  rewrite Z.quot_div_nonneg by nia.
  symmetry. apply (Z.div_unique n (Z.pos d) s (n - s * Z.pos d)); nia.
Qed.

(** Until the year 2242 the whole seconds of a timestamp are those of
    the clock: the double nearest to the exact timestamp is under the
    next second. *)
Lemma timestamp_whole_seconds (t : Z) :
  (0 <= t < 2 ^ 33 * 1000000)%Z ->
  int_of_float (timestamp t) = Ok (t / 1000000)%Z.
Proof.
  intro Ht. unfold timestamp.
  pose proof (Z.div_mod t 1000000 ltac:(lia)) as Hdm.
  pose proof (Z.mod_pos_bound t 1000000 ltac:(lia)) as Hus.
  set (s := (t / 1000000)%Z) in *. set (us := (t mod 1000000)%Z) in *.
  assert (Hs : (0 <= s < 2 ^ 33)%Z) by lia.
  change (lit 1000000) with (Finite 1000000).
  destruct (Z.eq_dec us 0) as [E0|Hu].
  - rewrite E0. change (fdiv (round (inject_Z 0)) (Finite 1000000)) with (Zero false).
    destruct (Z.eq_dec s 0) as [Es|Hs0].
    + rewrite Es. reflexivity.
    + destruct (@round_int s ltac:(lia)) as [a [Ea Ha]]. rewrite Ea.
      cbn [fadd int_of_float]. f_equal.
      apply integer_part; [lia|rewrite Ha; apply Qle_refl|].
      rewrite Ha, <- Zlt_Qlt. lia.
  - destruct (@round_int us ltac:(lia)) as [u [Eu Hu']]. rewrite Eu. cbn [fdiv].
    destruct (@round_between (1 # 1048576) (1048575 # 1048576) (u / 1000000))
      as [y [Ey [Hy1 Hy2]]].
    + apply (@representable_over _ 20); [reflexivity|lia|lia].
    + apply (@representable_over _ 20); [reflexivity|lia|lia].
    + reflexivity.
    + rewrite Hu'. unfold Qle, Qdiv, Qmult, Qinv; cbn [Qnum Qden inject_Z]; lia.
    + rewrite Hu'. unfold Qle, Qdiv, Qmult, Qinv; cbn [Qnum Qden inject_Z]; lia.
    + rewrite Ey.
      destruct (Z.eq_dec s 0) as [Es|Hs0].
      * rewrite Es. change (round (inject_Z 0)) with (Zero false).
        cbn [fadd int_of_float]. f_equal.
        apply integer_part; [lia| |].
        -- eapply Qle_trans; [|exact Hy1]. discriminate.
        -- eapply Qle_lt_trans; [exact Hy2|]. reflexivity.
      * destruct (@round_int s ltac:(lia)) as [a [Ea Ha]]. rewrite Ea. cbn [fadd].
        destruct (@round_between (inject_Z s) (((s + 1) * 1048576 - 1) # 1048576) (a + y))
          as [w [Ew [Hw1 Hw2]]].
        -- apply representable_int. lia.
        -- apply (@representable_over _ 20); [reflexivity|lia|lia].
        -- apply Qlt_trans with (inject_Z (s + 1)); [|apply small_below_threshold; lia].
           unfold Qlt; cbn [Qnum Qden inject_Z]; lia.
        -- rewrite Ha. setoid_replace (inject_Z s) with (inject_Z s + 0) at 1 by ring.
           apply Qplus_le_r. eapply Qle_trans; [|exact Hy1]. discriminate.
        -- rewrite Ha.
           setoid_replace (((s + 1) * 1048576 - 1) # 1048576)
             with (inject_Z s + (1048575 # 1048576)).
           ++ apply Qplus_le_r. exact Hy2.
           ++ unfold Qeq, Qplus; cbn [Qnum Qden inject_Z]; lia.
        -- rewrite Ew. cbn [int_of_float]. f_equal.
           apply integer_part; [lia|exact Hw1|].
           eapply Qle_lt_trans; [exact Hw2|].
           unfold Qlt; cbn [Qnum Qden inject_Z]; lia.
Qed.

End NumFacts.

(* ================================================================== *)
(** * The signal extractor and the investment analyzer *)
(* ================================================================== *)

Module ScraperSpec.

Import Scraper PyFacts.

(** The six booleans of a distress signal, in the order the code sums them. *)
Definition signals (d : DistressSignal) : list bool :=
  [price_below_market d; high_days_on_market d; price_reduction d;
   visual_distress d; neighborhood_decline d; geometric_anomaly d].

(** Over the rationals [detect_distress_signals] returns; each boolean
    is its test, and the score is the share of true signals.  (The score
    as binary64 computes it, and the listings on which the function
    raises, are in [Scraper64Spec].) *)
Lemma detect_distress_signals_returns (property : ZillowProperty) (visual : VisualAnalysis) :
  exists d,
    detect_distress_signals property visual = Ok d
    /\ overall_score d = inject_Z (sum_bools (signals d)) / 6 * 100
    /\ price_below_market d =
         match zestimate property with
         | Some z =>
             if truthy_int z
             then Qltb (inject_Z (price property)) (inject_Z z * 0.85)
             else false
         | None => false
         end
    /\ price_reduction d =
         existsb (fun change => contains "reduction" (lower (str_of_dict change)))
                 (price_history property)
    /\ visual_distress d = Qltb 50 (get_overall_visual_score visual)
    /\ geometric_anomaly d = Qltb 100 (get_geometric_complexity visual).
Proof.
  unfold detect_distress_signals.
  match goal with
  | |- context [truediv ?a ?b] =>
      assert (E : truediv a b = Ok (a / b)) by (apply truediv_nonzero; discriminate)
  end.
  rewrite E. unfold bind. eexists. split; [reflexivity|].
  repeat split.
Qed.

(** A listing that shows every signal, and the analysis of its photos. *)
Definition distressed_property : ZillowProperty :=
  {| zpid := "2077";
     address := "12 Elm St, Austin, TX";
     price := 100000;
     bedrooms := 3;
     bathrooms := 2;
     sqft := 1500;
     lot_size := None;
     year_built := Some 1975%Z;
     property_type := "single_family";
     listing_date := "2024-01-05";
     days_on_market := 90;
     price_history :=
       [[("date"%string, PyStr "2024-03-01");
         ("event"%string, PyStr "Price Reduction");
         ("price"%string, PyInt 100000)]];
     photos := ["https://photos.example/1.jpg"%string];
     description := "Foreclosure, sold AS-IS";
     neighborhood := "North Austin Heights";
     zestimate := Some 200000%Z;
     rent_zestimate := None |}.

Definition distressed_visual : VisualAnalysis :=
  {| visual_analysis := [];
     overall_visual_score := Some 80;
     geometric_summary :=
       Some {| avg_curvature := Some 1; max_curvature := Some 2;
               curvature_variance := Some 118; geometric_complexity := Some 150 |} |}.

(** A listing that shows none, with every optional field missing. *)
Definition quiet_property : ZillowProperty :=
  {| zpid := "31";
     address := "4 Oak Ave, Topeka, KS";
     price := 180000;
     bedrooms := 2;
     bathrooms := 1;
     sqft := 900;
     lot_size := None;
     year_built := None;
     property_type := "condo";
     listing_date := "2024-02-01";
     days_on_market := 12;
     price_history := [];
     photos := [];
     description := "Move-in ready";
     neighborhood := "Topeka";
     zestimate := None;
     rent_zestimate := None |}.

(** Over the rationals [generate_investment_analysis] returns: its one
    division is guarded, and the market value is the zestimate, or else
    the price. *)
Lemma generate_investment_analysis_total (property : ZillowProperty) (distress : DistressSignal) :
  exists inv,
    generate_investment_analysis property distress = Ok inv
    /\ market_value inv = Some (or_int (zestimate property) (price property)).
Proof.
  unfold generate_investment_analysis.
  match goal with |- context [truthy ?t] => destruct (truthy t) eqn:Ht end.
  - apply truthy_nonzero in Ht. rewrite (truediv_nonzero _ Ht). cbn [bind].
    eexists. split; reflexivity.
  - cbn [bind]. eexists. split; reflexivity.
Qed.


(** A listing with no price and a zero zestimate. *)
Definition unpriced_property : ZillowProperty :=
  {| zpid := "0";
     address := "";
     price := 0;
     bedrooms := 0;
     bathrooms := 0;
     sqft := 0;
     lot_size := None;
     year_built := None;
     property_type := "";
     listing_date := "";
     days_on_market := 0;
     price_history := [];
     photos := [];
     description := "";
     neighborhood := "";
     zestimate := Some 0%Z;
     rent_zestimate := None |}.




(** ** The price-reduction signal *)


(** A listing whose only price-history entry describes a plain listing
    event and carries a [reduction] amount of zero. *)
Definition relisted_property : ZillowProperty :=
  {| zpid := "58";
     address := "9 Pine Rd, Dallas, TX";
     price := 300000;
     bedrooms := 4;
     bathrooms := 2;
     sqft := 2100;
     lot_size := None;
     year_built := None;
     property_type := "single_family";
     listing_date := "2024-03-01";
     days_on_market := 5;
     price_history :=
       [[("date"%string, PyStr "2024-03-01");
         ("description"%string, PyStr "Listed for sale");
         ("price"%string, PyInt 300000);
         ("reduction"%string, PyInt 0)]];
     photos := [];
     description := "Freshly painted";
     neighborhood := "Lakewood";
     zestimate := None;
     rent_zestimate := None |}.




End ScraperSpec.

(* ================================================================== *)
(** * The score, the return on investment and the visual score in binary64 *)
(* ================================================================== *)

Module Scraper64Spec.

Import PyFacts Num NumFacts Scraper64.

(** The six booleans of a distress signal, in the order the code sums them. *)
Definition signals (d : DistressSignal) : list bool :=
  [price_below_market d; high_days_on_market d; price_reduction d;
   visual_distress d; neighborhood_decline d; geometric_anomaly d].

(** A zestimate that [zestimate * 0.85] cannot convert to a float. *)
Definition zestimate_too_large (property : ZillowProperty) : bool :=
  match zestimate property with
  | Some z => too_large z
  | None => false
  end.

(** [(count / 6) * 100] in binary64, for the seven counts. *)
Definition score_of (count : Z) : float :=
  nth (Z.to_nat count)
      [Zero false;
       Finite (2345624805922133 # 140737488355328);
       Finite (2345624805922133 # 70368744177664);
       Finite 50;
       Finite (2345624805922133 # 35184372088832);
       Finite (2932031007402667 # 35184372088832);
       Finite 100]
      NaN.

Lemma score_of_count (b1 b2 b3 b4 b5 b6 : bool) :
  let count := sum_bools [b1; b2; b3; b4; b5; b6] in
  (ratio <- truediv (Int count) (Int (len [b1; b2; b3; b4; b5; b6])) ;;
   score <- mul ratio (Int 100) ;;
   to_float score) = Ok (score_of count)
  /\ Qabs (value (score_of count) - 100 * inject_Z count / 6) <= 1 # 100000000000000.
Proof.
  cbv zeta.
  destruct b1, b2, b3, b4, b5, b6;
    (split; [vm_compute; reflexivity | apply Qle_bool_iff; vm_compute; reflexivity]).
Qed.

(** The first signal, or the exception of the product. *)
Lemma price_below_market_outcome (property : ZillowProperty) :
  match zestimate property with
  | Some z =>
      if truthy_int z
      then estimate <- mul (Int z) (Float (lit 0.85)) ;;
           Ok (lt (Int (price property)) estimate)
      else Ok false
  | None => Ok false
  end
  = if zestimate_too_large property then Raise OverflowError
    else Ok match zestimate property with
            | Some z =>
                truthy_int z
                && lt (Int (price property))
                      (Float (fmul (round (inject_Z z)) (lit 0.85)))
            | None => false
            end.
Proof.
  unfold zestimate_too_large.
  destruct (zestimate property) as [z|]; [|reflexivity].
  unfold truthy_int. destruct (z =? 0)%Z eqn:E; cbn [negb andb].
  - apply Z.eqb_eq in E. subst z. reflexivity.
  - rewrite mul_int_float. destruct (too_large z); reflexivity.
Qed.

(** C1, amended.  For every property record and visual analysis whose
    zestimate is missing, zero or within the range of a float,
    [detect_distress_signals] returns, and [overall_score] is
    [(count / 6) * 100] as binary64 computes it, for [count] the number
    of true signals among the six: one of seven floats, within [1e-14]
    of [100 * count / 6]; it is [0.0] when all six are false and [100.0]
    when all six are true.  A missing zestimate, price history, visual
    score or geometric summary leaves its signal false.  A nonzero
    zestimate that does not convert to a float (of absolute value
    [2^1024 - 2^970] or more) makes [zestimate * 0.85] raise
    [OverflowError]. *)
Theorem detect_distress_signals_score (property : ZillowProperty) (visual : VisualAnalysis) :
  (zestimate_too_large property = true ->
   detect_distress_signals property visual = Raise OverflowError)
  /\ (zestimate_too_large property = false ->
      exists d,
        detect_distress_signals property visual = Ok d
        /\ overall_score d = score_of (sum_bools (signals d))
        /\ Qabs (value (overall_score d) - 100 * inject_Z (sum_bools (signals d)) / 6)
           <= 1 # 100000000000000
        /\ (signals d = [false; false; false; false; false; false] ->
            overall_score d = Zero false)
        /\ (signals d = [true; true; true; true; true; true] ->
            overall_score d = Finite 100)
        /\ (zestimate property = None -> price_below_market d = false)
        /\ (price_history property = [] -> price_reduction d = false)
        /\ (overall_visual_score visual = None -> visual_distress d = false)
        /\ (geometric_summary visual = None -> geometric_anomaly d = false)).
Proof.
  unfold detect_distress_signals.
  rewrite price_below_market_outcome.
  split; intro Hz; rewrite Hz; [reflexivity|].
  cbn [bind].
  match goal with
  | |- context [sum_bools [?b1; ?b2; ?b3; ?b4; ?b5; ?b6]] =>
      destruct (score_of_count b1 b2 b3 b4 b5 b6) as [Hs Hclose];
      set (pbm := b1) in *; set (pr := b3) in *; set (vd := b4) in *; set (ga := b6) in *
  end.
  cbv zeta in Hs, Hclose.
  destruct (truediv _ _) as [ratio|e]; [|discriminate Hs]. cbn [bind] in Hs |- *.
  destruct (mul ratio (Int 100)) as [score|e]; [|discriminate Hs]. cbn [bind] in Hs |- *.
  rewrite Hs. cbn [bind].
  eexists. split; [reflexivity|].
  unfold signals.
  cbn [overall_score price_below_market high_days_on_market price_reduction
       visual_distress neighborhood_decline geometric_anomaly].
  split; [reflexivity|]. split; [exact Hclose|].
  split; [intro H; rewrite H; reflexivity|].
  split; [intro H; rewrite H; reflexivity|].
  repeat split.
  - intro H. unfold pbm. rewrite H. reflexivity.
  - intro H. unfold pr. rewrite H. reflexivity.
  - intro H. unfold vd, get_overall_visual_score. rewrite H. reflexivity.
  - intro H. unfold ga, get_geometric_complexity. rewrite H. reflexivity.
Qed.

(** The quiet listing, with a zestimate of [10^309]. *)
Definition overvalued_property : ZillowProperty :=
  {| zpid := "31";
     address := "4 Oak Ave, Topeka, KS";
     price := 180000;
     bedrooms := 2;
     bathrooms := 1;
     sqft := 900;
     lot_size := None;
     year_built := None;
     property_type := "condo";
     listing_date := "2024-02-01";
     days_on_market := 12;
     price_history := [];
     photos := [];
     description := "Move-in ready";
     neighborhood := "Topeka";
     zestimate := Some (10 ^ 309)%Z;
     rent_zestimate := None |}.

(** The quiet listing, after ninety days on the market: one signal. *)
Definition stale_property : ZillowProperty :=
  {| zpid := "31";
     address := "4 Oak Ave, Topeka, KS";
     price := 180000;
     bedrooms := 2;
     bathrooms := 1;
     sqft := 900;
     lot_size := None;
     year_built := None;
     property_type := "condo";
     listing_date := "2024-02-01";
     days_on_market := 90;
     price_history := [];
     photos := [];
     description := "Move-in ready";
     neighborhood := "Topeka";
     zestimate := None;
     rent_zestimate := None |}.

(** C1, as stated, fails: a zestimate of [10^309] makes
    [zestimate * 0.85] raise [OverflowError]; and with one signal out of
    six the score, [(1 / 6) * 100] in binary64, is not [100 * 1 / 6]. *)
Lemma detect_distress_signals_overflow :
  detect_distress_signals overvalued_property empty_visual = Raise OverflowError
  /\ exists d,
       detect_distress_signals stale_property empty_visual = Ok d
       /\ sum_bools (signals d) = 1%Z
       /\ ~ value (overall_score d) == 100 * 1 / 6.
Proof.
  split; [vm_compute; reflexivity|].
  eexists. split; [vm_compute; reflexivity|].
  split; [reflexivity|]. cbn [overall_score value]. discriminate.
Qed.

(** The quiet listing scores [0.0], and the overvalued one raises. *)
Lemma detect_distress_signals_score_witness :
  (exists d, detect_distress_signals ScraperSpec.quiet_property empty_visual = Ok d
             /\ overall_score d = Zero false
             /\ price_below_market d = false)
  /\ detect_distress_signals overvalued_property empty_visual = Raise OverflowError.
Proof.
  split.
  - destruct (detect_distress_signals_score ScraperSpec.quiet_property empty_visual)
      as [_ H].
    destruct (H eq_refl) as [d [Hd [_ [_ [H0 [_ [Hz _]]]]]]].
    exists d. split; [exact Hd|]. split; [|apply Hz; reflexivity].
    apply H0. vm_compute in Hd. injection Hd as <-. reflexivity.
  - apply (detect_distress_signals_score overvalued_property empty_visual). reflexivity.
Defined.

(** ** The investment analyzer *)

(** Where the analysis cannot compute: under visual distress the market
    value or the price does not convert to a float; without it, the
    quotient of the profit by the price is too large for one. *)
Definition analysis_overflows (property : ZillowProperty) (distress : DistressSignal) : bool :=
  let market_value := or_int (zestimate property) (price property) in
  if visual_distress distress
  then too_large market_value || too_large (price property)
  else negb (price property =? 0)%Z
       && quotient_too_large (market_value - price property) (price property).

(** C4, amended.  For every property record and distress signal,
    [generate_investment_analysis] either raises [OverflowError] or
    returns.  It raises when, under visual distress, the market value or
    the price does not convert to a float, and when, without visual
    distress, the quotient of the profit by a nonzero price is too large
    for a float; it returns in every other case, in particular when the
    price and the market value are below [2^1022] in absolute value.
    When it returns, [roi_percentage] is
    [((market_value - total_investment) / total_investment) * 100], each
    operation as Python computes it on ints and floats, when
    [total_investment] is nonzero, and the integer 0 when it is zero (in
    particular when price = zestimate = 0).  [ZeroDivisionError] is never
    raised. *)
Theorem generate_investment_analysis_roi (property : ZillowProperty) (distress : DistressSignal) :
  let valued_at := or_int (zestimate property) (price property) in
  (analysis_overflows property distress = true ->
   generate_investment_analysis property distress = Raise OverflowError)
  /\ (analysis_overflows property distress = false ->
      exists inv repairs total profit,
        generate_investment_analysis property distress = Ok inv
        /\ market_value inv = valued_at
        /\ current_price inv = price property
        /\ (if visual_distress distress
            then mul (Int valued_at) (Float (lit 0.15))
            else Ok (Int 0)) = Ok repairs
        /\ add (Int (price property)) repairs = Ok total
        /\ sub (Int valued_at) total = Ok profit
        /\ estimated_repairs inv = repairs
        /\ potential_profit inv = profit
        /\ (truthy total = true ->
            exists q, truediv profit total = Ok q
                      /\ mul q (Int 100) = Ok (roi_percentage inv))
        /\ (truthy total = false -> roi_percentage inv = Int 0)
        /\ (price property = 0%Z -> zestimate property = Some 0%Z ->
            roi_percentage inv = Int 0))
  /\ ((Z.abs (price property) < 2 ^ 1022)%Z -> (Z.abs valued_at < 2 ^ 1022)%Z ->
      analysis_overflows property distress = false).
Proof.
  intro mv. unfold generate_investment_analysis, analysis_overflows. fold mv.
  destruct (visual_distress distress) eqn:Evd.
  - (* repairs are a float *)
    rewrite mul_int_float.
    destruct (too_large mv) eqn:Emv; cbn [orb bind].
    { split; [reflexivity|]. split; [discriminate|].
      intros _ H. exfalso. unfold too_large in Emv. apply Z.leb_le in Emv.
      unfold overflow_threshold in Emv. lia. }
    rewrite add_int_float.
    destruct (too_large (price property)) eqn:Ep; cbn [bind].
    { split; [reflexivity|]. split; [discriminate|].
      intros H _. exfalso. unfold too_large in Ep. apply Z.leb_le in Ep.
      unfold overflow_threshold in Ep. lia. }
    split; [discriminate|]. split; [|reflexivity]. intros _.
    set (repairs := fmul (round (inject_Z mv)) (lit 0.15)).
    set (total := fadd (round (inject_Z (price property))) repairs).
    fold repairs. fold total. rewrite sub_int_float, Emv. cbn [bind].
    set (profit := fsub (round (inject_Z mv)) total).
    cbn [truthy].
    destruct (is_zero total) eqn:Et; cbn [negb bind].
    + eexists. exists (Float repairs), (Float total), (Float profit).
      split; [reflexivity|].
      cbn [market_value current_price estimated_repairs potential_profit roi_percentage].
      split; [reflexivity|]. split; [reflexivity|].
      split; [first [reflexivity | rewrite mul_int_float, Emv; reflexivity]|].
      split; [first [reflexivity | rewrite add_int_float, Ep; reflexivity]|].
      split; [first [reflexivity | rewrite sub_int_float, Emv; reflexivity]|].
      split; [reflexivity|]. split; [reflexivity|].
      split; [cbn [truthy]; rewrite Et; discriminate|].
      split; reflexivity.
    + rewrite (@truediv_float profit total Et). cbn [bind]. rewrite mul_float_100. cbn [bind].
      eexists. exists (Float repairs), (Float total), (Float profit).
      split; [reflexivity|].
      cbn [market_value current_price estimated_repairs potential_profit roi_percentage].
      split; [reflexivity|]. split; [reflexivity|].
      split; [first [reflexivity | rewrite mul_int_float, Emv; reflexivity]|].
      split; [first [reflexivity | rewrite add_int_float, Ep; reflexivity]|].
      split; [first [reflexivity | rewrite sub_int_float, Emv; reflexivity]|].
      split; [reflexivity|]. split; [reflexivity|].
      split; [intros _; eexists; split; [apply truediv_float; exact Et|reflexivity]|].
      split; [cbn [truthy]; rewrite Et; discriminate|].
      intros Hp Hz. exfalso. unfold total, repairs, mv in Et.
      rewrite Hp, Hz in Et. vm_compute in Et. discriminate Et.
  - (* everything is an integer *)
    cbn [bind add sub truthy].
    replace (price property + 0)%Z with (price property) by lia.
    unfold truthy_int.
    destruct (price property =? 0)%Z eqn:Ep; cbn [negb andb bind].
    + split; [discriminate|]. split; [|reflexivity]. intros _.
      eexists. exists (Int 0), (Int (price property)), (Int (mv - price property)).
      split; [reflexivity|].
      cbn [market_value current_price estimated_repairs potential_profit roi_percentage].
      split; [reflexivity|]. split; [reflexivity|]. split; [reflexivity|].
      split; [cbn [add]; f_equal; f_equal; lia|].
      split; [reflexivity|]. split; [reflexivity|]. split; [reflexivity|].
      split; [cbn [truthy]; unfold truthy_int; rewrite Ep; discriminate|].
      split; reflexivity.
    + assert (Hp : price property <> 0%Z) by (apply Z.eqb_neq; exact Ep).
      rewrite (truediv_int _ Hp).
      destruct (quotient_too_large (mv - price property) (price property)) eqn:Eq;
        cbn [bind].
      { split; [reflexivity|]. split; [discriminate|].
        intros H1 H2. exfalso. unfold quotient_too_large in Eq.
        apply Qle_bool_iff in Eq. revert Eq. apply Qlt_not_le.
        (* |(mv - p) / p| <= |mv - p| < 2^1023 *)
        apply Qle_lt_trans with (inject_Z (Z.abs (mv - price property))).
        - unfold Qdiv. rewrite Qabs_Qmult, Qabs_Qinv.
          change (Qabs (inject_Z (mv - price property)))
            with (inject_Z (Z.abs (mv - price property))).
          change (Qabs (inject_Z (price property)))
            with (inject_Z (Z.abs (price property))).
          apply Qle_shift_div_r.
          + change 0 with (inject_Z 0). rewrite <- Zlt_Qlt. lia.
          + rewrite <- inject_Z_mult, <- Zle_Qle. nia.
        - rewrite <- Zlt_Qlt. unfold overflow_threshold. lia. }
      split; [discriminate|]. split; [|reflexivity]. intros _.
      rewrite mul_float_100. cbn [bind].
      eexists. exists (Int 0), (Int (price property)), (Int (mv - price property)).
      split; [reflexivity|].
      cbn [market_value current_price estimated_repairs potential_profit roi_percentage].
      split; [reflexivity|]. split; [reflexivity|]. split; [reflexivity|].
      split; [cbn [add]; f_equal; f_equal; lia|].
      split; [reflexivity|]. split; [reflexivity|]. split; [reflexivity|].
      split; [intros _; eexists; split; [|apply mul_float_100];
              rewrite (truediv_int _ Hp), Eq; reflexivity|].
      split; [cbn [truthy]; unfold truthy_int; rewrite Ep; discriminate|].
      intros H _. congruence.
Qed.

(** A listing at one dollar that is valued at [10^400]. *)
Definition windfall_property : ZillowProperty :=
  {| zpid := "77";
     address := "1 Main St, Reno, NV";
     price := 1;
     bedrooms := 2;
     bathrooms := 1;
     sqft := 900;
     lot_size := None;
     year_built := None;
     property_type := "condo";
     listing_date := "2024-02-01";
     days_on_market := 12;
     price_history := [];
     photos := [];
     description := "Move-in ready";
     neighborhood := "Reno";
     zestimate := Some (10 ^ 400)%Z;
     rent_zestimate := None |}.

(** A signal with no boolean raised, and one with all six. *)
Definition quiet_signal : DistressSignal :=
  {| price_below_market := false; high_days_on_market := false;
     price_reduction := false; visual_distress := false;
     neighborhood_decline := false; geometric_anomaly := false;
     overall_score := Zero false |}.

Definition alarming_signal : DistressSignal :=
  {| price_below_market := true; high_days_on_market := true;
     price_reduction := true; visual_distress := true;
     neighborhood_decline := true; geometric_anomaly := true;
     overall_score := Finite 100 |}.

(** C4, as stated, fails: at a price of 1 and a zestimate of [10^400],
    without visual distress, the profit and the total investment are the
    integers [10^400 - 1] and [1], and their quotient does not fit a
    float: the function raises [OverflowError]. *)
Lemma generate_investment_analysis_overflow :
  generate_investment_analysis windfall_property quiet_signal = Raise OverflowError.
Proof. vm_compute. reflexivity. Qed.

(** The distressed listing under visual distress: repairs of 30000.0 and
    a return above 25 percent; the unpriced listing: a return of 0; the
    windfall: [OverflowError]. *)
Lemma generate_investment_analysis_roi_witness :
  (exists inv,
     generate_investment_analysis ScraperSpec.distressed_property alarming_signal = Ok inv
     /\ estimated_repairs inv = Float (Finite 30000)
     /\ gt (roi_percentage inv) (Int 25) = true)
  /\ (exists inv,
        generate_investment_analysis ScraperSpec.unpriced_property quiet_signal = Ok inv
        /\ roi_percentage inv = Int 0)
  /\ generate_investment_analysis windfall_property alarming_signal = Raise OverflowError.
Proof.
  split; [|split].
  - destruct (generate_investment_analysis_roi ScraperSpec.distressed_property alarming_signal)
      as [_ [H _]].
    destruct (H eq_refl) as [inv [repairs [total [profit [Hinv _]]]]].
    exists inv. split; [exact Hinv|].
    vm_compute in Hinv. injection Hinv as <-. split; reflexivity.
  - destruct (generate_investment_analysis_roi ScraperSpec.unpriced_property quiet_signal)
      as [_ [H _]].
    destruct (H eq_refl) as [inv [repairs [total [profit [Hinv [_ [_ [_ [_ [_ [_ [_ [_ [_ H0]]]]]]]]]]]]]].
    exists inv. split; [exact Hinv|]. apply H0; reflexivity.
  - apply (generate_investment_analysis_roi windfall_property alarming_signal).
    vm_compute. reflexivity.
Defined.

(** ** The signals of a listing *)

(** 85% of a zestimate under [2^46], as binary64 computes it, has the
    integers under it that the exact product has. *)
Lemma estimate_85 (z p : Z) :
  (0 < z < 2 ^ 46)%Z ->
  lt (Int p) (Float (fmul (round (inject_Z z)) (lit 0.85))) = true
  <-> (100 * p < 85 * z)%Z.
Proof.
  intro Hz.
  destruct (@round_int z ltac:(lia)) as [a [Ea Ha]].
  rewrite Ea, lit_085. cbn [fmul].
  set (c := 7656119366529843 # 9007199254740992).
  pose proof (Z.div_mod (17 * z) 20 ltac:(lia)) as Hdm.
  pose proof (Z.mod_pos_bound (17 * z) 20 ltac:(lia)) as Hr.
  set (N := (17 * z / 20)%Z) in *. set (r := ((17 * z) mod 20)%Z) in *.
  assert (Hx : a * c == inject_Z z * c) by (rewrite Ha; reflexivity).
  destruct (Z.eq_dec r 0) as [Hr0|Hr0].
  - (* the exact product is just under the integer N *)
    destruct (@round_between ((32 * N - 1) # 32) (inject_Z N) (a * c))
      as [q [Eq [Hlo Hhi]]].
    + apply (@representable_over _ 5); [reflexivity|lia|lia].
    + apply representable_int; lia.
    + apply small_below_threshold; lia.
    + rewrite Hx. unfold c, Qle, Qmult; cbn [Qnum Qden inject_Z]; lia.
    + rewrite Hx. unfold c, Qle, Qmult; cbn [Qnum Qden inject_Z]; lia.
    + rewrite Eq, lt_int_finite, Qltb_lt. split; intro H.
      * assert (H' : inject_Z p < inject_Z N) by (eapply Qlt_le_trans; eassumption).
        rewrite <- Zlt_Qlt in H'. lia.
      * eapply Qlt_le_trans; [|exact Hlo].
        unfold Qlt; cbn [Qnum Qden inject_Z]; lia.
  - destruct (@round_between ((32 * N + 1) # 32) (inject_Z (N + 1)) (a * c))
      as [q [Eq [Hlo Hhi]]].
    + apply (@representable_over _ 5); [reflexivity|lia|lia].
    + apply representable_int; lia.
    + apply small_below_threshold; lia.
    + rewrite Hx. unfold c, Qle, Qmult; cbn [Qnum Qden inject_Z]; lia.
    + rewrite Hx. unfold c, Qle, Qmult; cbn [Qnum Qden inject_Z]; lia.
    + rewrite Eq, lt_int_finite, Qltb_lt. split; intro H.
      * assert (H' : inject_Z p < inject_Z (N + 1)) by (eapply Qlt_le_trans; eassumption).
        rewrite <- Zlt_Qlt in H'. lia.
      * eapply Qlt_le_trans; [|exact Hlo].
        unfold Qlt; cbn [Qnum Qden inject_Z]; lia.
Qed.

(** What [detect_distress_signals] returns when the product can be
    computed: each boolean is its test, and the score is that of the count. *)
Lemma detect_distress_signals_fields (property : ZillowProperty) (visual : VisualAnalysis) :
  zestimate_too_large property = false ->
  exists d,
    detect_distress_signals property visual = Ok d
    /\ price_below_market d =
         match zestimate property with
         | Some z =>
             truthy_int z
             && lt (Int (price property)) (Float (fmul (round (inject_Z z)) (lit 0.85)))
         | None => false
         end
    /\ high_days_on_market d = (60 <? days_on_market property)%Z
    /\ price_reduction d =
         existsb (fun change => contains "reduction" (lower (str_of_dict change)))
                 (price_history property)
    /\ visual_distress d = gt (get_overall_visual_score visual) (Int 50)
    /\ neighborhood_decline d =
         existsb (fun keyword => contains keyword (lower (description property)))
                 ["foreclosure"; "as-is"; "distress"]%string
    /\ geometric_anomaly d = gt (get_geometric_complexity visual) (Int 100)
    /\ overall_score d = score_of (sum_bools (signals d)).
Proof.
  intro Hz. unfold detect_distress_signals.
  rewrite price_below_market_outcome, Hz. cbn [bind].
  match goal with
  | |- context [sum_bools [?b1; ?b2; ?b3; ?b4; ?b5; ?b6]] =>
      destruct (score_of_count b1 b2 b3 b4 b5 b6) as [Hs _]
  end.
  cbv zeta in Hs.
  destruct (truediv _ _) as [ratio|e]; [|discriminate Hs]. cbn [bind] in Hs |- *.
  destruct (mul ratio (Int 100)) as [score|e]; [|discriminate Hs]. cbn [bind] in Hs |- *.
  rewrite Hs. cbn [bind].
  eexists. split; [reflexivity|]. repeat split.
Qed.

(** A zestimate that is missing, or between 0 and [2^46]. *)
Definition modest_zestimate (property : ZillowProperty) : Prop :=
  match zestimate property with
  | Some z => (0 <= z < 2 ^ 46)%Z
  | None => True
  end.

Lemma modest_zestimate_converts (property : ZillowProperty) :
  modest_zestimate property -> zestimate_too_large property = false.
Proof.
  unfold modest_zestimate, zestimate_too_large.
  destruct (zestimate property) as [z|]; [|reflexivity].
  intro H. unfold too_large. apply Z.leb_gt. unfold overflow_threshold. lia.
Qed.

(** X6.  On [detect_distress_signals].  For a listing whose zestimate is
    missing, or at least 0 and below [2^46], the function returns, and
    [price_below_market] is raised exactly when the zestimate is not zero
    and [100 * price < 85 * zestimate] over the integers: in that range
    the rounding of [0.85] and of the product [zestimate * 0.85] to
    binary64 does not move the comparison with the integer price.
    [high_days_on_market] is raised exactly when the listing has been on
    the market for more than 60 days, and [neighborhood_decline] exactly
    when the lowercase description contains one of the three keywords. *)
Theorem listing_signals (property : ZillowProperty) (visual : VisualAnalysis) :
  modest_zestimate property ->
  exists d,
    detect_distress_signals property visual = Ok d
    /\ (price_below_market d = true
        <-> exists z,
              zestimate property = Some z /\ z <> 0%Z
              /\ (100 * price property < 85 * z)%Z)
    /\ (high_days_on_market d = true <-> (60 < days_on_market property)%Z)
    /\ (neighborhood_decline d = true
        <-> exists keyword,
              In keyword ["foreclosure"; "as-is"; "distress"]%string
              /\ occurs_in keyword (lower (description property))).
Proof.
  intro Hm.
  destruct (detect_distress_signals_fields property visual (modest_zestimate_converts _ Hm))
    as [d [Hd [Hp [Hh [_ [_ [Hn _]]]]]]].
  exists d. split; [exact Hd|]. rewrite Hp, Hh, Hn. clear Hd Hp Hh Hn.
  split; [|split].
  - unfold modest_zestimate in Hm. destruct (zestimate property) as [z|].
    + unfold truthy_int. destruct (z =? 0)%Z eqn:Ez; cbn [negb andb].
      * apply Z.eqb_eq in Ez. split; [discriminate|].
        intros [z' [[= <-] [Hz _]]]. contradiction.
      * apply Z.eqb_neq in Ez. rewrite estimate_85 by lia.
        split.
        -- intro H. exists z. auto.
        -- intros [z' [[= <-] [_ H]]]. exact H.
    + split; [discriminate|]. intros [z [H _]]. discriminate H.
  - apply Z.ltb_lt.
  - rewrite existsb_exists.
    split; intros [keyword [Hin H]]; exists keyword; (split; [exact Hin|]);
      apply contains_occurs_in; exact H.
Qed.

(** ** Signs through the operations *)

(** The distressed listing, at half of its zestimate, and a listing at
    exactly 85% of its zestimate. *)
Definition fair_property : ZillowProperty :=
  {| zpid := "85";
     address := "8 Birch Ln, Boise, ID";
     price := 85;
     bedrooms := 2;
     bathrooms := 1;
     sqft := 900;
     lot_size := None;
     year_built := None;
     property_type := "condo";
     listing_date := "2024-02-01";
     days_on_market := 60;
     price_history := [];
     photos := [];
     description := "Move-in ready";
     neighborhood := "Boise";
     zestimate := Some 100%Z;
     rent_zestimate := None |}.

Lemma listing_signals_witness :
  (exists d,
     detect_distress_signals ScraperSpec.distressed_property empty_visual = Ok d
     /\ price_below_market d = true
     /\ high_days_on_market d = true
     /\ neighborhood_decline d = true)
  /\ (exists d,
        detect_distress_signals fair_property empty_visual = Ok d
        /\ price_below_market d = false
        /\ high_days_on_market d = false).
Proof.
  split.
  - destruct (listing_signals ScraperSpec.distressed_property empty_visual)
      as [d [Hd [Hp [Hh Hn]]]].
    + cbn. lia.
    + exists d. split; [exact Hd|]. split; [|split].
      * apply Hp. exists 200000%Z. cbn. repeat split; lia.
      * apply Hh. cbn. lia.
      * apply Hn. exists "foreclosure"%string. split; [left; reflexivity|].
        apply contains_occurs_in. reflexivity.
  - destruct (listing_signals fair_property empty_visual) as [d [Hd [Hp [Hh _]]]].
    + cbn. lia.
    + exists d. split; [exact Hd|]. split.
      * destruct (price_below_market d); [|reflexivity].
        destruct Hp as [Hp _]. destruct (Hp eq_refl) as [z [Hz [_ Hlt]]].
        cbn in Hz. injection Hz as <-. cbn in Hlt. lia.
      * destruct (high_days_on_market d); [|reflexivity].
        destruct Hh as [Hh _]. specialize (Hh eq_refl). cbn in Hh. lia.
Defined.

(** Beyond that range the rounding shows.  At a zestimate of
    6000000000000005 the product [zestimate * 0.85] is the double
    5100000000000004.0: a price of 5100000000000004 is under 85% of the
    zestimate and not under the product. *)
Definition large_property : ZillowProperty :=
  {| zpid := "99";
     address := "1 Park Ave, New York, NY";
     price := 5100000000000004;
     bedrooms := 2;
     bathrooms := 1;
     sqft := 900;
     lot_size := None;
     year_built := None;
     property_type := "condo";
     listing_date := "2024-02-01";
     days_on_market := 12;
     price_history := [];
     photos := [];
     description := "Move-in ready";
     neighborhood := "Midtown";
     zestimate := Some 6000000000000005%Z;
     rent_zestimate := None |}.

Remark price_below_market_beyond_range :
  (100 * price large_property < 85 * 6000000000000005)%Z
  /\ exists d,
       detect_distress_signals large_property empty_visual = Ok d
       /\ price_below_market d = false.
Proof.
  split; [cbn; lia|]. eexists. split; [vm_compute; reflexivity|reflexivity].
Qed.

(** ** A listing valued at its price *)

(** Under visual distress the repairs are added to the price, and the
    profit over the total is not above zero. *)
Lemma roi_of_repaired (p : Z) :
  (0 < Z.abs p < 2 ^ 53)%Z ->
  let repairs := fmul (round (inject_Z p)) (lit 0.15) in
  let total := fadd (round (inject_Z p)) repairs in
  let profit := fsub (round (inject_Z p)) total in
  is_zero total = false
  /\ nonpositive (fmul (fdiv profit total) (Finite 100)).
Proof.
  intro Hp. rewrite lit_015. set (c := 5404319552844595 # 36028797018963968).
  destruct (Z_lt_le_dec 0 p) as [Hpos|Hneg].
  - destruct (@round_int p ltac:(lia)) as [a [Ea Ha]]. rewrite Ea. cbn [fmul].
    destruct (@round_between (1 # 8) (inject_Z p) (a * c)) as [r [Er [Hr1 Hr2]]].
    + apply (@representable_over _ 3); [reflexivity|lia|lia].
    + apply representable_int. lia.
    + apply small_below_threshold. lia.
    + rewrite Ha. unfold c, Qle, Qmult; cbn [Qnum Qden inject_Z]; lia.
    + rewrite Ha. unfold c, Qle, Qmult; cbn [Qnum Qden inject_Z]; lia.
    + rewrite Er. cbn [fadd].
      destruct (@round_between (inject_Z p) (inject_Z (2 * p)) (a + r)) as [t [Et [Ht1 Ht2]]].
      * apply representable_int. lia.
      * apply representable_double. lia.
      * apply small_below_threshold. lia.
      * rewrite Ha. setoid_replace (inject_Z p) with (inject_Z p + 0) at 1 by ring.
        apply Qplus_le_r. eapply Qle_trans; [|exact Hr1]. discriminate.
      * rewrite Ha, inject_Z_mult. setoid_replace (inject_Z 2 * inject_Z p)
          with (inject_Z p + inject_Z p) by ring.
        apply Qplus_le_r. exact Hr2.
      * rewrite Et. cbv zeta. split; [reflexivity|].
        apply fmul_100_nonpositive, fdiv_nonpositive.
        -- unfold fsub. cbn [fopp fadd]. apply round_nonpositive.
           rewrite Ha. apply (Qplus_le_l _ _ t). ring_simplify. exact Ht1.
        -- eapply Qlt_le_trans; [|exact Ht1].
           change 0 with (inject_Z 0). rewrite <- Zlt_Qlt. exact Hpos.
  - assert (Hp' : (- 2 ^ 53 < p < 0)%Z) by lia.
    destruct (round_int_neg Hp') as [a [Ea Ha]]. rewrite Ea. cbn [fmul].
    destruct (@round_between_neg (1 # 8) (inject_Z (- p)) (a * c)) as [r [Er [Hr1 Hr2]]].
    + apply (@representable_over _ 3); [reflexivity|lia|lia].
    + apply representable_int. lia.
    + apply small_below_threshold. lia.
    + rewrite Ha. unfold c, Qle, Qmult, Qopp; cbn [Qnum Qden inject_Z]; lia.
    + rewrite Ha. unfold c, Qle, Qmult, Qopp; cbn [Qnum Qden inject_Z]; lia.
    + rewrite Er. cbn [fadd].
      rewrite inject_Z_opp, Qopp_opp in Hr1.
      destruct (@round_between_neg (inject_Z (- p)) (inject_Z (2 * - p)) (a + r))
        as [t [Et [Ht1 Ht2]]].
      * apply representable_int. lia.
      * apply representable_double. lia.
      * apply small_below_threshold. lia.
      * rewrite Ha, inject_Z_mult, inject_Z_opp.
        setoid_replace (- (inject_Z 2 * - inject_Z p))
          with (inject_Z p + inject_Z p) by ring.
        apply Qplus_le_r. exact Hr1.
      * rewrite Ha, inject_Z_opp, Qopp_opp.
        setoid_replace (inject_Z p) with (inject_Z p + 0) at 2 by ring.
        apply Qplus_le_r. eapply Qle_trans; [exact Hr2|]. discriminate.
      * rewrite Et. cbv zeta. split; [reflexivity|].
        rewrite inject_Z_opp, Qopp_opp in Ht2.
        apply fmul_100_nonpositive, fdiv_nonnegative_neg.
        -- unfold fsub. cbn [fopp fadd]. apply round_nonnegative.
           rewrite Ha. apply (Qplus_le_l _ _ t). ring_simplify. exact Ht2.
        -- eapply Qle_lt_trans; [exact Ht2|].
           change 0 with (inject_Z 0). rewrite <- Zlt_Qlt. lia.
Qed.

(** X24.  On [generate_investment_analysis], with the gate of
    [process_overflow_lead].  A listing with no zestimate, or a zestimate
    of 0, is valued at its price.  When the price is below [2^53] in
    absolute value the analysis returns, and its return on investment is
    below the 10 percent that the gate asks for, whatever the signals:
    it is zero without visual distress, and not above zero with it (the
    repairs are added to the price that is also the value).  The grade
    is C. *)
Theorem listing_without_zestimate_is_rejected
  (property : ZillowProperty) (distress : DistressSignal) :
  zestimate property = None \/ zestimate property = Some 0%Z ->
  (Z.abs (price property) < 2 ^ 53)%Z ->
  exists inv,
    generate_investment_analysis property distress = Ok inv
    /\ market_value inv = price property
    /\ lt (roi_percentage inv) (Int 10) = true
    /\ gt (roi_percentage inv) (Int 0) = false
    /\ investment_grade inv = "C"%string
    /\ (visual_distress distress = false -> truthy (roi_percentage inv) = false).
Proof.
  intros Hz Hp. unfold generate_investment_analysis.
  assert (Hmv : or_int (zestimate property) (price property) = price property)
    by (destruct Hz as [-> | ->]; reflexivity).
  rewrite Hmv. clear Hmv Hz. set (p := price property) in *.
  assert (Hlarge : too_large p = false).
  { unfold too_large. apply Z.leb_gt. unfold overflow_threshold. lia. }
  assert (Hgrade : forall x, nonpositive x ->
            lt (Float x) (Int 10) = true
            /\ gt (Float x) (Int 0) = false
            /\ (if gt (Float x) (Int 25) then "A"
                else if gt (Float x) (Int 15) then "B" else "C")%string = "C"%string).
  { intros x Hx.
    destruct (@nonpositive_under x 0 Hx ltac:(lia)) as [H10 H0].
    destruct (@nonpositive_under x 25 Hx ltac:(lia)) as [_ H25].
    destruct (@nonpositive_under x 15 Hx ltac:(lia)) as [_ H15].
    rewrite H25, H15. auto. }
  destruct (visual_distress distress) eqn:Evd.
  - rewrite mul_int_float, Hlarge. cbn [bind].
    rewrite add_int_float, Hlarge. cbn [bind].
    rewrite sub_int_float, Hlarge. cbn [bind truthy].
    destruct (Z.eq_dec p 0) as [E0|Hne].
    + rewrite E0. vm_compute. eexists. repeat split; discriminate.
    + destruct (@roi_of_repaired p ltac:(lia)) as [Ht Hroi]. cbv zeta in Ht, Hroi.
      rewrite Ht. cbn [negb]. rewrite (@truediv_float _ _ Ht). cbn [bind].
      rewrite mul_float_100. cbn [bind].
      destruct (Hgrade _ Hroi) as [H10 [H0 Hg]].
      eexists. split; [reflexivity|].
      cbn [market_value roi_percentage investment_grade].
      split; [reflexivity|]. split; [exact H10|]. split; [exact H0|].
      split; [exact Hg|discriminate].
  - cbn [bind add sub truthy]. replace (p + 0)%Z with p by lia.
    replace (p - p)%Z with 0%Z by lia.
    unfold truthy_int. destruct (p =? 0)%Z eqn:E0; cbn [negb bind].
    + eexists. split; [reflexivity|]. repeat split.
    + apply Z.eqb_neq in E0. rewrite (truediv_int _ E0).
      assert (Hq : quotient_too_large 0 p = false).
      { unfold quotient_too_large. apply Qleb_false.
        assert (E : inject_Z 0 / inject_Z p == 0) by (unfold Qdiv; ring).
        rewrite E. reflexivity. }
      rewrite Hq. cbn [bind Z.eqb]. rewrite mul_float_100. cbn [bind fmul negative].
      eexists. split; [reflexivity|].
      cbn [market_value roi_percentage investment_grade].
      destruct (p <? 0)%Z; repeat split.
Qed.

(** The quiet listing has no zestimate; with every signal raised, its
    return is below 10 percent, and negative. *)
Lemma listing_without_zestimate_is_rejected_witness :
  exists inv,
    generate_investment_analysis ScraperSpec.quiet_property alarming_signal = Ok inv
    /\ market_value inv = 180000%Z
    /\ lt (roi_percentage inv) (Int 10) = true
    /\ lt (roi_percentage inv) (Int (-13)) = true
    /\ investment_grade inv = "C"%string.
Proof.
  destruct (listing_without_zestimate_is_rejected ScraperSpec.quiet_property alarming_signal)
    as [inv [Hinv [Hmv [H10 [_ [Hg _]]]]]].
  - left. reflexivity.
  - cbn. lia.
  - exists inv. split; [exact Hinv|]. split; [exact Hmv|]. split; [exact H10|].
    split; [|exact Hg].
    vm_compute in Hinv. injection Hinv as <-. vm_compute. reflexivity.
Defined.

(** Beyond that range the return need not be a number.  At a price of
    [17 * 10^307] under visual distress, the price and the repairs add
    up to an infinity, the profit is the opposite infinity, and their
    quotient is [nan]: it is not under 10. *)
Definition overpriced_property : ZillowProperty :=
  {| zpid := "17";
     address := "1 Park Ave, New York, NY";
     price := 17 * 10 ^ 307;
     bedrooms := 2;
     bathrooms := 1;
     sqft := 900;
     lot_size := None;
     year_built := None;
     property_type := "condo";
     listing_date := "2024-02-01";
     days_on_market := 12;
     price_history := [];
     photos := [];
     description := "Move-in ready";
     neighborhood := "Midtown";
     zestimate := None;
     rent_zestimate := None |}.

Remark return_beyond_range :
  exists inv,
    generate_investment_analysis overpriced_property alarming_signal = Ok inv
    /\ roi_percentage inv = Float NaN
    /\ lt (roi_percentage inv) (Int 10) = false.
Proof.
  eexists. split; [vm_compute; reflexivity|]. split; reflexivity.
Qed.

(** ** The visual score *)

(** A result that is [nan], unless a conversion overflowed. *)
Definition nan_or_overflow (r : result num) : Prop :=
  r = Ok (Float NaN) \/ r = Raise OverflowError.

(** A result that is a float, unless a conversion overflowed. *)
Definition float_or_overflow (r : result num) : Prop :=
  (exists x, r = Ok (Float x)) \/ r = Raise OverflowError.

Lemma add_float (a : num) (y : float) : float_or_overflow (add a (Float y)).
Proof.
  destruct a as [z|x]; [|left; eexists; reflexivity].
  rewrite add_int_float. destruct (too_large z); [right|left; eexists]; reflexivity.
Qed.

Lemma add_float_l (x : float) (b : num) : float_or_overflow (add (Float x) b).
Proof.
  destruct b as [z|y]; [|left; eexists; reflexivity].
  unfold add, to_float, float_of_int. cbn [bind].
  destruct (too_large z); [right|left; eexists]; reflexivity.
Qed.

Lemma add_nan_l (b : num) : nan_or_overflow (add (Float NaN) b).
Proof.
  destruct b as [z|y]; [|left; reflexivity].
  unfold add, to_float, float_of_int. cbn [bind].
  destruct (too_large z); [right|left]; reflexivity.
Qed.

Lemma add_nan_r (a : num) : nan_or_overflow (add a (Float NaN)).
Proof.
  destruct a as [z|x]; [|left; unfold add, to_float; cbn [bind]; rewrite fadd_nan_r; reflexivity].
  rewrite add_int_float. destruct (too_large z); [right; reflexivity|left].
  rewrite fadd_nan_r. reflexivity.
Qed.

Lemma truediv_int_outcome (a b : Z) :
  b <> 0%Z -> float_or_overflow (truediv (Int a) (Int b)).
Proof.
  intro Hb. rewrite (truediv_int _ Hb).
  destruct (quotient_too_large a b); [right|left; eexists]; reflexivity.
Qed.

(** The points of a photo are a float, and [nan] when the standard
    deviation of its curvatures is. *)
Lemma photo_points_outcome (item : PhotoAnalysis) :
  float_or_overflow (photo_points item)
  /\ (irregular_geometry (distress_indicators item) = NaN ->
      nan_or_overflow (photo_points item)).
Proof.
  unfold photo_points. cbn [mul bind to_float].
  change (float_of_int 20) with (Ok (Finite 20)). cbn [bind].
  set (d := distress_indicators item).
  rewrite add_int_float.
  destruct (too_large (high_curvature_regions d * 10)); cbn [bind];
    [split; [right; reflexivity|intros _; right; reflexivity]|].
  destruct (truediv_int_outcome (visual_complexity d) (b := 10) ltac:(lia))
    as [[c Ec]|Ec]; rewrite Ec; cbn [bind];
    [|split; [right; reflexivity|intros _; right; reflexivity]].
  split; [apply add_float_l|].
  intros ->. cbn [fmul]. rewrite fadd_nan_r. apply add_nan_l.
Qed.

Lemma total_points_outcome (analyses : list PhotoAnalysis) (t : float) :
  float_or_overflow (total_points analyses (Float t))
  /\ (t = NaN \/ Exists (fun item => irregular_geometry (distress_indicators item) = NaN)
                        analyses ->
      nan_or_overflow (total_points analyses (Float t))).
Proof.
  revert t. induction analyses as [|item analyses IH]; intro t; cbn [total_points].
  - split; [left; eexists; reflexivity|].
    intros [->|H]; [left; reflexivity|inversion H].
  - destruct (photo_points_outcome item) as [[[x Ex]|Ex] Hnan]; rewrite Ex in *;
      cbn [bind]; [|split; [right; reflexivity|intros _; right; reflexivity]].
    destruct (IH (fadd t x)) as [IH1 IH2].
    split; [exact IH1|].
    intros [->|H].
    + apply IH2. left. reflexivity.
    + apply IH2. inversion H as [? ? Hitem|? ? Hrest]; subst.
      * left. destruct (Hnan Hitem) as [[= ->]|E]; [apply fadd_nan_r|discriminate E].
      * right. exact Hrest.
Qed.

(** The smaller of the mean and [100.0] is not above 100. *)
Lemma capped_at_100 (mean : float) :
  gt (min2 (Float mean) (Float (lit 100))) (Int 100) = false.
Proof.
  unfold min2. destruct (lt (Float (lit 100)) (Float mean)) eqn:E.
  - vm_compute. reflexivity.
  - exact E.
Qed.

Lemma nonzero_length (n : Z) :
  (0 < n)%Z -> too_large n = false -> is_zero (round (inject_Z n)) = false.
Proof.
  intros Hn Hl.
  destruct (@round_ge 1 (inject_Z n)) as [q [E _]].
  - apply (representable_int (m := 1)). lia.
  - change 1 with (inject_Z 1). rewrite <- Zle_Qle. lia.
  - unfold threshold. rewrite <- Zlt_Qlt. unfold too_large in Hl.
    apply Z.leb_gt in Hl. lia.
  - rewrite E. reflexivity.
Qed.

Definition undefined_deviation (item : PhotoAnalysis) : Prop :=
  irregular_geometry (distress_indicators item) = NaN.

(** Counts that convert to floats. *)
Definition countable (item : PhotoAnalysis) : Prop :=
  (Z.abs (high_curvature_regions (distress_indicators item)) < 2 ^ 1000)%Z
  /\ (Z.abs (visual_complexity (distress_indicators item)) < 2 ^ 1000)%Z.

Lemma photo_points_returns (item : PhotoAnalysis) :
  countable item -> exists x, photo_points item = Ok (Float x).
Proof.
  intros [Hh Hv]. unfold photo_points. cbn [mul bind to_float].
  change (float_of_int 20) with (Ok (Finite 20)). cbn [bind].
  set (d := distress_indicators item) in *.
  rewrite add_int_float.
  assert (E1 : too_large (high_curvature_regions d * 10) = false).
  { unfold too_large. apply Z.leb_gt. unfold overflow_threshold. lia. }
  rewrite E1. cbn [bind].
  rewrite (@truediv_int (visual_complexity d) 10) by lia.
  assert (E2 : quotient_too_large (visual_complexity d) 10 = false).
  { unfold quotient_too_large. apply Qleb_false.
    apply Qle_lt_trans with (inject_Z (Z.abs (visual_complexity d))).
    - unfold Qdiv. rewrite Qabs_Qmult.
      change (Qabs (inject_Z (visual_complexity d)))
        with (inject_Z (Z.abs (visual_complexity d))).
      change (Qabs (/ inject_Z 10)) with (1 # 10).
      unfold Qle, Qmult. cbn [Qnum Qden inject_Z]. lia.
    - rewrite <- Zlt_Qlt. unfold overflow_threshold. lia. }
  rewrite E2. cbn [bind].
  match goal with
  | |- exists x, add (Float ?a) ?b = _ =>
      destruct b as [z|y] eqn:Eb; [|eexists; reflexivity]
  end.
  unfold min2 in Eb. destruct (lt _ _) in Eb; [|discriminate Eb].
  injection Eb as <-. eexists. reflexivity.
Qed.

Lemma total_points_returns (analyses : list PhotoAnalysis) (t : float) :
  Forall countable analyses -> exists x, total_points analyses (Float t) = Ok (Float x).
Proof.
  revert t. induction analyses as [|item analyses IH]; intros t H; cbn [total_points].
  - eexists. reflexivity.
  - inversion H as [|? ? Hitem Hrest]; subst.
    destruct (photo_points_returns Hitem) as [x Ex]. rewrite Ex. cbn [bind add to_float].
    apply IH. exact Hrest.
Qed.

(** X2.  On [_calculate_visual_distress_score], with the
    [visual_distress] test of [detect_distress_signals].  The score of
    no analysis is [0.0].  The score of some analyses is a float, never
    above 100 (it is the smaller of the mean and [100.0]); it can be
    [nan]: when the standard deviation of the curvatures of some photo
    is [nan], so is the score, and [visual_distress] is not raised.  The
    only exception is [OverflowError], for counts that do not convert to
    floats: with counts and a number of photos below [2^1000] the
    function returns. *)
Theorem overall_visual_score_range (analyses : list PhotoAnalysis) :
  let out := _calculate_visual_distress_score analyses in
  (analyses = [] -> out = Ok (Float (Zero false)))
  /\ (Forall countable analyses -> (len analyses < 2 ^ 1000)%Z ->
      exists x, out = Ok (Float x))
  /\ (forall e, out = Raise e -> e = OverflowError)
  /\ (forall score, out = Ok score ->
      gt score (Int 100) = false
      /\ (Exists undefined_deviation analyses ->
          score = Float NaN /\ gt score (Int 50) = false)).
Proof.
  cbv zeta. unfold _calculate_visual_distress_score.
  destruct analyses as [|item rest]; [|set (analyses := item :: rest)].
  { split; [reflexivity|]. split; [intros _ _; eexists; reflexivity|].
    split; [discriminate|]. intros score [= <-]. split; [reflexivity|].
    intro H. inversion H. }
  change (lit 0) with (Zero false).
  assert (Hlen : (0 < len analyses)%Z) by (unfold len, analyses; cbn [List.length]; lia).
  split; [discriminate|].
  destruct (total_points_outcome analyses (Zero false)) as [Hfloat Hnan].
  split; [|split].
  - intros Hc Hl.
    destruct (total_points_returns (Zero false) Hc) as [t Et]. rewrite Et. cbn [bind].
    assert (El : too_large (len analyses) = false).
    { unfold too_large. apply Z.leb_gt. unfold overflow_threshold. lia. }
    unfold truediv, to_float, float_of_int. rewrite El. cbn [bind].
    rewrite (nonzero_length Hlen El).
    cbn [bind]. unfold min2. destruct (lt _ _); eexists; reflexivity.
  - intros e. destruct Hfloat as [[t Et]|Et]; rewrite Et; cbn [bind];
      [|intros [= <-]; reflexivity].
    unfold truediv, to_float, float_of_int.
    destruct (too_large (len analyses)) eqn:El; cbn [bind]; [intros [= <-]; reflexivity|].
    rewrite (nonzero_length Hlen El). cbn [bind]. discriminate.
  - intros score. destruct Hfloat as [[t Et]|Et]; rewrite Et in *; cbn [bind];
      [|discriminate].
    unfold truediv, to_float, float_of_int.
    destruct (too_large (len analyses)) eqn:El; cbn [bind]; [discriminate|].
    rewrite (nonzero_length Hlen El). cbn [bind]. intros [= <-].
    split; [apply capped_at_100|].
    intro Hex. destruct (Hnan (or_intror Hex)) as [[= ->]|E]; [|discriminate E].
    cbn [fdiv]. split; reflexivity.
Qed.

(** A photo with three regions of high curvature, and a photo whose
    curvatures have no standard deviation. *)
Definition rough_photo : PhotoAnalysis :=
  {| photo_index := 0;
     landmarks := [];
     curvatures := [];
     embedding_preview := [];
     distress_indicators :=
       {| high_curvature_regions := 3;
          irregular_geometry := Finite (1 # 2);
          visual_complexity := 120 |} |}.

Definition blank_photo : PhotoAnalysis :=
  {| photo_index := 1;
     landmarks := [];
     curvatures := [];
     embedding_preview := [];
     distress_indicators :=
       {| high_curvature_regions := 0;
          irregular_geometry := NaN;
          visual_complexity := 0 |} |}.

Lemma overall_visual_score_range_witness :
  _calculate_visual_distress_score [rough_photo] = Ok (Float (Finite 45))
  /\ _calculate_visual_distress_score [rough_photo; blank_photo] = Ok (Float NaN)
  /\ gt (Float NaN) (Int 50) = false.
Proof.
  split; [vm_compute; reflexivity|].
  destruct (overall_visual_score_range [rough_photo; blank_photo]) as [_ [H [_ Hnan]]].
  destruct H as [x Hx].
  - repeat constructor; cbn; lia.
  - cbn. lia.
  - destruct (Hnan _ Hx) as [_ H]. destruct H as [E H].
    + right. left. reflexivity.
    + injection E as ->. split; [exact Hx|exact H].
Defined.

End Scraper64Spec.

(* ================================================================== *)
(** * The gate, the tier classifier and the marketplace *)
(* ================================================================== *)

Module MarketSpec.

Import Scraper Market PyFacts.

(** ** What the notifier leaves alone *)

(** Two worlds with the same investors, packages, listings and metrics. *)
Definition same_store (w w' : World) : Prop :=
  investors w' = investors w
  /\ lead_packages w' = lead_packages w
  /\ marketplace_listings w' = marketplace_listings w
  /\ revenue_metrics w' = revenue_metrics w.

Lemma same_store_refl (w : World) : same_store w w.
Proof. repeat split. Qed.

Lemma same_store_trans (w1 w2 w3 : World) :
  same_store w1 w2 -> same_store w2 w3 -> same_store w1 w3.
Proof.
  unfold same_store. intros [A1 [B1 [C1 D1]]] [A2 [B2 [C2 D2]]].
  repeat split; congruence.
Qed.

(** Printing one notification returns and touches nothing but [stdout]
    and the counters. *)
Lemma _notify_investor_returns (investor : InvestorProfile) (package : LeadPackage) (w : World) :
  exists w',
    _notify_investor investor package w = (Ok tt, w')
    /\ same_store w w'
    /\ clock_reads w' = clock_reads w.
Proof.
  unfold _notify_investor, mbind, print, modify.
  destruct (phone investor) as [number|]; cbn.
  - destruct number; cbn; eexists; (split; [reflexivity|]); repeat split.
  - eexists. split; [reflexivity|]. repeat split.
Qed.

Lemma notify_all_returns (matches : list InvestorProfile) (package : LeadPackage) (w : World) :
  exists w',
    notify_all matches package w = (Ok tt, w')
    /\ same_store w w'
    /\ clock_reads w' = clock_reads w.
Proof.
  revert w. induction matches as [|investor matches IH]; intro w; cbn [notify_all].
  - exists w. repeat split.
  - unfold mbind.
    destruct (_notify_investor_returns investor package w) as [w1 [E1 [S1 C1]]].
    rewrite E1.
    destruct (IH w1) as [w2 [E2 [S2 C2]]].
    exists w2. split; [exact E2|]. split.
    + eapply same_store_trans; eassumption.
    + congruence.
Qed.

(** ** Matching *)

(** A result that is [a], or a [KeyError]. *)
Definition returns_or_key_error (A : Type) (r : result A) (a : A) : Prop :=
  r = Ok a \/ exists key, r = Raise (KeyError key).

(** An investor whose price range has both bounds. *)
Definition bounded (investor : InvestorProfile) : bool :=
  match dict_get "min" (price_range investor), dict_get "max" (price_range investor) with
  | Some _, Some _ => true
  | _, _ => false
  end.

Definition all_bounded (w : World) : Prop :=
  Forall (fun investor => bounded investor = true) (values (investors w)).

Lemma investor_matches_outcome (prop : ZillowProperty) (investor : InvestorProfile) :
  (exists matched, investor_matches prop investor = Ok matched)
  \/ (exists key, investor_matches prop investor = Raise (KeyError key)).
Proof.
  unfold investor_matches, subscript.
  destruct (negb _); [left; eexists; reflexivity|].
  destruct (dict_get "min" (price_range investor)) as [lowest|]; cbn [bind];
    [|right; eexists; reflexivity].
  destruct (Scraper.price prop <? lowest)%Z; [left; eexists; reflexivity|].
  destruct (dict_get "max" (price_range investor)) as [highest|]; cbn [bind];
    [|right; eexists; reflexivity].
  destruct (highest <? Scraper.price prop)%Z; left; eexists; reflexivity.
Qed.

Lemma investor_matches_bounded (prop : ZillowProperty) (investor : InvestorProfile) :
  bounded investor = true ->
  exists matched, investor_matches prop investor = Ok matched.
Proof.
  unfold bounded, investor_matches, subscript.
  destruct (dict_get "min" (price_range investor)) as [lowest|]; [|discriminate].
  destruct (dict_get "max" (price_range investor)) as [highest|]; [|discriminate].
  intros _. cbn [bind].
  destruct (negb _); [eexists; reflexivity|].
  destruct (Scraper.price prop <? lowest)%Z; [eexists; reflexivity|].
  destruct (highest <? Scraper.price prop)%Z; eexists; reflexivity.
Qed.

Lemma matching_investors_outcome (prop : ZillowProperty)
  (candidates matches : list InvestorProfile) :
  (exists out, matching_investors prop candidates matches = Ok out)
  \/ (exists key, matching_investors prop candidates matches = Raise (KeyError key)).
Proof.
  revert matches.
  induction candidates as [|investor candidates IH]; intro matches;
    cbn [matching_investors].
  - left. eexists. reflexivity.
  - destruct (investor_matches_outcome prop investor) as [[matched E]|[key E]];
      rewrite E; cbn [bind].
    + apply IH.
    + right. eexists. reflexivity.
Qed.

Lemma matching_investors_bounded (prop : ZillowProperty)
  (candidates matches : list InvestorProfile) :
  Forall (fun investor => bounded investor = true) candidates ->
  exists out, matching_investors prop candidates matches = Ok out.
Proof.
  intro H. revert matches.
  induction H as [|investor candidates Hb _ IH]; intro matches;
    cbn [matching_investors].
  - eexists. reflexivity.
  - destruct (investor_matches_bounded prop investor Hb) as [matched E].
    rewrite E. cbn [bind]. apply IH.
Qed.

(** Matching returns or raises [KeyError]; either way it touches nothing
    but [stdout].  It returns when every investor is bounded. *)
Lemma _match_with_investors_outcome (package : LeadPackage) (w : World) :
  exists r w',
    _match_with_investors package w = (r, w')
    /\ returns_or_key_error r tt
    /\ (all_bounded w -> r = Ok tt)
    /\ same_store w w'
    /\ clock_reads w' = clock_reads w.
Proof.
  unfold _match_with_investors, mbind, get, lift.
  set (prop := property (property_intelligence package)).
  destruct (matching_investors prop (values (investors w)) []) as [matches|e] eqn:E.
  - destruct (notify_all_returns matches package w) as [w' [En [Hs Hc]]].
    exists (Ok tt), w'. split; [exact En|]. split; [left; reflexivity|]. auto.
  - exists (Raise e), w. split; [reflexivity|]. split.
    + destruct (matching_investors_outcome prop (values (investors w)) [])
        as [[out E']|[key E']]; [congruence|].
      right. exists key. congruence.
    + split; [|split; [apply same_store_refl|reflexivity]].
      intro Hb. destruct (matching_investors_bounded prop [] Hb) as [out E'].
      fold prop in E'. congruence.
Qed.

(** ** The gate *)

Section Gate.

Variable clock : nat -> datetime.

(** The package [process_overflow_lead] builds for a lead that passes
    the gate, from the three readings of the clock. *)
Definition package_of (property_intel : PropertyIntelligence) (w : World) : LeadPackage :=
  let tier := _classify_lead_tier property_intel in
  {| package_id :=
       ("PKG_" ++ zpid (property property_intel) ++ "_"
        ++ str_of_int (timestamp_int (clock (clock_reads w))))%string;
     property_intelligence := property_intel;
     lead_tier := tier;
     price :=
       base_prices tier
       * _calculate_market_multiplier (neighborhood (property property_intel));
     geometric_analysis_included := tier_eqb tier GOLD || tier_eqb tier PLATINUM;
     contract_template_included := tier_eqb tier PLATINUM;
     market_comps_included := negb (tier_eqb tier BRONZE);
     roi_projection := investment_opportunity property_intel;
     exclusive_period_hours := if tier_eqb tier PLATINUM then 24 else 12;
     created_at := clock (S (clock_reads w));
     expires_at := (clock (S (S (clock_reads w))) + seven_days)%Z |}.

Definition passes_gate (property_intel : PropertyIntelligence) : bool :=
  negb (Qltb (overall_score (distress_signals property_intel)) 40
        || Qltb (get_roi_percentage property_intel) 10).

Lemma passes_gate_iff (property_intel : PropertyIntelligence) :
  passes_gate property_intel = true
  <-> 40 <= overall_score (distress_signals property_intel)
      /\ 10 <= get_roi_percentage property_intel.
Proof.
  unfold passes_gate. rewrite negb_true_iff, orb_false_iff, !Qltb_ge. reflexivity.
Qed.

(** A lead under the gate: nothing is built, nothing is written. *)
Lemma process_overflow_lead_rejects (property_intel : PropertyIntelligence) (w : World) :
  passes_gate property_intel = false ->
  process_overflow_lead clock property_intel w = (Ok None, w).
Proof.
  unfold passes_gate, process_overflow_lead. rewrite negb_false_iff. intros ->.
  reflexivity.
Qed.

(** A lead over the gate: the package is stored and listed; it is
    returned unless the matching that follows raises [KeyError]. *)
Lemma process_overflow_lead_accepts (property_intel : PropertyIntelligence) (w : World) :
  passes_gate property_intel = true ->
  exists r w',
    let package := package_of property_intel w in
    process_overflow_lead clock property_intel w = (r, w')
    /\ returns_or_key_error r (Some package)
    /\ (all_bounded w -> r = Ok (Some package))
    /\ investors w' = investors w
    /\ lead_packages w' = dict_set (package_id package) package (lead_packages w)
    /\ revenue_metrics w' = revenue_metrics w
    /\ exists listing,
         marketplace_listings w'
         = dict_set ("LIST_" ++ package_id package) listing (marketplace_listings w)
         /\ full_package_id listing = package_id package.
Proof.
  unfold passes_gate, process_overflow_lead. rewrite negb_true_iff. intros ->.
  unfold mbind at 1. unfold datetime_now at 1.
  unfold mbind at 1. unfold datetime_now at 1.
  unfold mbind at 1. unfold datetime_now at 1.
  unfold mbind at 1. unfold modify at 1.
  unfold mbind at 1. unfold _create_marketplace_listing, modify at 1.
  unfold mbind at 1.
  match goal with
  | |- context [_match_with_investors ?p ?w0] =>
      destruct (_match_with_investors_outcome p w0)
        as [r [w' [E [Hr [Hb [[Si [Sp [Sl Sm]]] _]]]]]]
  end.
  cbn zeta. cbn [clock_reads] in *. rewrite E.
  assert (Hframe :
    investors w' = investors w
    /\ lead_packages w'
       = dict_set (package_id (package_of property_intel w)) (package_of property_intel w)
                  (lead_packages w)
    /\ revenue_metrics w' = revenue_metrics w
    /\ exists listing,
         marketplace_listings w'
         = dict_set ("LIST_" ++ package_id (package_of property_intel w)) listing
                    (marketplace_listings w)
         /\ full_package_id listing = package_id (package_of property_intel w)).
  { split; [exact Si|]. split; [exact Sp|]. split; [exact Sm|].
    eexists. split; [exact Sl|]. reflexivity. }
  destruct Hr as [->|[key ->]].
  - eexists. exists w'. unfold ret. split; [reflexivity|].
    split; [left; reflexivity|]. split; [reflexivity|]. exact Hframe.
  - eexists. exists w'. split; [reflexivity|].
    split; [right; exists key; reflexivity|]. split; [|exact Hframe].
    intro Hall. specialize (Hb Hall). discriminate.
Qed.

(** The gate: a package is returned only for a lead with
    [overall_score >= 40] and [roi_percentage >= 10]; such a lead has its
    package stored, and returned when every registered investor is
    bounded; any other lead is answered [None], a value, with nothing
    written. *)
Lemma process_overflow_lead_gate (property_intel : PropertyIntelligence) (w : World) :
  let score := overall_score (distress_signals property_intel) in
  let roi := get_roi_percentage property_intel in
  ((exists package w',
       process_overflow_lead clock property_intel w = (Ok (Some package), w'))
   -> 40 <= score /\ 10 <= roi)
  /\ (40 <= score /\ 10 <= roi ->
      exists r w',
        process_overflow_lead clock property_intel w = (r, w')
        /\ returns_or_key_error r (Some (package_of property_intel w))
        /\ dict_get (package_id (package_of property_intel w)) (lead_packages w')
           = Some (package_of property_intel w))
  /\ (40 <= score /\ 10 <= roi -> all_bounded w ->
      exists package w',
        process_overflow_lead clock property_intel w = (Ok (Some package), w')
        /\ dict_get (package_id package) (lead_packages w') = Some package
        /\ process_overflow_lead_endpoint clock property_intel w
           = (Ok (PackageCreated (package_id package) (value (lead_tier package))
                    (price package)), w'))
  /\ (score < 40 \/ roi < 10 ->
      process_overflow_lead clock property_intel w = (Ok None, w)
      /\ process_overflow_lead_endpoint clock property_intel w
         = (Ok (PackageNotCreated "Lead quality below threshold"), w)).
Proof.
  intros score roi. split; [|split; [|split]].
  - intros [package [w' E]].
    destruct (passes_gate property_intel) eqn:G.
    + apply passes_gate_iff. exact G.
    + rewrite (process_overflow_lead_rejects property_intel w G) in E. discriminate.
  - intro H. apply passes_gate_iff in H.
    destruct (process_overflow_lead_accepts property_intel w H)
      as [r [w' [E [Hr [_ [_ [Hp _]]]]]]].
    exists r, w'. split; [exact E|]. split; [exact Hr|].
    cbn zeta in Hp. rewrite Hp. apply dict_get_set.
  - intros H Hall. apply passes_gate_iff in H.
    destruct (process_overflow_lead_accepts property_intel w H)
      as [r [w' [E [_ [Hb [_ [Hp _]]]]]]].
    cbn zeta in Hb, Hp. rewrite (Hb Hall) in E.
    exists (package_of property_intel w), w'.
    split; [exact E|]. split.
    + rewrite Hp. apply dict_get_set.
    + unfold process_overflow_lead_endpoint, mbind. rewrite E. reflexivity.
  - intro H.
    assert (G : passes_gate property_intel = false).
    { unfold passes_gate. rewrite negb_false_iff, orb_true_iff, !Qltb_lt. exact H. }
    pose proof (process_overflow_lead_rejects property_intel w G) as E.
    split; [exact E|].
    unfold process_overflow_lead_endpoint, mbind. rewrite E. reflexivity.
Qed.

End Gate.

(** Two leads at the gate: one on the boundary, one just under it. *)
Definition boundary_lead : PropertyIntelligence :=
  {| property := ScraperSpec.distressed_property;
     distress_signals :=
       {| price_below_market := true; high_days_on_market := true;
          price_reduction := false; visual_distress := false;
          neighborhood_decline := false; geometric_anomaly := false;
          overall_score := 40 |};
     geometric_analysis := empty_visual;
     market_position := None;
     investment_opportunity :=
       {| market_value := None; current_price := None; estimated_repairs := None;
          potential_profit := None; roi_percentage := Some 10;
          investment_grade := None; risk_factors := None |};
     contract_recommendation := "WATCH_LIST" |}.

Definition weak_lead : PropertyIntelligence :=
  {| property := ScraperSpec.distressed_property;
     distress_signals :=
       {| price_below_market := true; high_days_on_market := true;
          price_reduction := false; visual_distress := false;
          neighborhood_decline := false; geometric_anomaly := false;
          overall_score := 39 |};
     geometric_analysis := empty_visual;
     market_position := None;
     investment_opportunity :=
       {| market_value := None; current_price := None; estimated_repairs := None;
          potential_profit := None; roi_percentage := Some 50;
          investment_grade := None; risk_factors := None |};
     contract_recommendation := "WATCH_LIST" |}.

(** A clock that advances one second per reading, from 2024-01-01. *)
Definition ticking (n : nat) : datetime := ((1704067200 + Z.of_nat n) * 1000000)%Z.

(** With no investor registered the two leads fare as the gate says. *)
Lemma process_overflow_lead_at_the_gate :
  (exists package w',
     process_overflow_lead ticking boundary_lead initial_world = (Ok (Some package), w'))
  /\ process_overflow_lead ticking weak_lead initial_world = (Ok None, initial_world).
Proof.
  destruct (process_overflow_lead_gate ticking boundary_lead initial_world)
    as [_ [_ [Hin _]]].
  destruct (process_overflow_lead_gate ticking weak_lead initial_world)
    as [_ [_ [_ Hout]]].
  split.
  - destruct Hin as [package [w' [E _]]];
      [split; discriminate | constructor | eauto].
  - apply Hout. left. reflexivity.
Qed.

(** An investor who registered with an empty price range. *)
Definition bob : InvestorProfile :=
  {| investor_id := "inv-2";
     name := "Bob";
     email := "bob@example.com";
     phone := None;
     preferred_markets := ["Austin"%string];
     price_range := [];
     property_types := ["single_family"%string];
     investment_strategy := "hold";
     risk_tolerance := "low";
     deal_velocity := 1;
     subscription_tier := BRONZE;
     credit_balance := 0;
     last_purchase := None |}.

(** C2.  The claim: a lead with [overall_score >= 40] and
    [roi_percentage >= 10] yields a package.  The code, once Bob has
    registered: the lead on the boundary (score 40, ROI 10, an Austin
    address) passes the gate, its package is stored and listed, and then
    matching raises [KeyError] on Bob's price range; no package is
    returned and the endpoint raises too. *)
Theorem process_overflow_lead_key_error :
  let w := snd (register_investor bob initial_world) in
  let out := process_overflow_lead ticking boundary_lead w in
  40 <= overall_score (distress_signals boundary_lead)
  /\ 10 <= get_roi_percentage boundary_lead
  /\ fst out = Raise (KeyError "min")
  /\ fst (process_overflow_lead_endpoint ticking boundary_lead w) = Raise (KeyError "min")
  /\ keys (lead_packages (snd out)) = ["PKG_2077_1704067200"%string]
  /\ keys (marketplace_listings (snd out)) = ["LIST_PKG_2077_1704067200"%string]
  /\ stdout (snd out) = [].
Proof.
  cbv zeta. split; [discriminate|]. split; [discriminate|].
  repeat split; vm_compute; reflexivity.
Qed.

(** ** The tier classifier *)

(** The three rules, as [_classify_lead_tier] tests them. *)
Definition platinum_rule (intel : PropertyIntelligence) : bool :=
  Qltb 70 (overall_score (distress_signals intel))
  && Qltb 20 (get_roi_percentage intel)
  && String.eqb (contract_recommendation intel) "IMMEDIATE_OFFER".

Definition gold_rule (intel : PropertyIntelligence) : bool :=
  Qltb 60 (overall_score (distress_signals intel))
  && Qltb 15 (get_roi_percentage intel)
  && Qltb 0 (get_overall_visual_score (geometric_analysis intel)).

Definition silver_rule (intel : PropertyIntelligence) : bool :=
  Qltb 50 (overall_score (distress_signals intel))
  && Qltb 12 (get_roi_percentage intel)
  && match photos (property intel) with [] => false | _ => true end.

Lemma _classify_lead_tier_rules (intel : PropertyIntelligence) :
  _classify_lead_tier intel
  = if platinum_rule intel then PLATINUM
    else if gold_rule intel then GOLD
    else if silver_rule intel then SILVER
    else BRONZE.
Proof. reflexivity. Qed.

(** A lead with a high score and ROI and an immediate-offer
    recommendation, but no photo and no visual analysis. *)
Definition unpictured_lead : PropertyIntelligence :=
  {| property := ScraperSpec.quiet_property;
     distress_signals :=
       {| price_below_market := true; high_days_on_market := true;
          price_reduction := true; visual_distress := false;
          neighborhood_decline := true; geometric_anomaly := true;
          overall_score := 80 |};
     geometric_analysis := empty_visual;
     market_position := None;
     investment_opportunity :=
       {| market_value := None; current_price := None; estimated_repairs := None;
          potential_profit := None; roi_percentage := Some 25;
          investment_grade := None; risk_factors := None |};
     contract_recommendation := "IMMEDIATE_OFFER" |}.

(** C3, as stated, fails: the platinum rule holds for this lead while the
    gold rule (no visual score) and the silver rule (no photo) do not. *)
Lemma platinum_without_gold_or_silver :
  platinum_rule unpictured_lead = true
  /\ gold_rule unpictured_lead = false
  /\ silver_rule unpictured_lead = false
  /\ _classify_lead_tier unpictured_lead = PLATINUM.
Proof. repeat split. Qed.

(** C3, amended.  A lead that satisfies the platinum rule also exceeds
    the distress and ROI thresholds of the gold and silver rules; the
    gold rule then holds exactly when the visual score is positive and
    the silver rule exactly when the listing has a photo.  Either way the
    lead is classified PLATINUM: the platinum rule is tested first. *)
Theorem platinum_rule_first (intel : PropertyIntelligence) :
  platinum_rule intel = true ->
  60 < overall_score (distress_signals intel)
  /\ 15 < get_roi_percentage intel
  /\ 50 < overall_score (distress_signals intel)
  /\ 12 < get_roi_percentage intel
  /\ (gold_rule intel = true <-> 0 < get_overall_visual_score (geometric_analysis intel))
  /\ (silver_rule intel = true <-> photos (property intel) <> [])
  /\ _classify_lead_tier intel = PLATINUM.
Proof.
  intro H. rewrite _classify_lead_tier_rules, H.
  unfold platinum_rule in H. rewrite !andb_true_iff, !Qltb_lt in H.
  destruct H as [[Hd Hr] _].
  assert (D60 : 60 < overall_score (distress_signals intel))
    by (eapply Qlt_trans; [|exact Hd]; reflexivity).
  assert (D50 : 50 < overall_score (distress_signals intel))
    by (eapply Qlt_trans; [|exact Hd]; reflexivity).
  assert (R15 : 15 < get_roi_percentage intel)
    by (eapply Qlt_trans; [|exact Hr]; reflexivity).
  assert (R12 : 12 < get_roi_percentage intel)
    by (eapply Qlt_trans; [|exact Hr]; reflexivity).
  repeat split; trivial.
  - unfold gold_rule. rewrite !andb_true_iff, !Qltb_lt. tauto.
  - unfold gold_rule. rewrite !andb_true_iff, !Qltb_lt. tauto.
  - unfold silver_rule. rewrite !andb_true_iff, !Qltb_lt.
    destruct (photos (property intel)); [intros [_ ?]; discriminate | discriminate].
  - unfold silver_rule. rewrite !andb_true_iff, !Qltb_lt.
    destruct (photos (property intel)); [congruence | tauto].
Qed.

(** The lead of the counterexample with a photo and a visual score: all
    three rules hold and the tier is still PLATINUM. *)
Definition pictured_lead : PropertyIntelligence :=
  {| property := ScraperSpec.distressed_property;
     distress_signals := distress_signals unpictured_lead;
     geometric_analysis := ScraperSpec.distressed_visual;
     market_position := None;
     investment_opportunity := investment_opportunity unpictured_lead;
     contract_recommendation := "IMMEDIATE_OFFER" |}.

Lemma platinum_rule_first_witness :
  platinum_rule pictured_lead = true
  /\ gold_rule pictured_lead = true
  /\ silver_rule pictured_lead = true
  /\ _classify_lead_tier pictured_lead = PLATINUM.
Proof.
  pose proof (platinum_rule_first pictured_lead eq_refl) as [_ [_ [_ [_ [Hg [Hs Hc]]]]]].
  split; [reflexivity|]. split; [|split; [|exact Hc]].
  - apply Hg. reflexivity.
  - apply Hs. discriminate.
Defined.

(** ** Listings and packages *)

(** The listings that point to a package. *)
Definition listings_of (package_id : string) (listings : dict MarketplaceListing)
  : list MarketplaceListing :=
  filter (fun listing => String.eqb (full_package_id listing) package_id)
         (values listings).

(** What every [_create_marketplace_listing] establishes and no request
    breaks: listing ids are distinct, a listing is stored under the id
    made from the package it points to, and a package under its own id. *)
Definition well_keyed (w : World) : Prop :=
  NoDup (keys (marketplace_listings w))
  /\ (forall listing_id listing,
        In (listing_id, listing) (marketplace_listings w) ->
        listing_id = ("LIST_" ++ full_package_id listing)%string)
  /\ (forall package_id package,
        In (package_id, package) (lead_packages w) ->
        Market.package_id package = package_id).

Lemma first_listing_of_In (package_id : string) (listings : dict MarketplaceListing)
  (listing_id : string) :
  first_listing_of package_id listings = Some listing_id ->
  exists listing,
    In (listing_id, listing) listings /\ full_package_id listing = package_id.
Proof.
  induction listings as [|[k l] listings IH]; cbn; [discriminate|].
  destruct (String.eqb (full_package_id l) package_id) eqn:E.
  - intros [= <-]. apply String.eqb_eq in E. exists l. auto.
  - intro H. destruct (IH H) as [l' [Hin Hl']]. exists l'. auto.
Qed.

Lemma In_keys (V : Type) (k : string) (v : V) (d : dict V) : In (k, v) d -> In k (keys d).
Proof. intro H. unfold keys. apply in_map_iff. exists (k, v). auto. Qed.

(** With distinct, well-formed listing ids, no listing but the first
    points to the package. *)
Lemma no_other_listing (package_id : string) (k : string) (l : MarketplaceListing)
  (listings : dict MarketplaceListing) :
  NoDup (keys ((k, l) :: listings)) ->
  (forall listing_id listing,
      In (listing_id, listing) ((k, l) :: listings) ->
      listing_id = ("LIST_" ++ full_package_id listing)%string) ->
  full_package_id l = package_id ->
  forall listing_id listing,
    In (listing_id, listing) listings -> full_package_id listing <> package_id.
Proof.
  intros Hnd Hk Hl listing_id listing Hin Heq.
  inversion Hnd as [|? ? Hn _]; subst.
  apply Hn.
  assert (E1 := Hk k l (or_introl eq_refl)).
  assert (E2 := Hk listing_id listing (or_intror Hin)).
  rewrite Heq in E2. rewrite <- E1 in E2. subst listing_id.
  eapply In_keys. exact Hin.
Qed.

Lemma filter_keeps_all (A : Type) (f : A -> bool) (l : list A) :
  (forall x, In x l -> f x = true) -> filter f l = l.
Proof.
  induction l as [|x l IH]; cbn; intro H; [reflexivity|].
  rewrite (H x (or_introl eq_refl)). f_equal. apply IH. auto.
Qed.

Lemma filter_drops_all (A : Type) (f : A -> bool) (l : list A) :
  (forall x, In x l -> f x = false) -> filter f l = [].
Proof.
  induction l as [|x l IH]; cbn; intro H; [reflexivity|].
  rewrite (H x (or_introl eq_refl)). apply IH. auto.
Qed.

(** In a well-keyed store, [_remove_from_marketplace] removes every
    listing that points to the package and keeps the others in place. *)
Lemma _remove_from_marketplace_filter (package_id : string)
  (listings : dict MarketplaceListing) :
  NoDup (keys listings) ->
  (forall listing_id listing,
      In (listing_id, listing) listings ->
      listing_id = ("LIST_" ++ full_package_id listing)%string) ->
  _remove_from_marketplace package_id listings
  = filter (fun item => negb (String.eqb (full_package_id (snd item)) package_id))
           listings.
Proof.
  unfold _remove_from_marketplace.
  induction listings as [|[k l] listings IH]; intros Hnd Hk; [reflexivity|].
  cbn [first_listing_of filter snd].
  destruct (String.eqb (full_package_id l) package_id) eqn:E; cbn [negb].
  - cbn [dict_del]. rewrite String.eqb_refl.
    symmetry. apply filter_keeps_all. intros [k' l'] Hin. cbn [snd].
    apply negb_true_iff, String.eqb_neq.
    apply String.eqb_eq in E.
    eapply no_other_listing; eassumption.
  - assert (Hnd' : NoDup (keys listings)) by (inversion Hnd; assumption).
    assert (Hk' : forall listing_id listing,
               In (listing_id, listing) listings ->
               listing_id = ("LIST_" ++ full_package_id listing)%string)
      by (intros; apply Hk; right; assumption).
    specialize (IH Hnd' Hk').
    destruct (first_listing_of package_id listings) as [found|] eqn:F.
    + cbn [dict_del].
      destruct (String.eqb found k) eqn:Efk.
      * exfalso. apply String.eqb_eq in Efk. subst found.
        destruct (first_listing_of_In _ _ F) as [l' [Hin _]].
        inversion Hnd as [|? ? Hn _]; subst. apply Hn. eapply In_keys. exact Hin.
      * rewrite IH. reflexivity.
    + rewrite <- IH. reflexivity.
Qed.

(** Distinct, well-formed listing ids leave a package at most one listing. *)
Lemma listings_of_at_most_one (package_id : string) (listings : dict MarketplaceListing) :
  NoDup (keys listings) ->
  (forall listing_id listing,
      In (listing_id, listing) listings ->
      listing_id = ("LIST_" ++ full_package_id listing)%string) ->
  (List.length (listings_of package_id listings) <= 1)%nat.
Proof.
  unfold listings_of, values.
  induction listings as [|[k l] listings IH]; intros Hnd Hk; cbn; [lia|].
  destruct (String.eqb (full_package_id l) package_id) eqn:E.
  - apply String.eqb_eq in E.
    assert (Hnone : filter (fun listing => String.eqb (full_package_id listing) package_id)
                      (map snd listings) = []).
    { apply filter_drops_all.
      intros l' Hin. apply in_map_iff in Hin. destruct Hin as [[k' l''] [Hs Hin]].
      cbn in Hs. subst l''. apply String.eqb_neq.
      eapply no_other_listing; eassumption. }
    rewrite Hnone. cbn. lia.
  - apply IH.
    + inversion Hnd; assumption.
    + intros; apply Hk; right; assumption.
Qed.

(** ** Purchases *)

Section Purchases.

Variable clock : nat -> datetime.
Variable stripe_api_key : option string.
Variable stripe_create : nat -> PaymentRequest -> StripeOutcome.

#[local] Abbreviation process_purchase := (Market.process_purchase stripe_api_key stripe_create).
#[local] Abbreviation handle := (Market.handle clock stripe_api_key stripe_create).
#[local] Abbreviation run := (Market.run clock stripe_api_key stripe_create).

(** What a successful purchase did. *)
Lemma process_purchase_succeeded
  (investor_id package_id payment_method_id : string) (w w' : World)
  (intent_id : string) (data : FullPackage) (until : datetime) :
  process_purchase investor_id package_id payment_method_id w
  = (Ok (PurchaseSucceeded intent_id data until), w') ->
  exists package investor,
    dict_get package_id (lead_packages w) = Some package
    /\ dict_get investor_id (investors w) = Some investor
    /\ stripe_create (stripe_calls w)
         (payment_request package investor package_id payment_method_id)
       = PaymentIntent intent_id "succeeded"
    /\ investors w' = investors w
    /\ lead_packages w' = lead_packages w
    /\ marketplace_listings w'
       = _remove_from_marketplace package_id (marketplace_listings w)
    /\ revenue_metrics w'
       = {| total_sales := total_sales (revenue_metrics w) + price package;
            packages_sold := packages_sold (revenue_metrics w) + 1;
            avg_package_price := avg_package_price (revenue_metrics w);
            conversion_rate := conversion_rate (revenue_metrics w);
            monthly_recurring := monthly_recurring (revenue_metrics w) |}
    /\ stdout w' = stdout w
    /\ data = _prepare_full_package package
    /\ until = expires_at package.
Proof.
  unfold Market.process_purchase, mbind, get, raise, ret, call_stripe, modify.
  destruct (dict_get package_id (lead_packages w)) as [package|]; [|discriminate].
  destruct (dict_get investor_id (investors w)) as [investor|]; [|discriminate].
  destruct (negb (truthy_opt_str stripe_api_key)); [discriminate|].
  destruct (stripe_create (stripe_calls w) _) as [id status|message] eqn:S;
    [|discriminate].
  destruct (String.eqb status "succeeded") eqn:E; cbn [negb]; [|discriminate].
  apply String.eqb_eq in E. subst status.
  intros [= <- <- <- <-]. exists package, investor.
  repeat split. exact S.
Qed.

(** Any other outcome, returned or raised, wrote nothing. *)
Lemma process_purchase_not_succeeded
  (investor_id package_id payment_method_id : string) (w w' : World)
  (r : result PurchaseResult) :
  process_purchase investor_id package_id payment_method_id w = (r, w') ->
  (forall intent_id data until, r <> Ok (PurchaseSucceeded intent_id data until)) ->
  same_store w w' /\ stdout w' = stdout w /\ clock_reads w' = clock_reads w.
Proof.
  unfold Market.process_purchase, mbind, get, raise, ret, call_stripe, modify.
  destruct (dict_get package_id (lead_packages w)) as [package|];
    [|intros [= <- <-] _; repeat split].
  destruct (dict_get investor_id (investors w)) as [investor|];
    [|intros [= <- <-] _; repeat split].
  destruct (negb (truthy_opt_str stripe_api_key));
    [intros [= <- <-] _; repeat split|].
  destruct (stripe_create (stripe_calls w) _) as [id status|message];
    [|intros [= <- <-] _; repeat split].
  destruct (negb (String.eqb status "succeeded"));
    [intros [= <- <-] _; repeat split|].
  intros [= <- <-] H. exfalso. eapply H. reflexivity.
Qed.

(** ** Requests keep the store well keyed *)

(** What a request can do to the packages and the listings. *)
Inductive Effect (w w' : World) (request : Request) (answer : result Response) : Prop :=
| Untouched :
    lead_packages w' = lead_packages w ->
    marketplace_listings w' = marketplace_listings w ->
    (forall payload,
        request = PostProcessOverflowLead payload -> passes_gate payload = false) ->
    (forall intent_id data until,
        answer <> Ok (Purchase (PurchaseSucceeded intent_id data until))) ->
    Effect w w' request answer
| Packaged (payload : PropertyIntelligence) (listing : MarketplaceListing) :
    request = PostProcessOverflowLead payload ->
    passes_gate payload = true ->
    lead_packages w'
    = dict_set (package_id (package_of clock payload w)) (package_of clock payload w)
               (lead_packages w) ->
    marketplace_listings w'
    = dict_set ("LIST_" ++ package_id (package_of clock payload w)) listing
               (marketplace_listings w) ->
    full_package_id listing = package_id (package_of clock payload w) ->
    Effect w w' request answer
| Purchased (investor_id package_id payment_method_id : string)
    (intent_id : string) (data : FullPackage) (until : datetime) :
    request = PostPurchaseLead investor_id package_id payment_method_id ->
    answer = Ok (Purchase (PurchaseSucceeded intent_id data until)) ->
    lead_packages w' = lead_packages w ->
    marketplace_listings w'
    = _remove_from_marketplace package_id (marketplace_listings w) ->
    Effect w w' request answer.

Lemma handle_effect (request : Request) (w : World) :
  Effect w (snd (handle request w)) request (fst (handle request w)).
Proof.
  destruct request as [investor|payload| |investor_id package_id payment_method_id|];
    cbn [Market.handle].
  - apply Untouched; try reflexivity; cbn; discriminate.
  - unfold process_overflow_lead_endpoint, mbind.
    destruct (passes_gate payload) eqn:G.
    + destruct (process_overflow_lead_accepts clock payload w G)
        as [r [w' [E [_ [_ [_ [Hp [_ [listing [Hl Hf]]]]]]]]]].
      cbn zeta in E, Hp, Hl, Hf. rewrite E.
      destruct r as [[package|]|e]; cbn [fst snd ret];
        (eapply Packaged; [reflexivity|exact G|exact Hp|exact Hl|exact Hf]).
    + rewrite (process_overflow_lead_rejects clock payload w G). cbn [fst snd ret].
      apply Untouched; try reflexivity; [|discriminate].
      intros payload' [= <-]. exact G.
  - apply Untouched; try reflexivity; cbn; discriminate.
  - unfold purchase_lead, mbind.
    destruct (process_purchase investor_id package_id payment_method_id w)
      as [[[error|intent_id data until]|e] w'] eqn:E; cbn [fst snd ret].
    + destruct (process_purchase_not_succeeded _ _ _ _ E) as [[_ [Hp [Hl _]]] _];
        [discriminate|].
      apply Untouched; trivial; discriminate.
    + destruct (process_purchase_succeeded _ _ _ _ E)
        as [package [investor [_ [_ [_ [_ [Hp [Hl _]]]]]]]].
      eapply Purchased; [reflexivity|reflexivity|exact Hp|exact Hl].
    + destruct (process_purchase_not_succeeded _ _ _ _ E) as [[_ [Hp [Hl _]]] _];
        [discriminate|].
      apply Untouched; trivial; discriminate.
  - unfold revenue_dashboard, mbind, get, lift, modify, ret.
    destruct (truthy (packages_sold (revenue_metrics w))) eqn:T.
    + apply truthy_nonzero in T. rewrite (truediv_nonzero _ T). cbn.
      apply Untouched; try reflexivity; discriminate.
    + cbn. apply Untouched; try reflexivity; discriminate.
Qed.

Lemma handle_well_keyed (request : Request) (w : World) :
  well_keyed w -> well_keyed (snd (handle request w)).
Proof.
  intros [Hnd [Hl Hp]].
  destruct (handle_effect request w)
    as [Ep El _ _ | payload listing _ _ Ep El Ef | ? package_id ? ? ? ? _ _ Ep El];
    unfold well_keyed; rewrite Ep, El.
  - auto.
  - split; [apply NoDup_keys_dict_set; exact Hnd|]. split.
    + intros k l Hin. apply In_dict_set in Hin. destruct Hin as [[-> ->]|Hin].
      * rewrite Ef. reflexivity.
      * auto.
    + intros k p Hin. apply In_dict_set in Hin. destruct Hin as [[-> ->]|Hin]; auto.
  - unfold _remove_from_marketplace.
    destruct (first_listing_of package_id (marketplace_listings w)); [|auto].
    split; [apply NoDup_keys_dict_del; exact Hnd|]. split; [|exact Hp].
    intros k l Hin. apply In_dict_del in Hin. auto.
Qed.

Lemma initial_world_well_keyed : well_keyed initial_world.
Proof.
  split; [constructor|]. split; intros ? ? [].
Qed.

Lemma run_well_keyed (requests : list Request) (w : World) :
  well_keyed w -> well_keyed (run requests w).
Proof.
  revert w. induction requests as [|request requests IH]; intros w H; cbn.
  - exact H.
  - apply IH. apply handle_well_keyed. exact H.
Qed.

(** C5, amended.  In the service as any sequence of requests leaves it,
    a successful purchase of the package stored under [package_id]
    removes the listing that points to that package when the package is
    still listed, and removes nothing when it is not (a package that was
    bought before stays in store and can be bought again): there is at
    most one such listing, the listings removed are exactly those that
    point to the package, none is left, and every other listing stays as
    and where it was; [packages_sold] grows by exactly 1 and
    [total_sales] by exactly the package's price; the packages and the
    investors are unchanged. *)
Theorem process_purchase_success
  (requests : list Request) (investor_id package_id payment_method_id : string)
  (intent_id : string) (data : FullPackage) (until : datetime) (w' : World) :
  let w := run requests initial_world in
  process_purchase investor_id package_id payment_method_id w
  = (Ok (PurchaseSucceeded intent_id data until), w') ->
  exists package,
    dict_get package_id (lead_packages w) = Some package
    /\ Market.package_id package = package_id
    /\ marketplace_listings w'
       = filter (fun item =>
                   negb (String.eqb (full_package_id (snd item))
                                    (Market.package_id package)))
                (marketplace_listings w)
    /\ (List.length (listings_of (Market.package_id package) (marketplace_listings w))
        <= 1)%nat
    /\ (List.length (marketplace_listings w)
        = List.length (marketplace_listings w')
          + List.length (listings_of (Market.package_id package) (marketplace_listings w)))%nat
    /\ listings_of (Market.package_id package) (marketplace_listings w') = []
    /\ packages_sold (revenue_metrics w') = packages_sold (revenue_metrics w) + 1
    /\ total_sales (revenue_metrics w')
       = total_sales (revenue_metrics w) + price package
    /\ lead_packages w' = lead_packages w
    /\ investors w' = investors w
    /\ (listings_of (Market.package_id package) (marketplace_listings w) = [] ->
        marketplace_listings w' = marketplace_listings w)
    /\ (forall listing,
          listings_of (Market.package_id package) (marketplace_listings w) = [listing] ->
          In ("LIST_" ++ package_id, listing)%string (marketplace_listings w)
          /\ ~ In ("LIST_" ++ package_id, listing)%string (marketplace_listings w')
          /\ List.length (marketplace_listings w)
             = S (List.length (marketplace_listings w'))).
Proof.
  intros w H.
  destruct (run_well_keyed requests initial_world_well_keyed) as [Hnd [Hl Hp]].
  fold w in Hnd, Hl, Hp.
  destruct (process_purchase_succeeded _ _ _ _ H)
    as [package [investor [Gp [_ [_ [Ei [Ep [El [Em _]]]]]]]]].
  exists package.
  assert (Hid : Market.package_id package = package_id)
    by (apply Hp; apply dict_get_In; exact Gp).
  split; [exact Gp|]. split; [exact Hid|].
  assert (Hf : marketplace_listings w'
               = filter (fun item =>
                           negb (String.eqb (full_package_id (snd item))
                                            (Market.package_id package)))
                        (marketplace_listings w)).
  { rewrite El, Hid. apply _remove_from_marketplace_filter; assumption. }
  split; [exact Hf|].
  split; [apply listings_of_at_most_one; assumption|].
  split.
  { rewrite Hf. unfold listings_of, values.
    rewrite <- (filter_length
                  (fun item => String.eqb (full_package_id (snd item))
                                          (Market.package_id package))
                  (marketplace_listings w)).
    rewrite Nat.add_comm. f_equal.
    generalize (marketplace_listings w). intro l.
    induction l as [|[k x] l IH]; cbn; [reflexivity|].
    destruct (String.eqb (full_package_id x) (Market.package_id package));
      cbn; rewrite IH; reflexivity. }
  split.
  { unfold listings_of, values. rewrite Hf. apply filter_drops_all.
    intros l Hin. apply in_map_iff in Hin. destruct Hin as [[k l'] [<- Hin]].
    apply filter_In in Hin. destruct Hin as [_ Hn]. cbn [snd] in *.
    apply negb_true_iff in Hn. exact Hn. }
  assert (Hlen : (List.length (marketplace_listings w)
                  = List.length (marketplace_listings w')
                    + List.length (listings_of (Market.package_id package)
                                               (marketplace_listings w)))%nat).
  { rewrite Hf. unfold listings_of, values.
    rewrite <- (filter_length
                  (fun item => String.eqb (full_package_id (snd item))
                                          (Market.package_id package))
                  (marketplace_listings w)).
    rewrite Nat.add_comm. f_equal.
    generalize (marketplace_listings w). intro l.
    induction l as [|[k x] l IH]; cbn; [reflexivity|].
    destruct (String.eqb (full_package_id x) (Market.package_id package));
      cbn; rewrite IH; reflexivity. }
  rewrite Em. cbn [packages_sold total_sales].
  split; [reflexivity|]. split; [reflexivity|].
  split; [exact Ep|]. split; [exact Ei|]. split.
  - intro Hnone. rewrite Hf. apply filter_keeps_all.
    intros [k l] Hin. cbn [snd]. apply negb_true_iff.
    destruct (String.eqb (full_package_id l) (Market.package_id package)) eqn:E;
      [|reflexivity].
    exfalso. assert (Hin' : In l (listings_of (Market.package_id package)
                                              (marketplace_listings w))).
    { unfold listings_of, values. apply filter_In. split; [|exact E].
      apply in_map_iff. exists (k, l). split; [reflexivity|exact Hin]. }
    rewrite Hnone in Hin'. exact Hin'.
  - intros listing Hone.
    assert (Hin : In listing (listings_of (Market.package_id package)
                                          (marketplace_listings w)))
      by (rewrite Hone; left; reflexivity).
    unfold listings_of, values in Hin. apply filter_In in Hin.
    destruct Hin as [Hin E]. apply String.eqb_eq in E.
    apply in_map_iff in Hin. destruct Hin as [[k l] [Hk Hin]]. cbn [snd] in Hk. subst l.
    assert (Ek : k = ("LIST_" ++ package_id)%string).
    { rewrite (Hl _ _ Hin), E, Hid. reflexivity. }
    subst k. split; [exact Hin|]. split.
    + rewrite Hf. intro Hin'. apply filter_In in Hin'. destruct Hin' as [_ Hn].
      cbn [snd] in Hn. rewrite E, String.eqb_refl in Hn. discriminate Hn.
    + rewrite Hlen, Hone. cbn [List.length]. lia.
Qed.

(** A payment that Stripe answers.  When the package and the investor
    exist, the Stripe key is set and Stripe answers with a payment intent
    whose status is not "succeeded", [process_purchase] returns the
    failure result
    ([purchase_successful] false, error "Payment failed") and the
    investors, packages, listings, revenue metrics and printed output are
    as before the call. *)
Theorem process_purchase_payment_failed
  (investor_id package_id payment_method_id : string) (w : World)
  (package : LeadPackage) (investor : InvestorProfile) (intent_id status : string) :
  dict_get package_id (lead_packages w) = Some package ->
  dict_get investor_id (investors w) = Some investor ->
  truthy_opt_str stripe_api_key = true ->
  stripe_create (stripe_calls w)
    (payment_request package investor package_id payment_method_id)
  = PaymentIntent intent_id status ->
  status <> "succeeded"%string ->
  exists w',
    process_purchase investor_id package_id payment_method_id w
    = (Ok (PurchaseFailed "Payment failed"), w')
    /\ purchase_successful (PurchaseFailed "Payment failed") = false
    /\ marketplace_listings w' = marketplace_listings w
    /\ lead_packages w' = lead_packages w
    /\ investors w' = investors w
    /\ revenue_metrics w' = revenue_metrics w
    /\ stdout w' = stdout w.
Proof.
  intros Gp Gi Hk Hs Hne.
  unfold Market.process_purchase, mbind, get, raise, ret, call_stripe, modify.
  rewrite Gp, Gi, Hk. cbn beta iota delta [negb]. rewrite Hs.
  apply String.eqb_neq in Hne. rewrite Hne. cbn beta iota delta [negb].
  eexists. split; [reflexivity|]. repeat split.
Qed.

(** ** At most one listing per package, none once it is sold *)

(** The ids of the stored packages that have been purchased.  A
    successful purchase adds the id; [process_overflow_lead] storing a
    new package under an id takes it out again, since the package now
    stored under that id has not been sold. *)
Definition sold_after (request : Request) (w : World) (answer : result Response)
  (sold : list string) : list string :=
  match request with
  | PostPurchaseLead _ package_id _ =>
      match answer with
      | Ok (Purchase (PurchaseSucceeded _ _ _)) => package_id :: sold
      | _ => sold
      end
  | PostProcessOverflowLead payload =>
      if passes_gate payload
      then filter (fun id => negb (String.eqb id (package_id (package_of clock payload w))))
                  sold
      else sold
  | _ => sold
  end.

Fixpoint run_sold (requests : list Request) (w : World) (sold : list string)
  : World * list string :=
  match requests with
  | [] => (w, sold)
  | request :: requests' =>
      run_sold requests' (snd (handle request w))
               (sold_after request w (fst (handle request w)) sold)
  end.

(** Whether [process_overflow_lead] stores a package under [package_id]
    in the course of [requests], served from [w]. *)
Fixpoint reissued (package_id : string) (requests : list Request) (w : World) : bool :=
  match requests with
  | [] => false
  | request :: requests' =>
      match request with
      | PostProcessOverflowLead payload =>
          passes_gate payload
          && String.eqb (Market.package_id (package_of clock payload w)) package_id
      | _ => false
      end
      || reissued package_id requests' (snd (handle request w))
  end.

(** The answer of a purchase that went through. *)
Definition succeeded (answer : result Response) : bool :=
  match answer with
  | Ok (Purchase result) => purchase_successful result
  | _ => false
  end.

Lemma run_app (before after : list Request) (w : World) :
  run (before ++ after) w = run after (run before w).
Proof. unfold Market.run. apply fold_left_app. Qed.

Lemma run_sold_run (requests : list Request) (w : World) (sold : list string) :
  fst (run_sold requests w sold) = run requests w.
Proof.
  revert w sold. induction requests as [|request requests IH]; intros w sold; cbn.
  - reflexivity.
  - apply IH.
Qed.

Lemma listings_of_empty (package_id : string) (listings : dict MarketplaceListing) :
  listings_of package_id listings = []
  <-> forall listing_id listing,
        In (listing_id, listing) listings -> full_package_id listing <> package_id.
Proof.
  unfold listings_of, values. split.
  - intros H k l Hin Heq.
    assert (Hf : In l (filter (fun listing => String.eqb (full_package_id listing) package_id)
                         (map snd listings))).
    { apply filter_In. split.
      - apply in_map_iff. exists (k, l). auto.
      - apply String.eqb_eq. exact Heq. }
    rewrite H in Hf. destruct Hf.
  - intro H. apply filter_drops_all. intros l Hin.
    apply in_map_iff in Hin. destruct Hin as [[k l'] [<- Hin]].
    apply String.eqb_neq. eapply H. exact Hin.
Qed.

(** The invariant: a well-keyed store in which no listing points to a
    sold package. *)
Definition sold_unlisted (w : World) (sold : list string) : Prop :=
  well_keyed w
  /\ forall package_id,
       In package_id sold -> listings_of package_id (marketplace_listings w) = [].

Lemma handle_sold_unlisted (request : Request) (w : World) (sold : list string) :
  sold_unlisted w sold ->
  sold_unlisted (snd (handle request w))
                (sold_after request w (fst (handle request w)) sold).
Proof.
  intros [Hwk Hsold]. split; [apply handle_well_keyed; exact Hwk|].
  destruct Hwk as [Hnd [Hl _]].
  destruct (handle_effect request w)
    as [_ El Hg Hs | payload listing Er Hg _ El Ef | ? package_id ? ? ? ? Er Ea _ El].
  - assert (E : sold_after request w (fst (handle request w)) sold = sold).
    { generalize dependent (fst (handle request w)). intros answer Hs.
      destruct request as [?|payload| |? ? ?|]; cbn [sold_after]; try reflexivity.
      - rewrite (Hg payload eq_refl). reflexivity.
      - destruct answer as [[| | | |[]|]|]; try reflexivity.
        exfalso. eapply Hs. reflexivity. }
    rewrite E, El. exact Hsold.
  - subst request. cbn [sold_after]. rewrite Hg, El.
    intros id Hin. apply filter_In in Hin. destruct Hin as [Hin Hne].
    apply negb_true_iff, String.eqb_neq in Hne.
    apply listings_of_empty. intros k l Hkl.
    apply In_dict_set in Hkl. destruct Hkl as [[_ ->]|Hkl].
    + rewrite Ef. congruence.
    + apply (proj1 (listings_of_empty id _) (Hsold id Hin) k l Hkl).
  - subst request. rewrite Ea, El. cbn [sold_after].
    rewrite (_remove_from_marketplace_filter package_id _ Hnd Hl).
    intros id Hin. apply listings_of_empty. intros k l Hkl.
    apply filter_In in Hkl. destruct Hkl as [Hkl Hne]. cbn [snd] in Hne.
    apply negb_true_iff, String.eqb_neq in Hne.
    destruct Hin as [<-|Hin]; [exact Hne|].
    apply (proj1 (listings_of_empty id _) (Hsold id Hin) k l Hkl).
Qed.

Lemma run_sold_unlisted (requests : list Request) (w : World) (sold : list string) :
  sold_unlisted w sold ->
  sold_unlisted (fst (run_sold requests w sold)) (snd (run_sold requests w sold)).
Proof.
  revert w sold. induction requests as [|request requests IH]; intros w sold H; cbn.
  - exact H.
  - apply IH. apply handle_sold_unlisted. exact H.
Qed.

(** A sold package stays sold while its id is not issued again. *)
Lemma run_sold_keeps (package_id : string) (requests : list Request) (w : World)
  (sold : list string) :
  In package_id sold ->
  reissued package_id requests w = false ->
  In package_id (snd (run_sold requests w sold)).
Proof.
  revert w sold. induction requests as [|request requests IH]; intros w sold Hin Hr.
  - exact Hin.
  - cbn [reissued] in Hr. apply orb_false_iff in Hr. destruct Hr as [Hnow Hlater].
    cbn [run_sold]. apply IH; [|exact Hlater].
    destruct request as [?|payload| |? sold_id ?|]; cbn [sold_after]; trivial.
    + destruct (passes_gate payload); [|exact Hin].
      cbn [andb] in Hnow. apply filter_In. split; [exact Hin|].
      rewrite String.eqb_sym. rewrite Hnow. reflexivity.
    + destruct (fst (handle (PostPurchaseLead _ sold_id _) w)) as [[| | | |[]|]|];
        trivial; right; exact Hin.
Qed.

(** C8, amended.  After any sequence of requests (register an investor,
    process an overflow lead, purchase, read the marketplace or the
    dashboard), a package has at most one listing whose [full_package_id]
    is its id, and a package whose purchase succeeded has none for as
    long as no new package is stored under its id. *)
Theorem one_listing_per_package (requests : list Request) :
  let w := run requests initial_world in
  (forall package_id,
      (List.length (listings_of package_id (marketplace_listings w)) <= 1)%nat)
  /\ (forall before after investor_id package_id payment_method_id,
        let purchase := PostPurchaseLead investor_id package_id payment_method_id in
        let w0 := run before initial_world in
        requests = before ++ purchase :: after ->
        succeeded (fst (handle purchase w0)) = true ->
        reissued package_id after (snd (handle purchase w0)) = false ->
        listings_of package_id (marketplace_listings w) = []).
Proof.
  intro w. split.
  - destruct (run_well_keyed requests initial_world_well_keyed) as [Hnd [Hl _]].
    intro package_id. apply listings_of_at_most_one; assumption.
  - intros before after investor_id package_id payment_method_id purchase w0 Hreq Hok Hre.
    assert (H0 : sold_unlisted w0 [])
      by (split; [apply run_well_keyed, initial_world_well_keyed | intros ? []]).
    apply (handle_sold_unlisted purchase) in H0.
    assert (Hsold : sold_after purchase w0 (fst (handle purchase w0)) [] = [package_id]).
    { unfold purchase at 1. cbn [sold_after]. unfold succeeded in Hok.
      destruct (fst (handle purchase w0)) as [[| | | |[]|]|]; try discriminate.
      reflexivity. }
    rewrite Hsold in H0.
    apply (run_sold_unlisted after) in H0. rewrite run_sold_run in H0.
    assert (Hw : run after (snd (handle purchase w0)) = w).
    { unfold w. rewrite Hreq, run_app. reflexivity. }
    rewrite Hw in H0. destruct H0 as [_ Hnone]. apply Hnone.
    apply run_sold_keeps; [left; reflexivity | exact Hre].
Qed.

End Purchases.

(** ** A day at the marketplace *)

Definition alice : InvestorProfile :=
  {| investor_id := "inv-1";
     name := "Alice";
     email := "alice@example.com";
     phone := Some "+15125550100"%string;
     preferred_markets := ["Austin"%string];
     price_range := [("min"%string, 50000%Z); ("max"%string, 250000%Z)];
     property_types := ["single_family"%string];
     investment_strategy := "flip";
     risk_tolerance := "medium";
     deal_velocity := 3;
     subscription_tier := GOLD;
     credit_balance := 0;
     last_purchase := None |}.

Definition test_key : option string := Some "sk_test"%string.

(** Stripe capturing every payment, and Stripe declining every card. *)
Definition stripe_succeeds (n : nat) (request : PaymentRequest) : StripeOutcome :=
  PaymentIntent ("pi_" ++ str_of_int (Z.of_nat n)) "succeeded".

Definition stripe_declines (n : nat) (request : PaymentRequest) : StripeOutcome :=
  PaymentIntent ("pi_" ++ str_of_int (Z.of_nat n)) "requires_payment_method".

(** Alice registers, then a platinum lead comes in. *)
Definition opening_requests : list Request :=
  [PostRegisterInvestor alice; PostProcessOverflowLead pictured_lead].

Definition first_package_id : string := "PKG_2077_1704067200".

Lemma process_purchase_success_witness :
  let w := run ticking test_key stripe_succeeds opening_requests initial_world in
  let w' := snd (process_purchase test_key stripe_succeeds
                   "inv-1" first_package_id "pm_card" w) in
  keys (marketplace_listings w) = ["LIST_PKG_2077_1704067200"%string]
  /\ marketplace_listings w' = []
  /\ packages_sold (revenue_metrics w') = packages_sold (revenue_metrics w) + 1
  /\ total_sales (revenue_metrics w') == 750
  /\ lead_packages w' = lead_packages w.
Proof.
  intros w w'.
  destruct (process_purchase test_key stripe_succeeds
              "inv-1" first_package_id "pm_card" w)
    as [[[error|intent_id data until]|e] w0] eqn:E;
    [vm_compute in E; discriminate| |vm_compute in E; discriminate].
  destruct (process_purchase_success ticking test_key stripe_succeeds
              opening_requests _ _ _ E)
    as [package [Gp [_ [Hf [_ [_ [_ [Hs [Ht [Hp _]]]]]]]]]].
  fold w in Gp, Hf, Hs, Ht, Hp.
  vm_compute in Gp. injection Gp as <-.
  subst w'. cbn [snd].
  split; [reflexivity|].
  split; [rewrite Hf; reflexivity|].
  split; [exact Hs|].
  split; [rewrite Ht; reflexivity|].
  exact Hp.
Defined.

Lemma process_purchase_payment_failed_witness :
  let w := run ticking test_key stripe_declines opening_requests initial_world in
  exists w',
    process_purchase test_key stripe_declines "inv-1" first_package_id "pm_card" w
    = (Ok (PurchaseFailed "Payment failed"), w')
    /\ marketplace_listings w' = marketplace_listings w
    /\ lead_packages w' = lead_packages w
    /\ investors w' = investors w
    /\ revenue_metrics w' = revenue_metrics w.
Proof.
  intro w.
  destruct (process_purchase_payment_failed test_key stripe_declines
              "inv-1" first_package_id "pm_card" w
              (package := package_of ticking pictured_lead
                            (snd (register_investor alice initial_world)))
              (investor := alice)
              (intent_id := "pi_0") (status := "requires_payment_method"))
    as [w' [E [_ [Hl [Hp [Hi [Hm _]]]]]]];
    [reflexivity|reflexivity|reflexivity|reflexivity|discriminate|].
  exists w'. repeat split; assumption.
Defined.

(** C5, as stated, fails: the package is bought, and bought again.  The
    second purchase succeeds, and there is no listing of the package for
    it to remove: the listings are as before. *)
Lemma second_purchase_removes_nothing :
  let purchase := PostPurchaseLead "inv-1" first_package_id "pm_card" in
  let w := run ticking test_key stripe_succeeds (opening_requests ++ [purchase])
               initial_world in
  let out := process_purchase test_key stripe_succeeds
               "inv-1" first_package_id "pm_card" w in
  succeeded
    (fst (handle ticking test_key stripe_succeeds purchase
            (run ticking test_key stripe_succeeds opening_requests initial_world)))
  = true
  /\ (exists intent_id data until,
        fst out = Ok (PurchaseSucceeded intent_id data until))
  /\ listings_of first_package_id (marketplace_listings w) = []
  /\ marketplace_listings (snd out) = marketplace_listings w
  /\ packages_sold (revenue_metrics (snd out)) == 2.
Proof.
  cbv zeta. split; [reflexivity|]. split.
  - eexists. eexists. eexists. vm_compute. reflexivity.
  - repeat split.
Qed.

(** Stripe's client raising on every call, as it does when the card is
    declined. *)
Definition stripe_raises (n : nat) (request : PaymentRequest) : StripeOutcome :=
  StripeRaises "Your card was declined.".

(** C6.  The claim: a purchase whose payment is not captured returns the
    failure result and writes nothing.  The code, once Alice has
    registered and the lead is packaged: Alice buys the package, the
    Stripe client raises on the declined card, and [process_purchase]
    raises what the client raised, since the call is not guarded; so
    does the endpoint.  No failure result is returned.  Nothing is
    written: investors, packages, listings, metrics and printed output
    are as before. *)
Theorem process_purchase_stripe_error :
  let w := run ticking test_key stripe_raises opening_requests initial_world in
  let out := process_purchase test_key stripe_raises
               "inv-1" first_package_id "pm_card" w in
  keys (lead_packages w) = [first_package_id]
  /\ keys (investors w) = ["inv-1"%string]
  /\ fst out = Raise (StripeError "Your card was declined.")
  /\ fst (purchase_lead test_key stripe_raises "inv-1" first_package_id "pm_card" w)
     = Raise (StripeError "Your card was declined.")
  /\ (forall error, fst out <> Ok (PurchaseFailed error))
  /\ same_store w (snd out)
  /\ stdout (snd out) = stdout w.
Proof.
  cbv zeta. split; [reflexivity|]. split; [reflexivity|].
  split; [vm_compute; reflexivity|]. split; [vm_compute; reflexivity|].
  split; [intros error H; vm_compute in H; discriminate H|].
  repeat split.
Qed.

(** The lead is sold, then comes in again a few seconds later: the sold
    package has no listing, the new one has one. *)
Definition resale_requests : list Request :=
  opening_requests
  ++ [PostPurchaseLead "inv-1" first_package_id "pm_card";
      PostProcessOverflowLead pictured_lead].

Lemma one_listing_per_package_witness :
  let w := run ticking test_key stripe_succeeds resale_requests initial_world in
  listings_of first_package_id (marketplace_listings w) = []
  /\ keys (marketplace_listings w) = ["LIST_PKG_2077_1704067203"%string]
  /\ (List.length (listings_of "PKG_2077_1704067203" (marketplace_listings w)) <= 1)%nat.
Proof.
  intro w.
  destruct (one_listing_per_package ticking test_key stripe_succeeds resale_requests)
    as [Hone Hsold].
  fold w in Hone, Hsold.
  split.
  - apply (Hsold opening_requests [PostProcessOverflowLead pictured_lead]
             "inv-1"%string first_package_id "pm_card"%string); reflexivity.
  - split; [reflexivity|]. apply Hone.
Defined.

(** A clock that advances one microsecond per reading: every reading of
    the day falls in the same second. *)
Definition within_a_second (n : nat) : datetime :=
  (1704067200 * 1000000 + Z.of_nat n)%Z.

(** C8, as stated, fails: the lead is packaged, its package is bought,
    and the same lead comes in again within the second.  Its new package
    gets the id of the one that was bought, and is listed under it. *)
Lemma sold_package_listed_again :
  let purchase := PostPurchaseLead "inv-1" first_package_id "pm_card" in
  let w0 := run within_a_second test_key stripe_succeeds opening_requests initial_world in
  let w := run within_a_second test_key stripe_succeeds resale_requests initial_world in
  resale_requests
  = opening_requests ++ purchase :: [PostProcessOverflowLead pictured_lead]
  /\ succeeded (fst (handle within_a_second test_key stripe_succeeds purchase w0)) = true
  /\ keys (lead_packages w) = [first_package_id]
  /\ List.length (listings_of first_package_id (marketplace_listings w)) = 1%nat.
Proof.
  cbv zeta. repeat split.
Qed.

End MarketSpec.

(* ================================================================== *)
(** * The scrape endpoint *)
(* ================================================================== *)

Module ScrapeSpec.

Import Scraper PyFacts.

(** ** Sorting rearranges *)

Lemma insert_desc_perm (A : Type) (key : A -> Q) (x : A) (l : list A) :
  Permutation (insert_desc key x l) (x :: l).
Proof.
  induction l as [|y l IH]; cbn.
  - apply Permutation_refl.
  - destruct (Qleb (key y) (key x)).
    + apply Permutation_refl.
    + eapply perm_trans; [apply perm_skip; exact IH|]. apply perm_swap.
Qed.

Lemma sort_desc_perm (A : Type) (key : A -> Q) (l : list A) :
  Permutation (sort_desc key l) l.
Proof.
  induction l as [|x l IH]; cbn.
  - apply perm_nil.
  - eapply perm_trans; [apply insert_desc_perm|]. apply perm_skip. exact IH.
Qed.

Section Service.

Variable http_get : nat -> string -> bool.
Variable lattice_run : nat -> LatticeOut.
Variable clock : nat -> datetime.
Variable Diagnostics : Type.
Variable get_triad_diagnostics : Diagnostics.
Variable scrape_properties_via_gpt :
  nat -> PropertyAnalysisRequest -> result (list ZillowProperty).

#[local] Abbreviation photo_loop := (Scraper.photo_loop http_get lattice_run).
#[local] Abbreviation analyze_property_photos :=
  (Scraper.analyze_property_photos http_get lattice_run).
#[local] Abbreviation analyze_property := (Scraper.analyze_property http_get lattice_run).
#[local] Abbreviation analyze_loop := (Scraper.analyze_loop http_get lattice_run).
#[local] Abbreviation scrape_properties :=
  (Scraper.scrape_properties http_get lattice_run clock get_triad_diagnostics
     scrape_properties_via_gpt).

(** [w'] is [w] after fetching [fetched], in that order, and nothing else
    but passes through the lattice. *)
Definition fetched_between (w w' : World) (fetched : list string) : Prop :=
  requests w' = requests w ++ fetched
  /\ gpt_calls w' = gpt_calls w
  /\ clock_reads w' = clock_reads w
  /\ analysis_history w' = analysis_history w.

Lemma fetched_between_nil (w : World) : fetched_between w w [].
Proof. unfold fetched_between. rewrite app_nil_r. repeat split. Qed.

Lemma fetched_between_app (w1 w2 w3 : World) (a b : list string) :
  fetched_between w1 w2 a -> fetched_between w2 w3 b -> fetched_between w1 w3 (a ++ b).
Proof.
  unfold fetched_between. intros [R1 [G1 [C1 H1]]] [R2 [G2 [C2 H2]]].
  rewrite R2, R1, app_assoc. repeat split; congruence.
Qed.

(** Every analysis made so far carries curvatures. *)
Definition curved (analyses : list PhotoAnalysis) : Prop :=
  Forall (fun a => curvatures a <> []) analyses.

(** The photo loop returns; it fetches every URL it is given, once and in
    order. *)
Lemma photo_loop_returns (urls : list string) (index : Z)
  (analyses : list PhotoAnalysis) (w : World) :
  exists out w',
    photo_loop index urls analyses w = (Ok out, w')
    /\ fetched_between w w' urls
    /\ ((forall n, lo_curvatures (lattice_run n) <> []) -> curved analyses -> curved out).
Proof.
  revert index analyses w.
  induction urls as [|url urls IH]; intros index analyses w; cbn [Scraper.photo_loop].
  - exists analyses, w. split; [reflexivity|]. split; [apply fetched_between_nil|auto].
  - unfold mbind at 1. unfold fetch at 1. cbn beta iota.
    destruct (http_get (List.length (requests w)) url).
    + unfold mbind at 1. unfold run_lattice at 1. cbn beta iota.
      match goal with
      | |- context [Scraper.photo_loop _ _ ?i urls ?a ?w0] =>
          destruct (IH i a w0) as [out [w' [E [[R [G [C H]]] Hc]]]]
      end.
      exists out, w'. split; [exact E|]. split.
      * unfold fetched_between. cbn in R, G, C, H.
        rewrite R, <- app_assoc. repeat split; assumption.
      * intros Hl Ha. apply Hc; [exact Hl|].
        apply Forall_app. split; [exact Ha|].
        constructor; [apply Hl|constructor].
    + match goal with
      | |- context [Scraper.photo_loop _ _ ?i urls ?a ?w0] =>
          destruct (IH i a w0) as [out [w' [E [[R [G [C H]]] Hc]]]]
      end.
      exists out, w'. split; [exact E|]. split.
      * unfold fetched_between. cbn in R, G, C, H.
        rewrite R, <- app_assoc. repeat split; assumption.
      * exact Hc.
Qed.

Lemma _calculate_visual_distress_score_returns (analyses : list PhotoAnalysis) :
  exists score, _calculate_visual_distress_score analyses = Ok score.
Proof.
  destruct analyses as [|a analyses]; [eexists; reflexivity|].
  unfold _calculate_visual_distress_score.
  rewrite truediv_nonzero; [eexists; reflexivity|].
  unfold len. cbn [List.length]. intro H.
  apply Qeq_bool_iff in H. rewrite Nat2Z.inj_succ in H.
  unfold Qeq_bool, inject_Z in H. cbn in H.
  apply Z.eqb_eq in H. lia.
Qed.

Lemma _summarize_geometric_features_returns (analyses : list PhotoAnalysis) :
  curved analyses ->
  exists summary, _summarize_geometric_features analyses = Ok summary.
Proof.
  intro H. destruct analyses as [|a analyses]; [eexists; reflexivity|].
  unfold _summarize_geometric_features.
  inversion H as [|? ? Ha _]; subst. cbn [map List.concat].
  destruct (curvatures a) as [|c cs]; [contradiction|].
  cbn [app]. eexists. reflexivity.
Qed.

(** Analysing the photos of a listing fetches its first three URLs, and
    nothing else, whether or not the summary then raises. *)
Lemma analyze_property_photos_fetches (photo_urls : list string) (w : World) :
  fetched_between w (snd (analyze_property_photos photo_urls w)) (firstn 3 photo_urls)
  /\ ((forall n, lo_curvatures (lattice_run n) <> []) ->
      exists visual, fst (analyze_property_photos photo_urls w) = Ok visual).
Proof.
  unfold Scraper.analyze_property_photos.
  destruct photo_urls as [|url photo_urls].
  - cbn. split; [apply fetched_between_nil|]. intros _. eexists. reflexivity.
  - unfold mbind, lift, ret.
    destruct (photo_loop_returns (firstn 3 (url :: photo_urls)) 0 [] w)
      as [out [w' [E [F Hc]]]].
    rewrite E.
    destruct (_calculate_visual_distress_score_returns out) as [score Es].
    rewrite Es.
    destruct (_summarize_geometric_features out) as [summary|e] eqn:Eg; cbn [fst snd].
    + split; [exact F|]. intros _. eexists. reflexivity.
    + split; [exact F|]. intro Hl. exfalso.
      destruct (_summarize_geometric_features_returns (Hc Hl (Forall_nil _)))
        as [summary Eg'].
      congruence.
Qed.

Lemma price_ratio_returns (prop : ZillowProperty) :
  exists ratio,
    match zestimate prop with
    | Some z => if truthy_int z
                then truediv (inject_Z (price prop)) (inject_Z z)
                else Ok 1
    | None => Ok 1
    end = Ok ratio.
Proof.
  destruct (zestimate prop) as [z|]; [|eexists; reflexivity].
  destruct (truthy_int z) eqn:T; [|eexists; reflexivity].
  rewrite truediv_nonzero; [eexists; reflexivity|].
  unfold truthy_int in T. apply negb_true_iff, Z.eqb_neq in T.
  intro H. apply T. unfold Qeq, inject_Z in H. cbn in H. lia.
Qed.

(** Analysing a listing fetches its first three photo URLs and nothing
    else; the analysis it returns is that of the listing. *)
Lemma analyze_property_fetches (prop : ZillowProperty) (w : World) :
  fetched_between w (snd (analyze_property prop w)) (firstn 3 (photos prop))
  /\ (forall intel, fst (analyze_property prop w) = Ok intel -> property intel = prop)
  /\ ((forall n, lo_curvatures (lattice_run n) <> []) ->
      exists intel, fst (analyze_property prop w) = Ok intel).
Proof.
  destruct (analyze_property_photos_fetches (photos prop) w) as [F Hv].
  unfold Scraper.analyze_property, mbind, lift, ret.
  destruct (analyze_property_photos (photos prop) w) as [[visual|e] w1] eqn:E;
    cbn [fst snd] in *.
  - destruct (ScraperSpec.detect_distress_signals_returns prop visual) as [d [Ed _]].
    rewrite Ed.
    destruct (ScraperSpec.generate_investment_analysis_total prop d) as [inv [Ei _]].
    rewrite Ei.
    destruct (price_ratio_returns prop) as [ratio Er]. rewrite Er. cbn [fst snd].
    split; [exact F|]. split.
    + intros intel [= <-]. reflexivity.
    + intros _. eexists. reflexivity.
  - split; [exact F|]. split; [discriminate|].
    intro Hl. destruct (Hv Hl) as [visual Ev]. discriminate.
Qed.

(** The URLs fetched for a run of listings: the first three of each. *)
Definition photo_urls_of (props : list ZillowProperty) : list string :=
  List.concat (map (fun prop => firstn 3 (photos prop)) props).

(** The analysis loop goes through the listings in order; when it
    returns it has analysed them all, and when it raises it has fetched
    for the listings up to the one that raised. *)
Lemma analyze_loop_fetches (props : list ZillowProperty)
  (analyzed : list PropertyIntelligence) (w : World) :
  exists done rest,
    props = done ++ rest
    /\ fetched_between w (snd (analyze_loop props analyzed w)) (photo_urls_of done)
    /\ (forall out, fst (analyze_loop props analyzed w) = Ok out ->
        rest = []
        /\ exists fresh, out = analyzed ++ fresh /\ map property fresh = props)
    /\ ((forall n, lo_curvatures (lattice_run n) <> []) ->
        exists out, fst (analyze_loop props analyzed w) = Ok out).
Proof.
  revert analyzed w.
  induction props as [|prop props IH]; intros analyzed w; cbn [Scraper.analyze_loop].
  - exists [], []. split; [reflexivity|]. split; [apply fetched_between_nil|]. split.
    + intros out [= <-]. split; [reflexivity|]. exists []. rewrite app_nil_r. auto.
    + intros _. eexists. reflexivity.
  - destruct (analyze_property_fetches prop w) as [F [Hp Hr]].
    unfold mbind.
    destruct (analyze_property prop w) as [[intel|e] w1] eqn:E; cbn [fst snd] in *.
    + destruct (IH (analyzed ++ [intel]) w1) as [done [rest [Hs [F' [Ho Hr']]]]].
      exists (prop :: done), rest.
      split; [cbn; congruence|]. split.
      * unfold photo_urls_of. cbn [map List.concat].
        eapply fetched_between_app; [exact F|exact F'].
      * split; [|exact Hr'].
        intros out Hout. destruct (Ho out Hout) as [Hrest [fresh [Hf Hm]]].
        split; [exact Hrest|]. exists (intel :: fresh). split.
        -- rewrite Hf, <- app_assoc. reflexivity.
        -- cbn. rewrite Hm, (Hp intel eq_refl). reflexivity.
    + exists [prop], props. split; [reflexivity|]. split.
      * unfold photo_urls_of. cbn [map List.concat]. rewrite app_nil_r. exact F.
      * split; [discriminate|].
        intro Hl. destruct (Hr Hl) as [intel Ei]. discriminate.
Qed.



End Service.

(** ** A scrape that finds eleven listings *)

Definition photo_url (listing photo : nat) : string :=
  ("https://photos.example/" ++ str_of_int (Z.of_nat listing) ++ "/"
   ++ str_of_int (Z.of_nat photo) ++ ".jpg")%string.

(** Listing [n], with four photos. *)
Definition listing (n : nat) : ZillowProperty :=
  {| zpid := str_of_int (Z.of_nat n);
     address := "12 Elm St, Austin, TX";
     price := 100000;
     bedrooms := 3;
     bathrooms := 2;
     sqft := 1500;
     lot_size := None;
     year_built := None;
     property_type := "single_family";
     listing_date := "2024-01-05";
     days_on_market := 30 + 10 * Z.of_nat n;
     price_history := [];
     photos := map (photo_url n) (seq 0 4);
     description := "";
     neighborhood := "North Austin Heights";
     zestimate := Some 200000%Z;
     rent_zestimate := None |}.






End ScrapeSpec.

(* ================================================================== *)
(** * Photo analysis *)
(* ================================================================== *)

Module PhotoSpec.

Import Scraper PyFacts.

(** ** The visual score *)

Lemma len_pos (A : Type) (x : A) (l : list A) : 0 < inject_Z (len (x :: l)).
Proof.
  unfold len. cbn [List.length]. rewrite Nat2Z.inj_succ.
  change 0 with (inject_Z 0). rewrite <- Zlt_Qlt. lia.
Qed.

(** Over the rationals the score is computed without a division by
    zero, and it is 0 for no analysis. *)
Lemma _calculate_visual_distress_score_value (analyses : list PhotoAnalysis) :
  exists score,
    _calculate_visual_distress_score analyses = Ok score
    /\ (analyses = [] -> score = 0).
Proof.
  destruct analyses as [|a analyses].
  - exists 0. split; reflexivity.
  - unfold _calculate_visual_distress_score.
    rewrite truediv_nonzero.
    2:{ intro H. pose proof (len_pos a analyses) as Hp. rewrite H in Hp.
        exact (Qlt_irrefl _ Hp). }
    cbn [bind]. eexists. split; [reflexivity|discriminate].
Qed.

(** ** The photo loop *)

Section Photos.

Variable http_get : nat -> string -> bool.
Variable lattice_run : nat -> LatticeOut.

#[local] Abbreviation photo_loop := (Scraper.photo_loop http_get lattice_run).
#[local] Abbreviation analyze_property_photos :=
  (Scraper.analyze_property_photos http_get lattice_run).

(** Whether the URL at position [i] of [urls] downloads, when the URLs
    are fetched in order and the first of them is request number
    [first] of the service. *)
Definition downloads (first : nat) (urls : list string) (i : nat) : bool :=
  match nth_error urls i with
  | Some url => http_get (first + i) url
  | None => false
  end.

(** The positions of the URLs that download, in increasing order. *)
Definition downloaded (first : nat) (urls : list string) : list nat :=
  filter (downloads first urls) (seq 0 (List.length urls)).

Lemma downloaded_cons (first : nat) (url : string) (urls : list string) :
  downloaded first (url :: urls)
  = (if http_get first url then [0%nat] else []) ++ map S (downloaded (S first) urls).
Proof.
  unfold downloaded. cbn [List.length seq filter].
  rewrite <- seq_shift, filter_map_swap.
  unfold downloads at 1. cbn [nth_error]. rewrite Nat.add_0_r.
  assert (E : filter (fun a => downloads first (url :: urls) (S a)) (seq 0 (List.length urls))
              = filter (downloads (S first) urls) (seq 0 (List.length urls))).
  { apply filter_ext. intro i. unfold downloads. cbn [nth_error].
    rewrite Nat.add_succ_r. reflexivity. }
  rewrite E. destruct (http_get first url); reflexivity.
Qed.

Lemma downloaded_bound (first : nat) (urls : list string) :
  Forall (fun i => (i < List.length urls)%nat) (downloaded first urls).
Proof.
  apply Forall_forall. intros i Hi. unfold downloaded in Hi.
  apply filter_In in Hi. destruct Hi as [Hi _]. apply in_seq in Hi. lia.
Qed.

(** The loop returns.  It runs the lattice once for each URL that
    downloads, and labels each analysis with the position of its URL. *)
Lemma photo_loop_spec (urls : list string) (k : nat)
  (analyses : list PhotoAnalysis) (w : World) :
  exists fresh w',
    photo_loop (Z.of_nat k) urls analyses w = (Ok (analyses ++ fresh), w')
    /\ requests w' = requests w ++ urls
    /\ lattice_runs w' = (lattice_runs w + List.length fresh)%nat
    /\ map photo_index fresh
       = map (fun i => Z.of_nat (k + i)) (downloaded (List.length (requests w)) urls)
    /\ (forall n a,
          nth_error fresh n = Some a ->
          a = photo_entry (photo_index a) (lattice_run (lattice_runs w + n))).
Proof.
  revert k analyses w.
  induction urls as [|url urls IH]; intros k analyses w; cbn [Scraper.photo_loop].
  - exists [], w. rewrite !app_nil_r. split; [reflexivity|]. split; [reflexivity|].
    split; [cbn; lia|]. split; [reflexivity|]. intros [|n] a; discriminate.
  - unfold mbind at 1. unfold fetch at 1. cbn beta iota.
    rewrite downloaded_cons.
    replace (Z.of_nat k + 1)%Z with (Z.of_nat (S k)) by lia.
    destruct (http_get (List.length (requests w)) url).
    + unfold mbind at 1. unfold run_lattice at 1. cbn beta iota.
      match goal with
      | |- context [Scraper.photo_loop _ _ _ urls ?a ?w0] =>
          destruct (IH (S k) a w0) as [fresh [w' [E [R [L [I N]]]]]]
      end.
      cbn [requests lattice_runs] in R, L, I, N.
      rewrite length_app in I. cbn [List.length] in I. rewrite Nat.add_1_r in I.
      exists (photo_entry (Z.of_nat k) (lattice_run (lattice_runs w)) :: fresh), w'.
      split; [rewrite E, <- app_assoc; reflexivity|].
      split; [rewrite R, <- app_assoc; reflexivity|].
      split; [cbn [List.length]; lia|].
      split.
      * cbn [app map photo_index photo_entry]. rewrite Nat.add_0_r. f_equal.
        rewrite I, map_map. apply map_ext. intro i. f_equal. lia.
      * intros [|n] a Ha; cbn [nth_error] in Ha.
        -- injection Ha as <-. rewrite Nat.add_0_r. reflexivity.
        -- rewrite (N n a Ha). cbn [photo_index photo_entry].
           rewrite Nat.add_succ_r. reflexivity.
    + match goal with
      | |- context [Scraper.photo_loop _ _ _ urls ?a ?w0] =>
          destruct (IH (S k) a w0) as [fresh [w' [E [R [L [I N]]]]]]
      end.
      cbn [requests lattice_runs] in R, L, I, N.
      rewrite length_app in I. cbn [List.length] in I. rewrite Nat.add_1_r in I.
      exists fresh, w'.
      split; [exact E|].
      split; [rewrite R, <- app_assoc; reflexivity|].
      split; [exact L|].
      split; [|exact N].
      cbn [app]. rewrite I, map_map. apply map_ext. intro i. f_equal. lia.
Qed.

(** [analyze_property_photos], from what the loop yields. *)
Lemma analyze_property_photos_unfold (photo_urls : list string) (w : World) :
  exists analyses,
    requests (snd (analyze_property_photos photo_urls w))
    = requests w ++ firstn 3 photo_urls
    /\ lattice_runs (snd (analyze_property_photos photo_urls w))
       = (lattice_runs w + List.length analyses)%nat
    /\ map photo_index analyses
       = map Z.of_nat (downloaded (List.length (requests w)) (firstn 3 photo_urls))
    /\ (forall n a,
          nth_error analyses n = Some a ->
          a = photo_entry (photo_index a) (lattice_run (lattice_runs w + n)))
    /\ fst (analyze_property_photos photo_urls w)
       = match photo_urls with
         | [] => Ok {| visual_analysis := []; overall_visual_score := Some 0;
                       geometric_summary := None |}
         | _ =>
             score <- _calculate_visual_distress_score analyses ;;
             summary <- _summarize_geometric_features analyses ;;
             Ok {| visual_analysis := analyses;
                   overall_visual_score := Some score;
                   geometric_summary := Some summary |}
         end.
Proof.
  unfold Scraper.analyze_property_photos.
  destruct photo_urls as [|url photo_urls].
  - exists []. cbn. rewrite app_nil_r, Nat.add_0_r. repeat split.
    intros [|n] a; discriminate.
  - destruct (photo_loop_spec (firstn 3 (url :: photo_urls)) 0 [] w)
      as [analyses [w' [E [R [L [I N]]]]]].
    cbn [app] in E. exists analyses.
    change (Z.of_nat 0) with 0%Z in E.
    unfold mbind, lift, ret. rewrite E.
    destruct (_calculate_visual_distress_score analyses) as [score|e];
      [destruct (_summarize_geometric_features analyses) as [summary|e]|];
      cbn [fst snd bind]; repeat split; assumption.
Qed.

(** X3.  On [analyze_property_photos].  [photo_index] is the position of
    the photo among the first three URLs of the listing, not its rank
    among the photos analysed: the analyses are those of the URLs that
    download, in order, so there are at most three and a photo that fails
    to download leaves a gap in the indices.  The lattice runs once per
    analysis, and each analysis is built from the run it caused. *)
Theorem photo_index_is_position
  (photo_urls : list string) (w : World) (visual : VisualAnalysis) :
  fst (analyze_property_photos photo_urls w) = Ok visual ->
  let analyses := visual_analysis visual in
  map photo_index analyses
  = map Z.of_nat (downloaded (List.length (requests w)) (firstn 3 photo_urls))
  /\ Forall (fun a => (0 <= photo_index a < 3)%Z) analyses
  /\ (List.length analyses <= 3)%nat
  /\ lattice_runs (snd (analyze_property_photos photo_urls w))
     = (lattice_runs w + List.length analyses)%nat
  /\ (forall n a,
        nth_error analyses n = Some a ->
        a = photo_entry (photo_index a) (lattice_run (lattice_runs w + n))).
Proof.
  intros H analyses.
  destruct (analyze_property_photos_unfold photo_urls w) as [found [_ [L [I [N E]]]]].
  assert (Hfound : analyses = found).
  { rewrite H in E. unfold analyses. destruct photo_urls as [|url photo_urls].
    - injection E as ->. cbn in I. destruct found; [reflexivity|discriminate].
    - destruct (_calculate_visual_distress_score found); [|discriminate].
      destruct (_summarize_geometric_features found); [|discriminate].
      cbn [bind] in E. injection E as ->. reflexivity. }
  rewrite Hfound. clear Hfound analyses.
  pose proof (downloaded_bound (List.length (requests w)) (firstn 3 photo_urls)) as Hb.
  assert (H3 : (List.length (firstn 3 photo_urls) <= 3)%nat)
    by (rewrite length_firstn; lia).
  split; [exact I|]. split; [|split; [|split; [exact L|exact N]]].
  - apply Forall_forall. intros a Hin.
    apply (in_map photo_index) in Hin. rewrite I in Hin.
    apply in_map_iff in Hin. destruct Hin as [i [<- Hi]].
    rewrite Forall_forall in Hb. specialize (Hb i Hi). lia.
  - rewrite <- (length_map photo_index), I, length_map.
    unfold downloaded.
    eapply Nat.le_trans; [apply filter_length_le|]. rewrite length_seq. exact H3.
Qed.

(** X4.  On [analyze_property_photos], with [detect_distress_signals]
    for the last part.  When none of the first three photo URLs
    downloads (and when the listing has no photo at all), the analysis
    is returned all the same: no photo analysed, a score of 0, an empty
    summary for a listing with photos and none for a listing without;
    the lattice is not run, and neither [visual_distress] nor
    [geometric_anomaly] is raised from it. *)
Theorem analyze_property_photos_without_downloads
  (photo_urls : list string) (w : World) :
  (forall i url,
      nth_error (firstn 3 photo_urls) i = Some url ->
      http_get (List.length (requests w) + i) url = false) ->
  exists visual,
    fst (analyze_property_photos photo_urls w) = Ok visual
    /\ visual_analysis visual = []
    /\ overall_visual_score visual = Some 0
    /\ geometric_summary visual
       = match photo_urls with [] => None | _ => Some empty_summary end
    /\ lattice_runs (snd (analyze_property_photos photo_urls w)) = lattice_runs w
    /\ requests (snd (analyze_property_photos photo_urls w))
       = requests w ++ firstn 3 photo_urls
    /\ (forall property d,
          detect_distress_signals property visual = Ok d ->
          visual_distress d = false /\ geometric_anomaly d = false).
Proof.
  intro Hfail.
  destruct (analyze_property_photos_unfold photo_urls w) as [found [R [L [I [_ E]]]]].
  assert (Hnone : found = []).
  { apply (map_eq_nil photo_index). rewrite I.
    replace (downloaded (List.length (requests w)) (firstn 3 photo_urls)) with (@nil nat);
      [reflexivity|].
    symmetry. unfold downloaded. apply MarketSpec.filter_drops_all.
    intros i _. unfold downloads.
    destruct (nth_error (firstn 3 photo_urls) i) as [url|] eqn:En; [|reflexivity].
    apply (Hfail i url En). }
  subst found. cbn in E. rewrite Nat.add_0_r in L.
  assert (Hsignals : forall visual,
             get_overall_visual_score visual = 0 ->
             get_geometric_complexity visual = 0 ->
             forall property d,
               detect_distress_signals property visual = Ok d ->
               visual_distress d = false /\ geometric_anomaly d = false).
  { intros visual Hs Hc property d Hd.
    destruct (ScraperSpec.detect_distress_signals_returns property visual)
      as [d' [Hd' [_ [_ [_ [Hvd Hga]]]]]].
    rewrite Hd in Hd'. injection Hd' as <-.
    rewrite Hvd, Hga, Hs, Hc. split; reflexivity. }
  destruct photo_urls as [|url photo_urls]; eexists; (split; [exact E|]);
    cbn [visual_analysis overall_visual_score geometric_summary];
    repeat (split; [first [reflexivity | assumption]|]);
    apply Hsignals; reflexivity.
Qed.


(** The photo analysis returns, or raises [ValueError]. *)
Lemma analyze_property_photos_outcome (photo_urls : list string) (w : World) :
  (exists visual, fst (analyze_property_photos photo_urls w) = Ok visual)
  \/ fst (analyze_property_photos photo_urls w) = Raise ValueError.
Proof.
  destruct (analyze_property_photos_unfold photo_urls w) as [found [_ [_ [_ [_ E]]]]].
  rewrite E. destruct photo_urls as [|url photo_urls]; [left; eexists; reflexivity|].
  destruct (_calculate_visual_distress_score_value found) as [score [Es _]].
  rewrite Es. cbn [bind]. unfold _summarize_geometric_features.
  destruct found as [|a found]; [left; eexists; reflexivity|].
  destruct (List.concat (map curvatures (a :: found)));
    [right; reflexivity | left; eexists; reflexivity].
Qed.

(** X5.  On [analyze_property_photos] and
    [_summarize_geometric_features].  The only exception the photo
    analysis raises is [ValueError], from the maximum of an empty array:
    it is raised exactly when at least one photo went through the
    lattice and the lattice gave no curvature value for any of them. *)
Theorem analyze_property_photos_value_error (photo_urls : list string) (w : World) :
  let out := analyze_property_photos photo_urls w in
  let first := lattice_runs w in
  let last := lattice_runs (snd out) in
  ((exists visual, fst out = Ok visual) \/ fst out = Raise ValueError)
  /\ (fst out = Raise ValueError
      <-> (first < last)%nat
          /\ forall j, (first <= j < last)%nat -> lo_curvatures (lattice_run j) = []).
Proof.
  cbv zeta.
  destruct (analyze_property_photos_unfold photo_urls w) as [found [_ [L [I [N E]]]]].
  rewrite L, E. clear L E.
  assert (Hc : forall n a, nth_error found n = Some a ->
                 curvatures a = lo_curvatures (lattice_run (lattice_runs w + n))).
  { intros n a Ha. rewrite (N n a Ha) at 1. reflexivity. }
  assert (Hall : List.concat (map curvatures found) = []
                 <-> forall j, (lattice_runs w <= j < lattice_runs w + List.length found)%nat ->
                       lo_curvatures (lattice_run j) = []).
  { rewrite concat_nil_Forall, Forall_map, Forall_forall. split.
    - intros Hf j Hj.
      destruct (nth_error found (j - lattice_runs w)) as [a|] eqn:Ea.
      + rewrite <- (Hf a (nth_error_In _ _ Ea)), (Hc _ _ Ea). f_equal. f_equal. lia.
      + apply nth_error_None in Ea. lia.
    - intros Hj a Hin. apply In_nth_error in Hin. destruct Hin as [n Hn].
      rewrite (Hc n a Hn). apply Hj.
      assert (n < List.length found)%nat by (apply nth_error_Some; congruence). lia. }
  destruct photo_urls as [|url photo_urls].
  - assert (Hnone : found = []) by (apply (map_eq_nil photo_index); exact I).
    subst found. split; [left; eexists; reflexivity|].
    split; [discriminate|]. cbn [List.length]. intros [Hlt _]. lia.
  - destruct (_calculate_visual_distress_score_value found) as [score [Es _]].
    rewrite Es. cbn [bind].
    destruct found as [|a found].
    + cbn [_summarize_geometric_features bind].
      split; [left; eexists; reflexivity|].
      split; [discriminate|]. cbn [List.length]. intros [Hlt _]. lia.
    + unfold _summarize_geometric_features.
      destruct (List.concat (map curvatures (a :: found))) as [|c cs] eqn:Ev;
        cbn [bind].
      * split; [right; reflexivity|]. split; [|reflexivity].
        intros _. split; [cbn [List.length]; lia|]. apply Hall. reflexivity.
      * split; [left; eexists; reflexivity|]. split; [discriminate|].
        intros [_ Hj]. apply Hall in Hj. discriminate.
Qed.

End Photos.

(** ** A listing with four photos *)

(** The second download fails. *)
Definition second_fails (n : nat) (url : string) : bool := negb (n =? 1)%nat.

(** No download goes through. *)
Definition offline (n : nat) (url : string) : bool := false.

(** A lattice that finds two curvature values in every photo. *)
Definition bumpy (n : nat) : LatticeOut :=
  {| lo_landmarks := [[0.1; 0.2]; [0.4; 0.8]];
     lo_curvatures := [0.5; 0.9];
     lo_curvatures_std := 0.2;
     lo_embedding := [0.3; 0.6] |}.

Definition four_photos : list string :=
  ["https://photos.example/a.jpg"; "https://photos.example/b.jpg";
   "https://photos.example/c.jpg"; "https://photos.example/d.jpg"]%string.

Lemma photo_index_is_position_witness :
  exists visual,
    fst (analyze_property_photos second_fails bumpy four_photos initial_world) = Ok visual
    /\ map photo_index (visual_analysis visual) = [0; 2]%Z
    /\ lattice_runs
         (snd (analyze_property_photos second_fails bumpy four_photos initial_world))
       = 2%nat.
Proof.
  destruct (fst (analyze_property_photos second_fails bumpy four_photos initial_world))
    as [visual|e] eqn:E; [|vm_compute in E; discriminate E].
  destruct (photo_index_is_position second_fails bumpy four_photos initial_world E)
    as [Hi [_ [_ [Hl _]]]].
  exists visual. split; [reflexivity|]. split; [exact Hi|].
  rewrite Hl, <- (length_map photo_index), Hi. reflexivity.
Defined.

Lemma analyze_property_photos_without_downloads_witness :
  exists visual,
    fst (analyze_property_photos offline bumpy four_photos initial_world) = Ok visual
    /\ visual_analysis visual = []
    /\ overall_visual_score visual = Some 0
    /\ geometric_summary visual = Some empty_summary.
Proof.
  destruct (analyze_property_photos_without_downloads offline bumpy four_photos
              initial_world)
    as [visual [E [Ha [Hs [Hg _]]]]]; [intros i url _; reflexivity|].
  exists visual. auto.
Defined.

End PhotoSpec.

(* ================================================================== *)
(** * The analysis of a listing and the scraper's endpoints *)
(* ================================================================== *)

Module AnalysisSpec.

Import Scraper PyFacts.

(** ** Sorting sorts *)

(** [l] is in descending order of [key]. *)
Definition descending (A : Type) (key : A -> Q) (l : list A) : Prop :=
  StronglySorted (fun a b => key b <= key a) l.

Lemma insert_desc_descending (A : Type) (key : A -> Q) (x : A) (l : list A) :
  descending key l -> descending key (insert_desc key x l).
Proof.
  unfold descending. induction 1 as [|y l Hs IH Hy]; cbn [insert_desc].
  - constructor; constructor.
  - destruct (Qleb (key y) (key x)) eqn:E.
    + apply Qle_bool_iff in E. constructor; [constructor; assumption|].
      constructor; [exact E|].
      eapply Forall_impl; [|exact Hy]. intros b Hb. cbn beta in *.
      eapply Qle_trans; eassumption.
    + constructor; [exact IH|].
      apply (Permutation_Forall (Permutation_sym (ScrapeSpec.insert_desc_perm key x l))).
      constructor; [|exact Hy].
      apply Qlt_le_weak, Qnot_le_lt. intro Hle.
      apply Qle_bool_iff in Hle. unfold Qleb in E. congruence.
Qed.

Lemma sort_desc_descending (A : Type) (key : A -> Q) (l : list A) :
  descending key (sort_desc key l).
Proof.
  induction l as [|x l IH]; cbn [sort_desc].
  - constructor.
  - apply insert_desc_descending. exact IH.
Qed.

(** In a descending list the items above a threshold come first. *)
Lemma descending_split (A : Type) (key : A -> Q) (t : Q) (l : list A) :
  descending key l ->
  l = filter (fun a => Qltb t (key a)) l ++ filter (fun a => negb (Qltb t (key a))) l.
Proof.
  unfold descending. induction 1 as [|y l Hs IH Hy]; [reflexivity|].
  cbn [filter].
  destruct (Qltb t (key y)) eqn:E; cbn [negb app].
  - f_equal. apply IH.
  - apply Qltb_ge in E.
    rewrite (@MarketSpec.filter_drops_all _ (fun a => Qltb t (key a)) l).
    + cbn [app]. f_equal. symmetry. apply MarketSpec.filter_keeps_all.
      intros b Hb. rewrite Forall_forall in Hy. specialize (Hy b Hb). cbn beta in Hy.
      apply negb_true_iff, Qltb_ge. eapply Qle_trans; eassumption.
    + intros b Hb. rewrite Forall_forall in Hy. specialize (Hy b Hb). cbn beta in Hy.
      apply Qltb_ge. eapply Qle_trans; eassumption.
Qed.

(** ** The analysis of a listing *)

Lemma sum_bools_signals (d : DistressSignal) :
  (0 <= sum_bools (ScraperSpec.signals d) <= 6)%Z.
Proof.
  unfold ScraperSpec.signals.
  destruct (price_below_market d), (high_days_on_market d), (price_reduction d),
    (visual_distress d), (neighborhood_decline d), (geometric_anomaly d);
    cbn; lia.
Qed.

(** The score is above 70 exactly from five signals on. *)
Lemma score_above_70 (d : DistressSignal) :
  overall_score d = inject_Z (sum_bools (ScraperSpec.signals d)) / 6 * 100 ->
  Qltb 70 (overall_score d) = true <-> (5 <= sum_bools (ScraperSpec.signals d))%Z.
Proof.
  intros ->. unfold ScraperSpec.signals.
  destruct (price_below_market d), (high_days_on_market d), (price_reduction d),
    (visual_distress d), (neighborhood_decline d), (geometric_anomaly d);
    cbn [sum_bools]; split; intro H;
    first [reflexivity | lia | discriminate H].
Qed.

Section Service.

Variable http_get : nat -> string -> bool.
Variable lattice_run : nat -> LatticeOut.
Variable clock : nat -> datetime.
Variable Diagnostics : Type.
Variable get_triad_diagnostics : Diagnostics.
Variable scrape_properties_via_gpt :
  nat -> PropertyAnalysisRequest -> result (list ZillowProperty).

#[local] Abbreviation analyze_property_photos :=
  (Scraper.analyze_property_photos http_get lattice_run).
#[local] Abbreviation analyze_property := (Scraper.analyze_property http_get lattice_run).
#[local] Abbreviation analyze_loop := (Scraper.analyze_loop http_get lattice_run).
#[local] Abbreviation scrape_properties :=
  (Scraper.scrape_properties http_get lattice_run clock get_triad_diagnostics
     scrape_properties_via_gpt).
#[local] Abbreviation health_check := (@Scraper.health_check Diagnostics).
#[local] Abbreviation metrics := (Scraper.metrics get_triad_diagnostics).
#[local] Abbreviation handle :=
  (Scraper.handle http_get lattice_run clock get_triad_diagnostics
     scrape_properties_via_gpt).
#[local] Abbreviation run :=
  (Scraper.run http_get lattice_run clock get_triad_diagnostics
     scrape_properties_via_gpt).

(** What [analyze_property] puts together, and the one way it raises. *)
Lemma analyze_property_unfold (prop : ZillowProperty) (w : World) :
  (exists visual d inv ratio,
      fst (analyze_property_photos (photos prop) w) = Ok visual
      /\ detect_distress_signals prop visual = Ok d
      /\ generate_investment_analysis prop d = Ok inv
      /\ fst (analyze_property prop w)
         = Ok {| property := prop;
                 distress_signals := d;
                 geometric_analysis := visual;
                 market_position :=
                   Some {| price_ratio := ratio;
                           market_time := days_on_market prop;
                           competition_level :=
                             if (60 <? days_on_market prop)%Z then "LOW" else "HIGH" |};
                 investment_opportunity := inv;
                 contract_recommendation :=
                   if Qltb 70 (overall_score d)
                   then "IMMEDIATE_OFFER" else "WATCH_LIST" |})
  \/ fst (analyze_property prop w) = Raise ValueError.
Proof.
  unfold Scraper.analyze_property, mbind, lift, ret.
  destruct (PhotoSpec.analyze_property_photos_outcome http_get lattice_run (photos prop) w)
    as [[visual Ev]|Ev];
    destruct (analyze_property_photos (photos prop) w) as [r w1];
    cbn [fst] in Ev; subst r; [|right; reflexivity].
  destruct (ScraperSpec.detect_distress_signals_returns prop visual) as [d [Ed _]].
  destruct (ScraperSpec.generate_investment_analysis_total prop d) as [inv [Ei _]].
  destruct (ScrapeSpec.price_ratio_returns prop) as [ratio Er].
  left. exists visual, d, inv, ratio.
  rewrite Ed, Ei, Er. repeat split.
Qed.

(** X7.  On [scrape_properties], the loop body, with
    [detect_distress_signals].  A listing is recommended
    ["IMMEDIATE_OFFER"] exactly when at least five of its six distress
    signals are raised, and ["WATCH_LIST"] otherwise. *)
Theorem contract_recommendation_iff
  (prop : ZillowProperty) (w : World) (intel : PropertyIntelligence) :
  fst (analyze_property prop w) = Ok intel ->
  let count := sum_bools (ScraperSpec.signals (distress_signals intel)) in
  (0 <= count <= 6)%Z
  /\ (contract_recommendation intel = "IMMEDIATE_OFFER"%string <-> (5 <= count)%Z)
  /\ (contract_recommendation intel = "WATCH_LIST"%string <-> (count <= 4)%Z).
Proof.
  intros H count.
  destruct (analyze_property_unfold prop w)
    as [[visual [d [inv [ratio [_ [Ed [_ E]]]]]]]|E]; rewrite H in E; [|discriminate].
  injection E as ->. unfold count. cbn [distress_signals contract_recommendation].
  clear count H.
  destruct (ScraperSpec.detect_distress_signals_returns prop visual)
    as [d' [Ed' [Hs _]]].
  rewrite Ed in Ed'. injection Ed' as <-.
  pose proof (sum_bools_signals d) as Hb.
  pose proof (score_above_70 d Hs) as H70.
  split; [exact Hb|].
  destruct (Qltb 70 (overall_score d)).
  - assert (5 <= sum_bools (ScraperSpec.signals d))%Z by (apply H70; reflexivity).
    split; split; intro; first [reflexivity | assumption | discriminate | lia].
  - assert (~ (5 <= sum_bools (ScraperSpec.signals d))%Z)
      by (intro H5; apply H70 in H5; discriminate).
    split; split; intro; first [reflexivity | discriminate | lia].
Qed.

(** ** The endpoint *)

Lemma analyze_loop_outcome (props : list ZillowProperty)
  (analyzed : list PropertyIntelligence) (w : World) :
  (exists out, fst (analyze_loop props analyzed w) = Ok out)
  \/ fst (analyze_loop props analyzed w) = Raise ValueError.
Proof.
  revert analyzed w.
  induction props as [|prop props IH]; intros analyzed w; cbn [Scraper.analyze_loop].
  - left. eexists. reflexivity.
  - unfold mbind.
    destruct (analyze_property_unfold prop w) as [[visual [d [inv [ratio [_ [_ [_ E]]]]]]]|E];
      destruct (analyze_property prop w) as [r w1]; cbn [fst] in E; subst r.
    + apply IH.
    + right. reflexivity.
Qed.

(** The score the endpoint sorts and counts by. *)
Definition score (item : PropertyIntelligence) : Q :=
  overall_score (distress_signals item).

(** An answer of the endpoint, from what GPT and the analysis yielded. *)
Lemma scrape_properties_answered
  (request : PropertyAnalysisRequest) (w : World) (response : ScrapeResponse Diagnostics) :
  fst (scrape_properties request w) = Ok response ->
  exists found analyzed,
    scrape_properties_via_gpt (gpt_calls w) request = Ok found
    /\ properties response = sort_desc score analyzed
    /\ analyzed_properties response = len (properties response)
    /\ high_priority_leads response
       = len (filter (fun item => Qltb 70 (score item)) (properties response))
    /\ analysis_timestamp response = clock (S (clock_reads w))
    /\ analysis_history (snd (scrape_properties request w))
       = analysis_history w ++ [clock (clock_reads w)]
    /\ clock_reads (snd (scrape_properties request w)) = S (S (clock_reads w))
    /\ gpt_calls (snd (scrape_properties request w)) = S (gpt_calls w).
Proof.
  unfold Scraper.scrape_properties, mbind, call_gpt, datetime_now, append_history,
    modify, ret.
  destruct (scrape_properties_via_gpt (gpt_calls w) request) as [found|e];
    [|discriminate].
  remember (firstn 10 found) as first eqn:Hfirst.
  match goal with
  | |- context [Scraper.analyze_loop _ _ first [] ?w0] =>
      destruct (ScrapeSpec.analyze_loop_fetches http_get lattice_run first [] w0)
        as [done [rest [_ [[_ [G [C Hh]]] _]]]];
      destruct (analyze_loop first [] w0) as [[out|e] w1]
  end; cbn [fst snd gpt_calls clock_reads analysis_history] in *; [|discriminate].
  intros [= <-]. exists found, out.
  cbn [properties analyzed_properties high_priority_leads analysis_timestamp].
  rewrite G, C, Hh. repeat split.
Qed.

(** An exception of the endpoint: GPT's, before anything else was done,
    or the [ValueError] of the photo analysis. *)
Lemma scrape_properties_raised
  (request : PropertyAnalysisRequest) (w : World) (e : exn) :
  fst (scrape_properties request w) = Raise e ->
  analysis_history (snd (scrape_properties request w)) = analysis_history w
  /\ clock_reads (snd (scrape_properties request w)) = clock_reads w
  /\ gpt_calls (snd (scrape_properties request w)) = S (gpt_calls w)
  /\ ((scrape_properties_via_gpt (gpt_calls w) request = Raise e
       /\ requests (snd (scrape_properties request w)) = requests w
       /\ lattice_runs (snd (scrape_properties request w)) = lattice_runs w)
      \/ ((exists found, scrape_properties_via_gpt (gpt_calls w) request = Ok found)
          /\ e = ValueError)).
Proof.
  unfold Scraper.scrape_properties, mbind, call_gpt, datetime_now, append_history,
    modify, ret.
  destruct (scrape_properties_via_gpt (gpt_calls w) request) as [found|e0].
  - remember (firstn 10 found) as first eqn:Hfirst.
    match goal with
    | |- context [Scraper.analyze_loop _ _ first [] ?w0] =>
        destruct (ScrapeSpec.analyze_loop_fetches http_get lattice_run first [] w0)
          as [done [rest [_ [[_ [G [C Hh]]] _]]]];
        destruct (analyze_loop_outcome first [] w0) as [[out Eo]|Eo];
        destruct (analyze_loop first [] w0) as [r w1]
    end; cbn [fst snd gpt_calls clock_reads analysis_history] in *; subst r;
      [discriminate|].
    intros [= <-]. repeat split; trivial.
    right. split; [eexists|]; reflexivity.
  - cbn [fst snd]. intros [= <-]. repeat split. left. repeat split.
Qed.

(** X8.  On [scrape_properties].  The properties of an answer are in
    descending order of [overall_score]; [high_priority_leads] counts
    those with a score above 70, which are the first ones of the list,
    and every property after them has a score of at most 70. *)
Theorem scrape_properties_sorted
  (request : PropertyAnalysisRequest) (w : World) (response : ScrapeResponse Diagnostics) :
  fst (scrape_properties request w) = Ok response ->
  let leads := Z.to_nat (high_priority_leads response) in
  StronglySorted (fun a b => score b <= score a) (properties response)
  /\ (0 <= high_priority_leads response <= analyzed_properties response)%Z
  /\ Forall (fun item => 70 < score item) (firstn leads (properties response))
  /\ Forall (fun item => score item <= 70) (skipn leads (properties response)).
Proof.
  intros H leads.
  destruct (scrape_properties_answered request w H)
    as [found [analyzed [_ [Hp [Ha [Hh _]]]]]].
  assert (Hs : descending score (properties response))
    by (rewrite Hp; apply sort_desc_descending).
  pose proof (descending_split 70 Hs) as Hsplit.
  set (high := filter (fun item => Qltb 70 (score item)) (properties response)) in *.
  set (low := filter (fun item => negb (Qltb 70 (score item))) (properties response)) in *.
  assert (Hleads : leads = List.length high).
  { unfold leads. rewrite Hh. unfold len. apply Nat2Z.id. }
  split; [exact Hs|]. split.
  - rewrite Ha, Hh. unfold len. fold high. rewrite Hsplit, length_app. lia.
  - rewrite Hleads, Hsplit.
    rewrite firstn_app, skipn_app, Nat.sub_diag, firstn_all, skipn_all.
    cbn [firstn skipn app]. rewrite app_nil_r. split.
    + apply Forall_forall. intros item Hin. apply filter_In in Hin.
      apply Qltb_lt, Hin.
    + apply Forall_forall. intros item Hin. apply filter_In in Hin.
      destruct Hin as [_ Hin]. apply negb_true_iff in Hin. apply Qltb_ge, Hin.
Qed.





(** ** The service *)

(** Whether a request is a scrape that was answered. *)
Definition answered_scrape (request : Request) (answer : result (Response Diagnostics))
  : bool :=
  match request, answer with
  | PostScrapeProperties _, Ok _ => true
  | _, _ => false
  end.

(** The number of answered scrapes among [requests], served one after
    another from [s]. *)
Fixpoint answered_scrapes (requests : list Request) (s : ZillowVisualScraper) : nat :=
  match requests with
  | [] => 0
  | request :: requests' =>
      (if answered_scrape request (fst (handle request s)) then 1 else 0)
      + answered_scrapes requests' (snd (handle request s))
  end.

Lemma handle_history (request : Request) (s : ZillowVisualScraper) :
  List.length (analysis_history (world (snd (handle request s))))
  = ((if answered_scrape request (fst (handle request s)) then 1 else 0)
     + List.length (analysis_history (world s)))%nat
  /\ property_cache (snd (handle request s)) = property_cache s.
Proof.
  destruct request as [request| |]; cbn [Scraper.handle]; [|split; reflexivity..].
  unfold mbind, on_world, ret.
  destruct (fst (scrape_properties request (world s))) as [response|e] eqn:E;
    cbn [fst snd world property_cache answered_scrape].
  - destruct (scrape_properties_answered request (world s) E)
      as [found [analyzed [_ [_ [_ [_ [_ [Hh _]]]]]]]].
    rewrite Hh, length_app. cbn [List.length]. split; [lia|reflexivity].
  - destruct (scrape_properties_raised request (world s) E) as [Hh _].
    rewrite Hh. split; reflexivity.
Qed.

Lemma run_history (requests : list Request) (s : ZillowVisualScraper) :
  List.length (analysis_history (world (run requests s)))
  = (answered_scrapes requests s + List.length (analysis_history (world s)))%nat
  /\ property_cache (run requests s) = property_cache s.
Proof.
  revert s. induction requests as [|request requests IH]; intro s;
    cbn [Scraper.run fold_left answered_scrapes].
  - split; reflexivity.
  - destruct (IH (snd (handle request s))) as [Hh Hc].
    destruct (handle_history request s) as [Hh1 Hc1].
    unfold Scraper.run in Hh, Hc. rewrite Hh, Hc, Hh1, Hc1. split; [lia|reflexivity].
Qed.

(** X11.  On [health_check], [metrics], [scrape_properties] and
    [ZillowVisualScraper.__init__].  After any sequence of requests to a
    new service, [analysis_runs] and [properties_analyzed] are the number
    of scrapes that were answered: a scrape that raised is not counted,
    and however many properties a scrape analysed it counts once.
    [cache_size] is 0, since nothing is ever put in the cache.  Neither
    endpoint changes the service. *)
Theorem health_check_counts_answered_scrapes (requests : list Request) :
  let s := run requests scraper in
  let runs := Z.of_nat (answered_scrapes requests scraper) in
  handle GetHealth s = (Ok (Health Diagnostics "ok" runs), s)
  /\ handle GetMetrics s = (Ok (Metrics runs 0 get_triad_diagnostics), s).
Proof.
  intros s runs.
  destruct (run_history requests scraper) as [Hh Hc].
  fold s in Hh, Hc. cbn [scraper world property_cache analysis_history initial_world
                         List.length] in Hh, Hc.
  rewrite Nat.add_0_r in Hh.
  cbn [Scraper.handle]. unfold Scraper.health_check, Scraper.metrics, mbind, get, ret, len.
  rewrite Hh, Hc. split; reflexivity.
Qed.

End Service.

(** ** Three listings *)

(** Every download goes through. *)
Definition online (n : nat) (url : string) : bool := true.

(** A lattice that finds six sharp curvature values in every photo. *)
Definition rough (n : nat) : LatticeOut :=
  {| lo_landmarks := [[0.1; 0.2]; [0.4; 0.8]; [0.5; 0.5]];
     lo_curvatures := [0.8; 0.9; 0.8; 0.9; 0.8; 0.9];
     lo_curvatures_std := 0.05;
     lo_embedding := [0.3; 0.6] |}.

(** GPT finds the quiet listing, the distressed one and the relisted
    one. *)
Definition gpt_finds_three (n : nat) (request : PropertyAnalysisRequest)
  : result (list ZillowProperty) :=
  Ok [ScraperSpec.quiet_property; ScraperSpec.distressed_property;
      ScraperSpec.relisted_property].

Lemma contract_recommendation_iff_witness :
  exists intel,
    fst (analyze_property online rough ScraperSpec.distressed_property initial_world)
    = Ok intel
    /\ sum_bools (ScraperSpec.signals (distress_signals intel)) = 5%Z
    /\ contract_recommendation intel = "IMMEDIATE_OFFER"%string.
Proof.
  destruct (fst (analyze_property online rough ScraperSpec.distressed_property
                   initial_world)) as [intel|e] eqn:E;
    [|vm_compute in E; discriminate E].
  destruct (contract_recommendation_iff online rough ScraperSpec.distressed_property
              initial_world E) as [_ [Hoffer _]].
  assert (Hcount : sum_bools (ScraperSpec.signals (distress_signals intel)) = 5%Z).
  { vm_compute in E. injection E as <-. reflexivity. }
  exists intel. split; [reflexivity|]. split; [exact Hcount|].
  apply Hoffer. rewrite Hcount. apply Z.le_refl.
Defined.

Lemma scrape_properties_sorted_witness :
  exists response,
    fst (scrape_properties online rough MarketSpec.ticking tt gpt_finds_three default_request
           initial_world) = Ok response
    /\ StronglySorted (fun a b => score b <= score a) (properties response)
    /\ (0 <= high_priority_leads response <= analyzed_properties response)%Z.
Proof.
  destruct (fst (scrape_properties online rough MarketSpec.ticking tt gpt_finds_three
                   default_request initial_world)) as [response|e] eqn:E;
    [|vm_compute in E; discriminate E].
  destruct (scrape_properties_sorted online rough MarketSpec.ticking tt gpt_finds_three
              default_request initial_world E) as [Hs [Hh _]].
  exists response. auto.
Defined.

End AnalysisSpec.

(* ================================================================== *)
(** * The store and the revenue of the marketplace *)
(* ================================================================== *)

Module LedgerSpec.

Import Scraper Market PyFacts MarketSpec.

(** ** More on dictionaries *)

Section MoreDictFacts.
Variable V : Type.
Implicit Types (d : dict V) (k : string) (v : V).

Lemma dict_get_set_ne k k' v d : k <> k' -> dict_get k (dict_set k' v d) = dict_get k d.
Proof.
  intro Hne. induction d as [|[k0 v0] d IH]; cbn.
  - apply String.eqb_neq in Hne. rewrite Hne. reflexivity.
  - destruct (String.eqb k' k0) eqn:E; cbn.
    + apply String.eqb_eq in E. subst k0.
      apply String.eqb_neq in Hne. rewrite Hne. reflexivity.
    + rewrite IH. reflexivity.
Qed.

Lemma In_dict_get k v d : NoDup (keys d) -> In (k, v) d -> dict_get k d = Some v.
Proof.
  unfold keys. induction d as [|[k0 v0] d IH]; cbn; intros Hnd Hin; [contradiction|].
  inversion Hnd as [|? ? Hn Hd]; subst.
  destruct Hin as [[= -> ->]|Hin].
  - rewrite String.eqb_refl. reflexivity.
  - destruct (String.eqb k k0) eqn:E.
    + apply String.eqb_eq in E. subst k0. exfalso. apply Hn.
      apply in_map_iff. exists (k, v). auto.
    + auto.
Qed.

Lemma In_dict_set_other k v d k' v' :
  NoDup (keys d) ->
  In (k', v') (dict_set k v d) -> (k' = k /\ v' = v) \/ (k' <> k /\ In (k', v') d).
Proof.
  unfold keys. induction d as [|[k0 v0] d IH]; cbn; intros Hnd Hin.
  - destruct Hin as [[= <- <-]|[]]. auto.
  - inversion Hnd as [|? ? Hn Hd]; subst.
    destruct (String.eqb k k0) eqn:E; cbn in Hin.
    + apply String.eqb_eq in E. subst k0.
      destruct Hin as [[= <- <-]|Hin]; [auto|].
      right. split; [|auto]. intros ->. apply Hn.
      apply in_map_iff. exists (k, v'). auto.
    + apply String.eqb_neq in E.
      destruct Hin as [[= <- <-]|Hin]; [right; split; auto|].
      destruct (IH Hd Hin) as [?|[? ?]]; auto.
Qed.

Lemma dict_get_keys k d : In k (keys d) <-> exists v, dict_get k d = Some v.
Proof.
  unfold keys. induction d as [|[k0 v0] d IH]; cbn.
  - split; [intros []|intros [v H]; discriminate].
  - destruct (String.eqb k k0) eqn:E.
    + apply String.eqb_eq in E. subst k0. split; [eauto|auto].
    + apply String.eqb_neq in E. rewrite <- IH. split; [intros [H|H]|]; auto; congruence.
Qed.

End MoreDictFacts.

(** ** What each request does to the store *)

Section Store.

Variable clock : nat -> datetime.
Variable stripe_api_key : option string.
Variable stripe_create : nat -> PaymentRequest -> StripeOutcome.

#[local] Abbreviation process_purchase := (Market.process_purchase stripe_api_key stripe_create).
#[local] Abbreviation handle := (Market.handle clock stripe_api_key stripe_create).
#[local] Abbreviation run := (Market.run clock stripe_api_key stripe_create).

(** A listing that shows what its package holds. *)
Definition shows (listing : MarketplaceListing) (package : LeadPackage) : Prop :=
  full_package_id listing = package_id package
  /\ package_price listing = price package
  /\ listing_lead_tier listing = lead_tier package
  /\ distress_score listing
     = overall_score (distress_signals (property_intelligence package))
  /\ location listing = neighborhood (property (property_intelligence package)).

(** A lead over the gate: its package is stored and listed, whether or
    not the matching that follows raises. *)
Lemma process_overflow_lead_listed (property_intel : PropertyIntelligence) (w : World) :
  passes_gate property_intel = true ->
  exists r w',
    process_overflow_lead clock property_intel w = (r, w')
    /\ let package := package_of clock property_intel w in
       investors w' = investors w
       /\ lead_packages w' = dict_set (package_id package) package (lead_packages w)
       /\ revenue_metrics w' = revenue_metrics w
       /\ exists listing,
            marketplace_listings w'
            = dict_set ("LIST_" ++ package_id package) listing (marketplace_listings w)
            /\ shows listing package.
Proof.
  unfold passes_gate, process_overflow_lead. rewrite negb_true_iff. intros ->.
  unfold mbind at 1. unfold datetime_now at 1.
  unfold mbind at 1. unfold datetime_now at 1.
  unfold mbind at 1. unfold datetime_now at 1.
  unfold mbind at 1. unfold modify at 1.
  unfold mbind at 1. unfold _create_marketplace_listing, modify at 1.
  unfold mbind at 1.
  match goal with
  | |- context [_match_with_investors ?p ?w0] =>
      destruct (_match_with_investors_outcome p w0)
        as [r [w' [E [_ [_ [[Si [Sp [Sl Sm]]] _]]]]]]
  end.
  cbn zeta. cbn [clock_reads] in *. rewrite E.
  destruct r; unfold ret; eexists; exists w'; (split; [reflexivity|]);
    (split; [exact Si|]); (split; [exact Sp|]); (split; [exact Sm|]);
    (eexists; split; [exact Sl|]; repeat split).
Qed.

(** The store after a request, from the store before it. *)
Lemma handle_store (request : Request) (w : World) :
  let w' := snd (handle request w) in
  match request with
  | PostRegisterInvestor investor =>
      investors w' = dict_set (investor_id investor) investor (investors w)
      /\ lead_packages w' = lead_packages w
      /\ marketplace_listings w' = marketplace_listings w
      /\ revenue_metrics w' = revenue_metrics w
  | PostProcessOverflowLead payload =>
      if passes_gate payload
      then
        let package := package_of clock payload w in
        investors w' = investors w
        /\ lead_packages w' = dict_set (package_id package) package (lead_packages w)
        /\ revenue_metrics w' = revenue_metrics w
        /\ exists listing,
             marketplace_listings w'
             = dict_set ("LIST_" ++ package_id package) listing (marketplace_listings w)
             /\ shows listing package
      else w' = w
  | GetMarketplace => w' = w
  | PostPurchaseLead investor_id package_id payment_method_id =>
      if succeeded (fst (handle request w))
      then
        exists package,
          dict_get package_id (lead_packages w) = Some package
          /\ investors w' = investors w
          /\ lead_packages w' = lead_packages w
          /\ marketplace_listings w'
             = _remove_from_marketplace package_id (marketplace_listings w)
          /\ revenue_metrics w'
             = {| total_sales := total_sales (revenue_metrics w) + price package;
                  packages_sold := packages_sold (revenue_metrics w) + 1;
                  avg_package_price := avg_package_price (revenue_metrics w);
                  conversion_rate := conversion_rate (revenue_metrics w);
                  monthly_recurring := monthly_recurring (revenue_metrics w) |}
      else same_store w w'
  | GetRevenueDashboard =>
      investors w' = investors w
      /\ lead_packages w' = lead_packages w
      /\ marketplace_listings w' = marketplace_listings w
      /\ revenue_metrics w'
         = {| total_sales := total_sales (revenue_metrics w);
              packages_sold := packages_sold (revenue_metrics w);
              avg_package_price :=
                if truthy (packages_sold (revenue_metrics w))
                then total_sales (revenue_metrics w) / packages_sold (revenue_metrics w)
                else 0;
              conversion_rate := conversion_rate (revenue_metrics w);
              monthly_recurring := monthly_recurring (revenue_metrics w) |}
  end.
Proof.
  destruct request as [investor|payload| |investor_id package_id payment_method_id|];
    cbn [Market.handle]; cbv zeta.
  - repeat split.
  - unfold process_overflow_lead_endpoint, mbind.
    destruct (passes_gate payload) eqn:G.
    + destruct (process_overflow_lead_listed payload w G) as [r [w' [E H]]].
      rewrite E. cbv zeta in H. destruct r as [[package|]|e]; cbn [snd ret]; exact H.
    + rewrite (process_overflow_lead_rejects clock payload w G). reflexivity.
  - reflexivity.
  - unfold purchase_lead, mbind.
    destruct (process_purchase investor_id package_id payment_method_id w)
      as [[[error|intent_id data until]|e] w'] eqn:E; cbn [fst snd ret succeeded].
    + cbn [purchase_successful].
      destruct (process_purchase_not_succeeded _ _ _ _ _ _ E) as [Hs _];
        [discriminate|exact Hs].
    + cbn [purchase_successful].
      destruct (process_purchase_succeeded _ _ _ _ _ _ E)
        as [package [investor [Gp [_ [_ [Ei [Ep [El [Em _]]]]]]]]].
      exists package. auto.
    + destruct (process_purchase_not_succeeded _ _ _ _ _ _ E) as [Hs _];
        [discriminate|exact Hs].
  - unfold revenue_dashboard, mbind, get, lift, modify, ret.
    destruct (truthy (packages_sold (revenue_metrics w))) eqn:T.
    + apply truthy_nonzero in T. rewrite (truediv_nonzero _ T). cbn. repeat split.
    + cbn. repeat split.
Qed.

(** ** What every reachable store satisfies *)

(** Every listing shows the package stored under the id it points to. *)
Definition backed (w : World) : Prop :=
  forall listing_id listing,
    In (listing_id, listing) (marketplace_listings w) ->
    exists package,
      dict_get (full_package_id listing) (lead_packages w) = Some package
      /\ shows listing package.

(** Every stored package is one that [process_overflow_lead] built for a
    lead over the gate. *)
Definition gated (w : World) : Prop :=
  forall package_id package,
    In (package_id, package) (lead_packages w) ->
    passes_gate (property_intelligence package) = true
    /\ exists w0, package = package_of clock (property_intelligence package) w0.

(** The metrics after [n] successful purchases. *)
Definition ledger (w : World) (n : nat) : Prop :=
  let m := revenue_metrics w in
  let sold := inject_Z (Z.of_nat n) in
  packages_sold m == sold
  /\ 50 * sold <= total_sales m
  /\ total_sales m <= 750 * sold
  /\ conversion_rate m = 0
  /\ monthly_recurring m = 0.

Definition sound (w : World) (n : nat) : Prop :=
  well_keyed w /\ backed w /\ gated w /\ ledger w n.

(** The price of a package: one of eight amounts, and a whole number of
    cents. *)
Lemma package_of_price (property_intel : PropertyIntelligence) (w0 : World) :
  let package := package_of clock property_intel w0 in
  50 <= price package
  /\ price package <= 750
  /\ inject_Z (int_of_float (price package * 100)) == price package * 100.
Proof.
  unfold package_of. cbn [price]. unfold _calculate_market_multiplier.
  destruct (existsb _ _); destruct (_classify_lead_tier property_intel);
    cbn [base_prices]; repeat split; vm_compute; congruence.
Qed.

(** The purchases of [requests] that succeeded, served one after another
    from [w]. *)
Fixpoint successful_purchases (requests : list Request) (w : World) : nat :=
  match requests with
  | [] => 0
  | request :: requests' =>
      (if succeeded (fst (handle request w)) then 1 else 0)
      + successful_purchases requests' (snd (handle request w))
  end.

Lemma succeeded_purchase (request : Request) (w : World) :
  succeeded (fst (handle request w)) = true ->
  exists investor_id package_id payment_method_id,
    request = PostPurchaseLead investor_id package_id payment_method_id.
Proof.
  destruct request as [investor|payload| |investor_id package_id payment_method_id|];
    cbn [Market.handle]; [| | |eauto|].
  - discriminate.
  - unfold process_overflow_lead_endpoint, mbind.
    destruct (process_overflow_lead clock payload w) as [[[package|]|e] w'];
      discriminate.
  - discriminate.
  - unfold revenue_dashboard, mbind, get, lift, modify, ret.
    destruct (truthy (packages_sold (revenue_metrics w))) eqn:T;
      [apply truthy_nonzero in T; rewrite (truediv_nonzero _ T)|]; discriminate.
Qed.

Lemma handle_sound (request : Request) (w : World) (n : nat) :
  sound w n ->
  sound (snd (handle request w))
        ((if succeeded (fst (handle request w)) then 1 else 0) + n).
Proof.
  intros [Hk [Hb [Hg Hl]]].
  pose proof (handle_well_keyed clock stripe_api_key stripe_create request Hk) as Hk'.
  pose proof (handle_store request w) as Hs. cbv zeta in Hs.
  pose proof (succeeded_purchase request w) as Hp.
  split; [exact Hk'|].
  destruct Hk as [Hnd [Hlk Hpk]].
  destruct request as [investor|payload| |investor_id package_id payment_method_id|].
  - destruct Hs as [_ [Ep [El Em]]].
    destruct (succeeded _); [destruct Hp as [? [? [? Hp]]]; [reflexivity|discriminate]|].
    unfold backed, gated, ledger. rewrite Ep, El, Em. auto.
  - destruct (succeeded _); [destruct Hp as [? [? [? Hp]]]; [reflexivity|discriminate]|].
    destruct (passes_gate payload) eqn:G; [|rewrite Hs; auto].
    destruct Hs as [_ [Ep [Em [listing [El Hshow]]]]].
    set (package := package_of clock payload w) in *.
    unfold backed, gated, ledger. rewrite Ep, El, Em.
    split; [|split; [|exact Hl]].
    + intros k l Hin. apply In_dict_set_other in Hin; [|exact Hnd].
      destruct Hin as [[-> ->]|[Hne Hin]].
      * exists package. split; [|exact Hshow].
        destruct Hshow as [-> _]. apply dict_get_set.
      * destruct (Hb k l Hin) as [p [Gp Hsp]]. exists p. split; [|exact Hsp].
        rewrite dict_get_set_ne; [exact Gp|].
        intro Heq. apply Hne. rewrite (Hlk k l Hin), Heq. reflexivity.
    + intros k p Hin. apply In_dict_set in Hin.
      destruct Hin as [[-> ->]|Hin]; [|exact (Hg k p Hin)].
      split; [exact G|]. exists w. reflexivity.
  - destruct (succeeded _); [destruct Hp as [? [? [? Hp]]]; [reflexivity|discriminate]|].
    rewrite Hs. auto.
  - destruct (succeeded _).
    + destruct Hs as [package [Gp [_ [Ep [El Em]]]]].
      unfold backed, gated, ledger. rewrite Ep, El, Em.
      split; [|split; [exact Hg|]].
      * intros k l Hin. apply (Hb k l). unfold _remove_from_marketplace in Hin.
        destruct (first_listing_of package_id (marketplace_listings w)); [|exact Hin].
        eapply In_dict_del. exact Hin.
      * assert (Hin : In (package_id, package) (lead_packages w))
          by (apply dict_get_In; exact Gp).
        destruct (Hg _ _ Hin) as [_ [w0 Hw0]].
        destruct (package_of_price (property_intelligence package) w0) as [Hlo [Hhi _]].
        rewrite <- Hw0 in Hlo, Hhi.
        destruct Hl as [Hsold [Hmin [Hmax [Hc Hr]]]].
        cbn [total_sales packages_sold conversion_rate monthly_recurring].
        replace (Z.of_nat (1 + n)) with (1 + Z.of_nat n)%Z by lia.
        rewrite inject_Z_plus. change (inject_Z 1) with 1.
        split; [rewrite Hsold; ring|].
        split; [|split; [|auto]].
        -- setoid_replace (50 * (1 + inject_Z (Z.of_nat n)))
             with (50 * inject_Z (Z.of_nat n) + 50) by ring.
           apply Qplus_le_compat; assumption.
        -- setoid_replace (750 * (1 + inject_Z (Z.of_nat n)))
             with (750 * inject_Z (Z.of_nat n) + 750) by ring.
           apply Qplus_le_compat; assumption.
    + destruct Hs as [_ [Ep [El Em]]].
      unfold backed, gated, ledger. rewrite Ep, El, Em. auto.
  - destruct (succeeded _); [destruct Hp as [? [? [? Hp]]]; [reflexivity|discriminate]|].
    destruct Hs as [_ [Ep [El Em]]].
    unfold backed, gated, ledger. rewrite Ep, El, Em.
    cbn [total_sales packages_sold conversion_rate monthly_recurring].
    auto.
Qed.

Lemma initial_world_sound : sound initial_world 0.
Proof.
  split; [apply initial_world_well_keyed|].
  split; [intros ? ? []|]. split; [intros ? ? []|].
  unfold ledger. cbn. repeat split; discriminate.
Qed.

Lemma run_sound (requests : list Request) (w : World) (n : nat) :
  sound w n -> sound (run requests w) (successful_purchases requests w + n).
Proof.
  revert w n. induction requests as [|request requests IH]; intros w n H;
    cbn [Market.run fold_left successful_purchases].
  - exact H.
  - apply (handle_sound request) in H. apply IH in H.
    replace ((if succeeded (fst (handle request w)) then 1 else 0)
             + successful_purchases requests (snd (handle request w)) + n)%nat
      with (successful_purchases requests (snd (handle request w))
            + ((if succeeded (fst (handle request w)) then 1 else 0) + n))%nat by lia.
    exact H.
Qed.

Lemma reachable_sound (requests : list Request) :
  sound (run requests initial_world) (successful_purchases requests initial_world).
Proof.
  pose proof (run_sound requests initial_world_sound) as H.
  rewrite Nat.add_0_r in H. exact H.
Qed.

(** ** Listings and packages *)

(** X12.  On [_create_marketplace_listing], [process_overflow_lead],
    [_remove_from_marketplace].  After any sequence of requests, every
    listing of the marketplace points to a package that is in store, its
    id is ["LIST_"] followed by that package's id, and it shows the
    price, the tier, the distress score and the neighborhood of that
    package: what a listing advertises is what a purchase of its package
    charges. *)
Theorem listing_shows_stored_package
  (requests : list Request) (listing_id : string) (listing : MarketplaceListing) :
  let w := run requests initial_world in
  In (listing_id, listing) (marketplace_listings w) ->
  exists package,
    dict_get (full_package_id listing) (lead_packages w) = Some package
    /\ listing_id = ("LIST_" ++ package_id package)%string
    /\ package_price listing = price package
    /\ listing_lead_tier listing = lead_tier package
    /\ distress_score listing
       = overall_score (distress_signals (property_intelligence package))
    /\ location listing = neighborhood (property (property_intelligence package)).
Proof.
  intros w Hin.
  destruct (reachable_sound requests) as [[_ [Hlk _]] [Hb _]]. fold w in Hlk, Hb.
  destruct (Hb _ _ Hin) as [package [Gp [Hid [Hprice [Htier [Hscore Hplace]]]]]].
  exists package. split; [exact Gp|].
  split; [rewrite <- Hid; apply (Hlk _ _ Hin)|].
  split; [exact Hprice|]. split; [exact Htier|]. split; [exact Hscore|exact Hplace].
Qed.

(** X13.  On [process_overflow_lead] and [_classify_lead_tier].  After
    any sequence of requests, every package in store is stored under its
    own id and belongs to a lead that the gate let through: neither of
    its two tests, [distress_score < 40] and [roi_potential < 10], held
    of the lead.  Its tier is the one the classifier gives that lead, and
    what it includes follows from the tier: the geometric analysis for
    gold and platinum, the contract template for platinum, the market
    comps for all but bronze, 24 hours of exclusivity for platinum and
    12 otherwise. *)
Theorem stored_package_passed_the_gate
  (requests : list Request) (package_id : string) (package : LeadPackage) :
  let w := run requests initial_world in
  dict_get package_id (lead_packages w) = Some package ->
  let intel := property_intelligence package in
  Market.package_id package = package_id
  /\ Qltb (overall_score (distress_signals intel)) 40 = false
  /\ Qltb (get_roi_percentage intel) 10 = false
  /\ lead_tier package = _classify_lead_tier intel
  /\ roi_projection package = investment_opportunity intel
  /\ (geometric_analysis_included package = true
      <-> lead_tier package = GOLD \/ lead_tier package = PLATINUM)
  /\ (contract_template_included package = true <-> lead_tier package = PLATINUM)
  /\ (market_comps_included package = true <-> lead_tier package <> BRONZE)
  /\ exclusive_period_hours package
     = match lead_tier package with PLATINUM => 24%Z | _ => 12%Z end.
Proof.
  intros w Gp intel.
  destruct (reachable_sound requests) as [[_ [_ Hpk]] [_ [Hg _]]]. fold w in Hpk, Hg.
  assert (Hin : In (package_id, package) (lead_packages w))
    by (apply dict_get_In; exact Gp).
  destruct (Hg _ _ Hin) as [Hgate [w0 Hw0]]. fold intel in Hgate, Hw0.
  unfold passes_gate in Hgate. apply negb_true_iff, orb_false_iff in Hgate.
  destruct Hgate as [Hscore Hroi].
  split; [exact (Hpk _ _ Hin)|]. split; [exact Hscore|]. split; [exact Hroi|].
  rewrite Hw0. unfold package_of.
  cbn [lead_tier roi_projection geometric_analysis_included contract_template_included
       market_comps_included exclusive_period_hours].
  split; [reflexivity|]. split; [reflexivity|].
  destruct (_classify_lead_tier intel); cbn; repeat split;
    try (intro H; first [discriminate H | destruct H; discriminate | congruence]);
    auto; congruence.
Qed.

(** A hot market: one of the five city names occurs in the neighborhood,
    whatever the case of its letters. *)
Definition hot_market (neighborhood : string) : Prop :=
  exists city,
    In city ["austin"; "dallas"; "houston"; "atlanta"; "phoenix"]%string
    /\ occurs_in city (lower neighborhood).

Lemma _calculate_market_multiplier_hot (neighborhood : string) :
  (hot_market neighborhood /\ _calculate_market_multiplier neighborhood = 1.5)
  \/ (~ hot_market neighborhood /\ _calculate_market_multiplier neighborhood = 1.0).
Proof.
  unfold _calculate_market_multiplier, hot_market.
  match goal with |- context [existsb ?f ?l] => destruct (existsb f l) eqn:E end.
  - left. split; [|reflexivity].
    apply existsb_exists in E. destruct E as [city [Hin Hc]].
    exists city. split; [exact Hin|]. apply contains_occurs_in. exact Hc.
  - right. split; [|reflexivity].
    intros [city [Hin Hc]]. apply contains_occurs_in in Hc.
    assert (existsb (fun city => contains city (lower neighborhood))
              ["austin"; "dallas"; "houston"; "atlanta"; "phoenix"]%string = true)
      by (apply existsb_exists; exists city; auto).
    congruence.
Qed.

(** X14.  On [process_overflow_lead], [_initialize_pricing],
    [_calculate_market_multiplier] and [process_purchase].  After any
    sequence of requests, the price of every package in store is the
    base price of its tier (50, 150, 300 or 500), times 1.5 when one of
    the five hot-market city names occurs in the neighborhood and times
    1 otherwise; so it lies between 50 and 750, and the amount Stripe is
    asked for, [int(price * 100)], is exactly the price in cents. *)
Theorem stored_package_price
  (requests : list Request) (package_id : string) (package : LeadPackage) :
  let w := run requests initial_world in
  dict_get package_id (lead_packages w) = Some package ->
  let place := neighborhood (property (property_intelligence package)) in
  (hot_market place -> price package = base_prices (lead_tier package) * 1.5)
  /\ (~ hot_market place -> price package = base_prices (lead_tier package) * 1.0)
  /\ 50 <= price package
  /\ price package <= 750
  /\ (forall investor payment_method_id,
        inject_Z (amount (payment_request package investor package_id payment_method_id))
        == price package * 100).
Proof.
  intros w Gp place.
  destruct (reachable_sound requests) as [_ [_ [Hg _]]]. fold w in Hg.
  assert (Hin : In (package_id, package) (lead_packages w))
    by (apply dict_get_In; exact Gp).
  destruct (Hg _ _ Hin) as [_ [w0 Hw0]].
  destruct (package_of_price (property_intelligence package) w0) as [Hlo [Hhi Hamount]].
  rewrite <- Hw0 in Hlo, Hhi, Hamount.
  assert (Hprice : price package
                   = base_prices (lead_tier package) * _calculate_market_multiplier place).
  { rewrite Hw0 at 1 2. reflexivity. }
  destruct (_calculate_market_multiplier_hot place) as [[Hhot Hm]|[Hcold Hm]];
    rewrite Hm in Hprice;
    (split; [intro; first [exact Hprice | contradiction]|]);
    (split; [intro; first [exact Hprice | contradiction]|]);
    (split; [exact Hlo|]); (split; [exact Hhi|]);
    intros investor payment_method_id; exact Hamount.
Qed.

(** X26.  On [process_overflow_lead].  After any sequence of requests,
    every package in store was stamped from three successive readings of
    the clock: its [created_at] is the second and its [expires_at] the
    third plus seven days, and its id ends with [int(timestamp())] of
    the first.  For a first reading from 1970 to [2^33] seconds later
    (the year 2242), the binary64 timestamp, the whole seconds plus the
    microseconds over [1e6], has the whole seconds of the reading as its
    integer part, and the id ends with them.  With a clock that does not
    go back, a package expires no sooner than seven days after it was
    created. *)
Theorem stored_package_times
  (requests : list Request) (package_id : string) (package : LeadPackage) :
  let w := run requests initial_world in
  dict_get package_id (lead_packages w) = Some package ->
  exists n,
    created_at package = clock (S n)
    /\ expires_at package = (clock (S (S n)) + 7 * 86400 * 1000000)%Z
    /\ ((0 <= clock n < 2 ^ 33 * 1000000)%Z ->
        Num.int_of_float (Num.timestamp (clock n)) = Ok (clock n / 1000000)%Z
        /\ package_id
           = ("PKG_" ++ zpid (property (property_intelligence package)) ++ "_"
              ++ str_of_int (clock n / 1000000))%string)
    /\ ((forall i j, (i <= j)%nat -> (clock i <= clock j)%Z) ->
        (created_at package + 7 * 86400 * 1000000 <= expires_at package)%Z).
Proof.
  intros w Gp.
  destruct (reachable_sound requests) as [[_ [_ Hpk]] [_ [Hg _]]]. fold w in Hpk, Hg.
  assert (Hin : In (package_id, package) (lead_packages w))
    by (apply dict_get_In; exact Gp).
  destruct (Hg _ _ Hin) as [_ [w0 Hw0]].
  exists (clock_reads w0).
  assert (Hid : Market.package_id package
                = ("PKG_" ++ zpid (property (property_intelligence package)) ++ "_"
                   ++ str_of_int (clock (clock_reads w0) ÷ 1000000))%string)
    by (rewrite Hw0 at 1; reflexivity).
  assert (Hc : created_at package = clock (S (clock_reads w0)))
    by (rewrite Hw0 at 1; reflexivity).
  assert (He : expires_at package
               = (clock (S (S (clock_reads w0))) + 7 * 86400 * 1000000)%Z)
    by (rewrite Hw0 at 1; reflexivity).
  split; [exact Hc|]. split; [exact He|]. split.
  - intro Hrange. split; [apply NumFacts.timestamp_whole_seconds; exact Hrange|].
    rewrite <- (Hpk _ _ Hin), Hid.
    rewrite Z.quot_div_nonneg by lia. reflexivity.
  - intro Hmono. rewrite Hc, He.
    specialize (Hmono (S (clock_reads w0)) (S (S (clock_reads w0)))). lia.
Qed.

(** ** Revenue *)

(** X15.  On [process_purchase], [SecondaryMarketEve.__init__] and the
    five endpoints.  After any sequence of requests to a new service,
    [packages_sold] is the number of purchases that succeeded,
    [total_sales] lies between 50 and 750 times that number, and
    [conversion_rate] and [monthly_recurring] are still 0: no request
    updates them. *)
Theorem revenue_ledger (requests : list Request) :
  let m := revenue_metrics (run requests initial_world) in
  let sold := inject_Z (Z.of_nat (successful_purchases requests initial_world)) in
  packages_sold m == sold
  /\ 50 * sold <= total_sales m
  /\ total_sales m <= 750 * sold
  /\ conversion_rate m = 0
  /\ monthly_recurring m = 0.
Proof.
  destruct (reachable_sound requests) as [_ [_ [_ Hl]]]. exact Hl.
Qed.

(** X16.  On [revenue_dashboard].  The dashboard never divides by zero.
    Asked after any sequence of requests, it answers with the numbers of
    packages, listings and investors in store and with the metrics, in
    which it has written [avg_package_price] and nothing else: sales,
    packages sold, conversion rate and monthly recurring revenue are as
    they were.  The average is 0 while nothing has been sold and,
    afterwards, a price between 50 and 750; so is the binary64 quotient
    of the sales by the number of packages sold. *)
Theorem revenue_dashboard_average (requests : list Request) :
  let w := run requests initial_world in
  let sold := successful_purchases requests initial_world in
  exists average,
    let m := {| total_sales := total_sales (revenue_metrics w);
                packages_sold := packages_sold (revenue_metrics w);
                avg_package_price := average;
                conversion_rate := conversion_rate (revenue_metrics w);
                monthly_recurring := monthly_recurring (revenue_metrics w) |} in
    revenue_dashboard w
    = (Ok (Dashboard m (len (lead_packages w)) (len (marketplace_listings w))
             (len (investors w))),
       set_metrics (fun _ => m) w)
    /\ (sold = 0%nat -> average = 0)
    /\ ((0 < sold)%nat ->
        50 <= average
        /\ average <= 750
        /\ exists x,
             Num.round (total_sales (revenue_metrics w) / packages_sold (revenue_metrics w))
             = Num.Finite x
             /\ 50 <= x /\ x <= 750).
Proof.
  intros w sold.
  destruct (reachable_sound requests) as [_ [_ [_ [Hsold [Hmin [Hmax _]]]]]].
  fold w sold in Hsold, Hmin, Hmax.
  unfold revenue_dashboard, mbind, get, lift, modify, ret.
  destruct (truthy (packages_sold (revenue_metrics w))) eqn:T.
  - apply truthy_nonzero in T. rewrite (truediv_nonzero _ T).
    eexists. cbv zeta. split; [reflexivity|].
    assert (Hpos : 0 < packages_sold (revenue_metrics w)).
    { rewrite Hsold. destruct sold as [|k].
      - exfalso. apply T. rewrite Hsold. reflexivity.
      - change 0 with (inject_Z 0). rewrite <- Zlt_Qlt. lia. }
    assert (Hlo : 50 <= total_sales (revenue_metrics w) / packages_sold (revenue_metrics w))
      by (apply Qle_shift_div_l; [exact Hpos|]; rewrite Hsold; exact Hmin).
    assert (Hhi : total_sales (revenue_metrics w) / packages_sold (revenue_metrics w) <= 750)
      by (apply Qle_shift_div_r; [exact Hpos|]; rewrite Hsold; exact Hmax).
    split.
    + intros ->. exfalso. apply T. rewrite Hsold. reflexivity.
    + intros _. split; [exact Hlo|]. split; [exact Hhi|].
      apply (@NumFacts.round_between 50 750); trivial.
      * apply (NumFacts.representable_int (m := 50)). lia.
      * apply (NumFacts.representable_int (m := 750)). lia.
      * reflexivity.
  - apply truthy_zero in T.
    exists 0. cbv zeta. split; [reflexivity|]. split; [reflexivity|].
    intro Hpos. exfalso. rewrite Hsold in T.
    assert (H0 : inject_Z 0 < inject_Z (Z.of_nat sold)) by (rewrite <- Zlt_Qlt; lia).
    rewrite T in H0. exact (Qlt_irrefl _ H0).
Qed.

(** ** The marketplace endpoint *)

(** X17.  On [marketplace].  Asked after any sequence of requests, the
    marketplace answers with every listing in store, each once, with
    their number and with the revenue metrics; no two of the listings
    point to the same package, and the service is left as it was. *)
Theorem marketplace_answer (requests : list Request) :
  let w := run requests initial_world in
  exists listings,
    marketplace w = (Ok (Marketplace (len listings) listings (revenue_metrics w)), w)
    /\ Permutation listings (values (marketplace_listings w))
    /\ len listings = len (marketplace_listings w)
    /\ NoDup listings
    /\ NoDup (map full_package_id listings).
Proof.
  intro w.
  exists (sort_desc distress_score (values (marketplace_listings w))).
  split; [reflexivity|].
  pose proof (ScrapeSpec.sort_desc_perm distress_score (values (marketplace_listings w)))
    as Hperm.
  split; [exact Hperm|].
  split.
  { unfold len. rewrite (Permutation_length Hperm). unfold values.
    rewrite length_map. reflexivity. }
  destruct (reachable_sound requests) as [[Hnd [Hlk _]] _].
  fold w in Hnd, Hlk.
  assert (Hids : NoDup (map full_package_id
                          (sort_desc distress_score (values (marketplace_listings w))))).
  { apply (Permutation_NoDup (Permutation_map full_package_id (Permutation_sym Hperm))).
    unfold values. rewrite map_map.
    assert (Hkeys : keys (marketplace_listings w)
                    = map (fun item => ("LIST_" ++ full_package_id (snd item))%string)
                          (marketplace_listings w)).
    { unfold keys. apply map_ext_in. intros [k l] Hin. apply (Hlk k l Hin). }
    rewrite Hkeys in Hnd.
    rewrite <- (map_map (fun item => full_package_id (snd item))
                        (fun id => ("LIST_" ++ id)%string)) in Hnd.
    eapply NoDup_map_inv. exact Hnd. }
  split; [eapply NoDup_map_inv; exact Hids|exact Hids].
Qed.

(** ** Purchases *)

(** X18.  On [process_purchase].  The three checks come in this order
    and each raises before Stripe is called and with nothing written: an
    unknown package answers 404 "Package not found", whoever asks; a
    known package and an unknown investor 404 "Investor not found"; both
    known and no Stripe key 500 "Stripe key missing".  Stripe is called,
    once, exactly when the three checks pass. *)
Theorem process_purchase_guards
  (investor_id package_id payment_method_id : string) (w : World) :
  let out := process_purchase investor_id package_id payment_method_id w in
  let known_package := dict_get package_id (lead_packages w) in
  let known_investor := dict_get investor_id (investors w) in
  (known_package = None ->
   out = (Raise (HTTPException 404 "Package not found"), w))
  /\ (known_package <> None -> known_investor = None ->
      out = (Raise (HTTPException 404 "Investor not found"), w))
  /\ (known_package <> None -> known_investor <> None ->
      truthy_opt_str stripe_api_key = false ->
      out = (Raise (HTTPException 500 "Stripe key missing"), w))
  /\ (known_package <> None -> known_investor <> None ->
      truthy_opt_str stripe_api_key = true ->
      stripe_calls (snd out) = S (stripe_calls w))
  /\ (stripe_calls (snd out) = stripe_calls w
      \/ stripe_calls (snd out) = S (stripe_calls w)).
Proof.
  cbv zeta.
  unfold Market.process_purchase, mbind, get, raise, ret, call_stripe, modify.
  destruct (dict_get package_id (lead_packages w)) as [package|];
    [|repeat split; first [reflexivity | congruence | left; reflexivity]].
  destruct (dict_get investor_id (investors w)) as [investor|];
    [|repeat split; first [reflexivity | congruence | left; reflexivity]].
  destruct (truthy_opt_str stripe_api_key); cbn [negb];
    [|repeat split; first [reflexivity | congruence | left; reflexivity]].
  destruct (stripe_create (stripe_calls w) _) as [id status|message];
    [destruct (negb (String.eqb status "succeeded"))|];
    cbn [snd stripe_calls set_metrics set_listings];
    repeat split; first [reflexivity | congruence | right; reflexivity].
Qed.

Lemma NoDup_keys_filter (V : Type) (f : string * V -> bool) (d : dict V) :
  NoDup (keys d) -> NoDup (keys (filter f d)).
Proof.
  unfold keys. induction d as [|[k v] d IH]; cbn; intro H; [constructor|].
  inversion H as [|? ? Hn Hd]; subst.
  destruct (f (k, v)); cbn; [|auto].
  constructor; [|auto].
  intro Hin. apply Hn. apply in_map_iff in Hin. destruct Hin as [x [Hx Hin]].
  apply in_map_iff. exists x. split; [exact Hx|]. apply filter_In in Hin. apply Hin.
Qed.

Lemma filter_twice (A : Type) (f : A -> bool) (l : list A) :
  filter f (filter f l) = filter f l.
Proof.
  apply filter_keeps_all. intros x Hx. apply filter_In in Hx. apply Hx.
Qed.

(** X19.  On [process_purchase].  A purchase neither marks the package
    as sold nor takes it out of store: after any sequence of requests,
    once a package has been bought, any registered investor whose
    payment Stripe captures buys it again.  The second buyer gets the
    same package data and the same [exclusive_until], the sale is
    counted and added to the revenue a second time, and no listing is
    removed, the package having none left. *)
Theorem sold_package_sells_again
  (requests : list Request) (investor_id package_id payment_method_id : string)
  (intent_id : string) (data : FullPackage) (until : datetime) (w' : World)
  (package : LeadPackage) (buyer_id method_id second_intent : string)
  (buyer : InvestorProfile) :
  let w := run requests initial_world in
  process_purchase investor_id package_id payment_method_id w
  = (Ok (PurchaseSucceeded intent_id data until), w') ->
  dict_get package_id (lead_packages w) = Some package ->
  dict_get buyer_id (investors w) = Some buyer ->
  stripe_create (stripe_calls w') (payment_request package buyer package_id method_id)
  = PaymentIntent second_intent "succeeded" ->
  exists w'',
    process_purchase buyer_id package_id method_id w'
    = (Ok (PurchaseSucceeded second_intent data until), w'')
    /\ marketplace_listings w'' = marketplace_listings w'
    /\ lead_packages w'' = lead_packages w
    /\ packages_sold (revenue_metrics w'') = packages_sold (revenue_metrics w) + 1 + 1
    /\ total_sales (revenue_metrics w'')
       = total_sales (revenue_metrics w) + price package + price package.
Proof.
  intros w H Gp Gb Hs.
  destruct (reachable_sound requests) as [[Hnd [Hlk _]] _]. fold w in Hnd, Hlk.
  assert (Hkey : truthy_opt_str stripe_api_key = true).
  { revert H.
    unfold Market.process_purchase, mbind, get, raise, ret, call_stripe, modify.
    rewrite Gp.
    destruct (dict_get investor_id (investors w)); [|discriminate].
    destruct (truthy_opt_str stripe_api_key); [reflexivity|discriminate]. }
  destruct (process_purchase_succeeded _ _ _ _ _ _ H)
    as [package' [investor [Gp' [_ [_ [Ei [Ep [El [Em [_ [Hd Hu]]]]]]]]]]].
  rewrite Gp in Gp'. injection Gp' as <-.
  unfold Market.process_purchase, mbind, get, raise, ret, call_stripe, modify.
  rewrite Ep, Ei, Gp, Gb, Hkey. cbn beta iota delta [negb].
  rewrite Hs. cbn beta iota delta [negb String.eqb Ascii.eqb Bool.eqb].
  eexists. split; [rewrite Hd, Hu; reflexivity|].
  cbn [marketplace_listings lead_packages revenue_metrics set_metrics set_listings
       packages_sold total_sales].
  rewrite Em, Ep. cbn [packages_sold total_sales].
  repeat split.
  rewrite El.
  rewrite (_remove_from_marketplace_filter package_id (marketplace_listings w) Hnd Hlk).
  rewrite _remove_from_marketplace_filter.
  - apply filter_twice.
  - apply NoDup_keys_filter. exact Hnd.
  - intros k l Hin. apply filter_In in Hin. apply Hlk, Hin.
Qed.

(** X20.  On [process_purchase], [_prepare_full_package] and
    [process_overflow_lead].  What a buyer gets, after any sequence of
    requests: the analysis of the lead and its investment figures, the
    contract template whatever the tier (the package's
    [contract_template_included] is not consulted), the geometric
    analysis for gold and platinum only, and the market comps for all
    but bronze; [exclusive_until] is the expiry of the package. *)
Theorem purchased_package_data
  (requests : list Request) (investor_id package_id payment_method_id : string)
  (intent_id : string) (data : FullPackage) (until : datetime) (w' : World) :
  let w := run requests initial_world in
  process_purchase investor_id package_id payment_method_id w
  = (Ok (PurchaseSucceeded intent_id data until), w') ->
  exists package,
    dict_get package_id (lead_packages w) = Some package
    /\ let intel := property_intelligence package in
       property_details data = intel
       /\ roi_calculator data = investment_opportunity intel
       /\ contract_template data = "Contract template generated..."%string
       /\ full_geometric_analysis data
          = match lead_tier package with
            | GOLD | PLATINUM => Some (geometric_analysis intel)
            | _ => None
            end
       /\ market_comps data
          = match lead_tier package with
            | BRONZE => None
            | _ => Some [[("comp"%string, PyStr "example")]]
            end
       /\ until = expires_at package.
Proof.
  intros w H.
  destruct (reachable_sound requests) as [_ [_ [Hg _]]]. fold w in Hg.
  destruct (process_purchase_succeeded _ _ _ _ _ _ H)
    as [package [investor [Gp [_ [_ [_ [_ [_ [_ [_ [Hd Hu]]]]]]]]]]].
  exists package. split; [exact Gp|]. cbv zeta.
  assert (Hin : In (package_id, package) (lead_packages w))
    by (apply dict_get_In; exact Gp).
  destruct (Hg _ _ Hin) as [_ [w0 Hw0]].
  set (tier := _classify_lead_tier (property_intelligence package)) in *.
  assert (Htier : lead_tier package = tier) by (rewrite Hw0 at 1; reflexivity).
  assert (Hgeo : geometric_analysis_included package
                 = tier_eqb tier GOLD || tier_eqb tier PLATINUM)
    by (rewrite Hw0 at 1; reflexivity).
  assert (Hcomps : market_comps_included package = negb (tier_eqb tier BRONZE))
    by (rewrite Hw0 at 1; reflexivity).
  assert (Hroi : roi_projection package
                 = investment_opportunity (property_intelligence package))
    by (rewrite Hw0 at 1; reflexivity).
  rewrite Hd, Hu. unfold _prepare_full_package.
  cbn [property_details roi_calculator contract_template full_geometric_analysis
       market_comps].
  rewrite Htier, Hgeo, Hcomps, Hroi.
  destruct tier; repeat split.
Qed.

(** ** Investors *)

(** The profile most recently registered under [investor_id] in
    [requests]. *)
Fixpoint last_registered (investor_id : string) (requests : list Request)
  : option InvestorProfile :=
  match requests with
  | [] => None
  | request :: requests' =>
      match last_registered investor_id requests' with
      | Some investor => Some investor
      | None =>
          match request with
          | PostRegisterInvestor investor =>
              if String.eqb (Market.investor_id investor) investor_id
              then Some investor else None
          | _ => None
          end
      end
  end.

Lemma handle_investors (request : Request) (w : World) (investor_id : string) :
  dict_get investor_id (investors (snd (handle request w)))
  = match last_registered investor_id [request] with
    | Some investor => Some investor
    | None => dict_get investor_id (investors w)
    end
  /\ (NoDup (keys (investors w)) -> NoDup (keys (investors (snd (handle request w))))).
Proof.
  pose proof (handle_store request w) as Hs. cbv zeta in Hs.
  destruct request as [investor|payload| |buyer_id package_id payment_method_id|];
    cbn [last_registered].
  - destruct Hs as [-> _]. split; [|apply NoDup_keys_dict_set].
    destruct (String.eqb (Market.investor_id investor) investor_id) eqn:E.
    + apply String.eqb_eq in E. subst investor_id. apply dict_get_set.
    + apply String.eqb_neq in E. apply dict_get_set_ne. congruence.
  - destruct (passes_gate payload); [destruct Hs as [-> _]|rewrite Hs]; auto.
  - rewrite Hs. auto.
  - destruct (succeeded _);
      [destruct Hs as [package [_ [-> _]]]|destruct Hs as [-> _]]; auto.
  - destruct Hs as [-> _]. auto.
Qed.

Lemma run_investors (requests : list Request) (w : World) (investor_id : string) :
  dict_get investor_id (investors (run requests w))
  = match last_registered investor_id requests with
    | Some investor => Some investor
    | None => dict_get investor_id (investors w)
    end
  /\ (NoDup (keys (investors w)) -> NoDup (keys (investors (run requests w)))).
Proof.
  revert w. induction requests as [|request requests IH]; intro w;
    cbn [Market.run fold_left last_registered]; [auto|].
  destruct (IH (snd (handle request w))) as [Hg Hn].
  destruct (handle_investors request w investor_id) as [Hg1 Hn1].
  unfold Market.run in Hg, Hn. split; [|auto].
  rewrite Hg. destruct (last_registered investor_id requests); [reflexivity|].
  rewrite Hg1. cbn [last_registered]. reflexivity.
Qed.

(** X21.  On [register_investor], with the four other endpoints.  After
    any sequence of requests to a new service, the profile found under
    an investor id is the one most recently registered under it, and
    none is found under an id that was never registered: registering
    again replaces the profile, and no other request changes or removes
    it.  The ids in store are distinct, so [registered_investors]
    counts each investor once. *)
Theorem registered_investor_lookup (requests : list Request) (investor_id : string) :
  let w := run requests initial_world in
  dict_get investor_id (investors w) = last_registered investor_id requests
  /\ NoDup (keys (investors w))
  /\ (In investor_id (keys (investors w))
      <-> exists investor,
            In (PostRegisterInvestor investor) requests
            /\ Market.investor_id investor = investor_id).
Proof.
  intro w.
  destruct (run_investors requests initial_world investor_id) as [Hg Hn].
  fold w in Hg, Hn. cbn [initial_world investors dict_get] in Hg.
  assert (Hget : dict_get investor_id (investors w) = last_registered investor_id requests)
    by (rewrite Hg; destruct (last_registered investor_id requests); reflexivity).
  split; [exact Hget|]. split; [apply Hn; constructor|].
  rewrite dict_get_keys, Hget. clear. induction requests as [|request requests IH];
    cbn [last_registered].
  - split; [intros [v H]; discriminate|intros [v [[] _]]].
  - destruct (last_registered investor_id requests) as [found|].
    + split; [intros _|eauto].
      destruct IH as [IH _]. destruct IH as [investor [Hin Hid]]; [eauto|].
      exists investor. split; [right; exact Hin|exact Hid].
    + split.
      * intros [v Hv]. destruct request as [investor| | | |]; try discriminate.
        destruct (String.eqb (Market.investor_id investor) investor_id) eqn:E;
          [|discriminate].
        apply String.eqb_eq in E. exists investor. split; [left; reflexivity|exact E].
      * intros [investor [[->|Hin] Hid]].
        -- apply String.eqb_eq in Hid. rewrite Hid. eauto.
        -- destruct IH as [_ IH]. destruct IH as [v Hv]; [eauto|discriminate].
Qed.

End Store.

(** ** The first package of the day *)

(** The service once Alice has registered and the platinum lead has come
    in, with the clock ticking and Stripe capturing every payment. *)
Definition opened : World :=
  Market.run ticking test_key stripe_succeeds opening_requests initial_world.

Lemma listing_shows_stored_package_witness :
  exists listing_id listing package,
    In (listing_id, listing) (marketplace_listings opened)
    /\ dict_get (full_package_id listing) (lead_packages opened) = Some package
    /\ listing_id = "LIST_PKG_2077_1704067200"%string
    /\ package_price listing = price package
    /\ listing_lead_tier listing = lead_tier package.
Proof.
  destruct (marketplace_listings opened) as [|[listing_id listing] rest] eqn:E;
    [vm_compute in E; discriminate E|].
  destruct (listing_shows_stored_package ticking test_key stripe_succeeds
              opening_requests listing_id listing)
    as [package [Gp [_ [Hprice [Htier _]]]]].
  { fold opened. rewrite E. left. reflexivity. }
  fold opened in Gp. exists listing_id, listing, package.
  split; [left; reflexivity|]. split; [exact Gp|].
  split; [|auto].
  vm_compute in E. injection E as <- _ _. reflexivity.
Defined.

Lemma stored_package_passed_the_gate_witness :
  exists package,
    dict_get first_package_id (lead_packages opened) = Some package
    /\ Qltb (overall_score (distress_signals (property_intelligence package))) 40 = false
    /\ Qltb (get_roi_percentage (property_intelligence package)) 10 = false
    /\ lead_tier package = _classify_lead_tier (property_intelligence package).
Proof.
  destruct (dict_get first_package_id (lead_packages opened)) as [package|] eqn:E;
    [|vm_compute in E; discriminate E].
  destruct (stored_package_passed_the_gate ticking test_key stripe_succeeds
              opening_requests first_package_id E)
    as [_ [Hscore [Hroi [Htier _]]]].
  exists package. auto.
Defined.

Lemma stored_package_price_witness :
  exists package,
    dict_get first_package_id (lead_packages opened) = Some package
    /\ 50 <= price package
    /\ price package <= 750
    /\ inject_Z (amount (payment_request package alice first_package_id "pm_card"))
       == price package * 100.
Proof.
  destruct (dict_get first_package_id (lead_packages opened)) as [package|] eqn:E;
    [|vm_compute in E; discriminate E].
  destruct (stored_package_price ticking test_key stripe_succeeds
              opening_requests first_package_id E)
    as [_ [_ [Hlo [Hhi Hamount]]]].
  exists package. auto.
Defined.

Lemma stored_package_times_witness :
  exists package,
    dict_get first_package_id (lead_packages opened) = Some package
    /\ created_at package = ticking 1
    /\ Num.int_of_float (Num.timestamp (ticking 0)) = Ok 1704067200%Z
    /\ first_package_id = "PKG_2077_1704067200"%string
    /\ (created_at package + 7 * 86400 * 1000000 <= expires_at package)%Z.
Proof.
  destruct (dict_get first_package_id (lead_packages opened)) as [package|] eqn:E;
    [|vm_compute in E; discriminate E].
  destruct (stored_package_times ticking test_key stripe_succeeds
              opening_requests first_package_id E)
    as [n [Hc [_ [Hid Hlate]]]].
  assert (Hn : n = 0%nat).
  { vm_compute in E. injection E as <-. cbn [created_at] in Hc. unfold ticking in Hc. lia. }
  subst n. destruct Hid as [Hstamp _]; [unfold ticking; cbn; lia|].
  exists package. split; [reflexivity|]. split; [exact Hc|].
  split; [exact Hstamp|]. split; [reflexivity|].
  apply Hlate. intros i j Hij. unfold ticking. lia.
Defined.

Lemma purchased_package_data_witness :
  exists data package,
    fst (Market.process_purchase test_key stripe_succeeds
           "inv-1" first_package_id "pm_card" opened)
    = Ok (PurchaseSucceeded "pi_0" data (expires_at package))
    /\ dict_get first_package_id (lead_packages opened) = Some package
    /\ contract_template data = "Contract template generated..."%string.
Proof.
  destruct (Market.process_purchase test_key stripe_succeeds
              "inv-1" first_package_id "pm_card" opened)
    as [[[error|intent_id data until]|e] once] eqn:E;
    [vm_compute in E; discriminate E| |vm_compute in E; discriminate E].
  destruct (purchased_package_data ticking test_key stripe_succeeds opening_requests
              "inv-1" first_package_id "pm_card" E)
    as [package [Gp [_ [_ [Ht [_ [_ Hu]]]]]]].
  fold opened in Gp.
  assert (Hi : intent_id = "pi_0"%string).
  { destruct (process_purchase_succeeded _ _ _ _ _ _ E)
      as [p [i [_ [_ [Hs _]]]]].
    unfold stripe_succeeds in Hs. injection Hs as Hs.
    rewrite <- Hs. reflexivity. }
  exists data, package. cbn [fst]. rewrite Hi, Hu. auto.
Defined.

Lemma sold_package_sells_again_witness :
  exists first_intent second_intent data until once twice,
    Market.process_purchase test_key stripe_succeeds
      "inv-1" first_package_id "pm_card" opened
    = (Ok (PurchaseSucceeded first_intent data until), once)
    /\ Market.process_purchase test_key stripe_succeeds
         "inv-1" first_package_id "pm_again" once
       = (Ok (PurchaseSucceeded second_intent data until), twice)
    /\ packages_sold (revenue_metrics twice)
       = packages_sold (revenue_metrics opened) + 1 + 1.
Proof.
  destruct (Market.process_purchase test_key stripe_succeeds
              "inv-1" first_package_id "pm_card" opened)
    as [[[error|first_intent data until]|e] once] eqn:E;
    [vm_compute in E; discriminate E| |vm_compute in E; discriminate E].
  destruct (dict_get first_package_id (lead_packages opened)) as [package|] eqn:Gp;
    [|vm_compute in Gp; discriminate Gp].
  destruct (@sold_package_sells_again ticking test_key stripe_succeeds opening_requests
              "inv-1" first_package_id "pm_card" first_intent data until once
              package "inv-1" "pm_again"
              ("pi_" ++ str_of_int (Z.of_nat (stripe_calls once)))%string alice E)
    as [twice [E2 [_ [_ [Hsold _]]]]];
    [exact Gp | reflexivity | reflexivity |].
  exists first_intent, ("pi_" ++ str_of_int (Z.of_nat (stripe_calls once)))%string,
    data, until, once, twice.
  split; [reflexivity|]. split; [exact E2|exact Hsold].
Defined.

End LedgerSpec.

(* ================================================================== *)
(** * Matching and notifying investors *)
(* ================================================================== *)

Module MatchingSpec.

Import Scraper Market PyFacts MarketSpec.

(** ** The three tests *)

(** One of the investor's preferred markets occurs in the address,
    whatever the case of the letters. *)
Definition in_market (prop : ZillowProperty) (investor : InvestorProfile) : Prop :=
  exists market,
    In market (preferred_markets investor)
    /\ occurs_in (lower market) (lower (address prop)).

(** The markets and the address that the matching compares are made of
    ASCII characters, so that their lower case is what [lower] gives. *)
Definition ascii_markets (prop : ZillowProperty) (candidates : list InvestorProfile)
  : Prop :=
  is_ascii (address prop) = true
  /\ forall investor market,
       In investor candidates ->
       In market (preferred_markets investor) ->
       is_ascii market = true.

(** The investor the matching loop keeps: in the market, with a price
    range that holds the price, and with the property's type among the
    types wanted. *)
Definition eligible (prop : ZillowProperty) (investor : InvestorProfile) : Prop :=
  in_market prop investor
  /\ (exists lowest highest,
        dict_get "min" (price_range investor) = Some lowest
        /\ dict_get "max" (price_range investor) = Some highest
        /\ (lowest <= Scraper.price prop <= highest)%Z)
  /\ In (Scraper.property_type prop) (property_types investor).

(** The investor on whom the loop raises: in the market, with a bound
    missing where the loop reads it. *)
Definition unbounded (prop : ZillowProperty) (investor : InvestorProfile) : Prop :=
  in_market prop investor
  /\ (dict_get "min" (price_range investor) = None
      \/ exists lowest,
           dict_get "min" (price_range investor) = Some lowest
           /\ (lowest <= Scraper.price prop)%Z
           /\ dict_get "max" (price_range investor) = None).

Lemma in_market_iff (prop : ZillowProperty) (investor : InvestorProfile) :
  existsb (fun market => contains (lower market) (lower (address prop)))
          (preferred_markets investor) = true
  <-> in_market prop investor.
Proof.
  unfold in_market. rewrite existsb_exists.
  split; intros [market [Hin H]]; exists market; (split; [exact Hin|]);
    apply contains_occurs_in; exact H.
Qed.

Lemma str_in_iff (x : string) (l : list string) : str_in x l = true <-> In x l.
Proof.
  unfold str_in. rewrite existsb_exists. split.
  - intros [y [Hin E]]. apply String.eqb_eq in E. subst y. exact Hin.
  - intro Hin. exists x. split; [exact Hin|apply String.eqb_refl].
Qed.

(** What the three tests decide. *)
Lemma investor_matches_spec (prop : ZillowProperty) (investor : InvestorProfile) :
  match investor_matches prop investor with
  | Ok true => eligible prop investor /\ ~ unbounded prop investor
  | Ok false => ~ eligible prop investor /\ ~ unbounded prop investor
  | Raise e =>
      unbounded prop investor /\ ~ eligible prop investor
      /\ (e = KeyError "min" \/ e = KeyError "max")
  end.
Proof.
  unfold investor_matches, subscript, eligible, unbounded.
  destruct (existsb _ (preferred_markets investor)) eqn:Em; cbn [negb].
  2:{ assert (Hm : ~ in_market prop investor)
        by (intro H; apply in_market_iff in H; congruence).
      split; intros [H _]; contradiction. }
  apply in_market_iff in Em.
  destruct (dict_get "min" (price_range investor)) as [lowest|]; cbn [bind].
  2:{ split; [split; [exact Em|left; reflexivity]|].
      split; [|left; reflexivity].
      intros [_ [[lo [hi [H _]]] _]]. discriminate H. }
  destruct (Scraper.price prop <? lowest)%Z eqn:El.
  { apply Z.ltb_lt in El. split.
    - intros [_ [[lo [hi [[= <-] [_ H]]]] _]]. lia.
    - intros [_ [H|[lo [[= <-] [H _]]]]]; [discriminate H|lia]. }
  apply Z.ltb_ge in El.
  destruct (dict_get "max" (price_range investor)) as [highest|]; cbn [bind].
  2:{ split; [split; [exact Em|right; exists lowest; auto]|].
      split; [|right; reflexivity].
      intros [_ [[lo [hi [_ [H _]]]] _]]. discriminate H. }
  destruct (highest <? Scraper.price prop)%Z eqn:Eh.
  { apply Z.ltb_lt in Eh. split.
    - intros [_ [[lo [hi [_ [[= <-] H]]]] _]]. lia.
    - intros [_ [H|[lo [_ [_ H]]]]]; discriminate H. }
  apply Z.ltb_ge in Eh.
  destruct (str_in (Scraper.property_type prop) (property_types investor)) eqn:Et.
  - apply str_in_iff in Et. split.
    + split; [exact Em|]. split; [exists lowest, highest; auto|exact Et].
    + intros [_ [H|[lo [_ [_ H]]]]]; discriminate H.
  - split.
    + intros [_ [_ H]]. apply str_in_iff in H. congruence.
    + intros [_ [H|[lo [_ [_ H]]]]]; discriminate H.
Qed.

(** The first loop keeps the eligible investors, and raises on the
    first unbounded one. *)
Lemma matching_investors_spec (prop : ZillowProperty)
  (candidates matches : list InvestorProfile) :
  match matching_investors prop candidates matches with
  | Ok out =>
      Forall (fun investor => ~ unbounded prop investor) candidates
      /\ exists fresh,
           out = matches ++ fresh
           /\ forall investor,
                In investor fresh <-> In investor candidates /\ eligible prop investor
  | Raise e =>
      Exists (unbounded prop) candidates
      /\ (e = KeyError "min" \/ e = KeyError "max")
  end.
Proof.
  revert matches.
  induction candidates as [|investor candidates IH]; intro matches;
    cbn [matching_investors].
  - split; [constructor|]. exists []. rewrite app_nil_r. split; [reflexivity|].
    intro i. split; [intros []|intros [[] _]].
  - pose proof (investor_matches_spec prop investor) as Hm.
    destruct (investor_matches prop investor) as [[|]|e]; cbn [bind].
    + destruct Hm as [He Hu].
      specialize (IH (matches ++ [investor])).
      destruct (matching_investors prop candidates (matches ++ [investor])) as [out|e].
      * destruct IH as [Hall [fresh [-> Hf]]]. split; [constructor; assumption|].
        exists (investor :: fresh). rewrite <- app_assoc. split; [reflexivity|].
        intro i. cbn [In]. rewrite Hf. split.
        -- intros [<-|[Hin Hel]]; auto.
        -- intros [[<-|Hin] Hel]; auto.
      * destruct IH as [Hex He']. split; [right; exact Hex|exact He'].
    + destruct Hm as [He Hu].
      specialize (IH matches).
      destruct (matching_investors prop candidates matches) as [out|e].
      * destruct IH as [Hall [fresh [-> Hf]]]. split; [constructor; assumption|].
        exists fresh. split; [reflexivity|].
        intro i. cbn [In]. rewrite Hf. split.
        -- intros [Hin Hel]; auto.
        -- intros [[<-|Hin] Hel]; [contradiction|auto].
      * destruct IH as [Hex He']. split; [right; exact Hex|exact He'].
    + destruct Hm as [Hu [_ He]]. split; [left; exact Hu|exact He].
Qed.

(** ** The notifications *)

(** The line printed for an investor on a channel. *)
Definition line (ch : Channel) (to : string) (investor : InvestorProfile)
  (package : LeadPackage) : Notification :=
  {| channel := ch;
     recipient := to;
     notified_investor_id := investor_id investor;
     notified_package_id := package_id package;
     notified_lead_tier := value (lead_tier package);
     notified_price := price package;
     notified_distress_score :=
       overall_score (distress_signals (property_intelligence package)) |}.

(** The lines printed for an investor: the e-mail, then the SMS when
    there is a phone number to send it to. *)
Definition lines_for (package : LeadPackage) (investor : InvestorProfile)
  : list Notification :=
  line Email (email investor) investor package
  :: match phone investor with
     | Some EmptyString => []
     | Some number => [line SMS number investor package]
     | None => []
     end.

Lemma _notify_investor_prints (investor : InvestorProfile) (package : LeadPackage)
  (w : World) :
  exists w',
    _notify_investor investor package w = (Ok tt, w')
    /\ stdout w' = stdout w ++ lines_for package investor.
Proof.
  unfold _notify_investor, mbind, print, modify, lines_for, line.
  destruct (phone investor) as [[|c number]|]; cbn;
    eexists; (split; [reflexivity|]); cbn [stdout];
    rewrite <- ?app_assoc; reflexivity.
Qed.

Lemma notify_all_prints (matches : list InvestorProfile) (package : LeadPackage)
  (w : World) :
  exists w',
    notify_all matches package w = (Ok tt, w')
    /\ stdout w' = stdout w ++ flat_map (lines_for package) matches.
Proof.
  revert w. induction matches as [|investor matches IH]; intro w; cbn [notify_all flat_map].
  - exists w. rewrite app_nil_r. split; reflexivity.
  - unfold mbind.
    destruct (_notify_investor_prints investor package w) as [w1 [E1 S1]].
    rewrite E1. destruct (IH w1) as [w2 [E2 S2]].
    exists w2. split; [exact E2|]. rewrite S2, S1, app_assoc. reflexivity.
Qed.

(** A line addressed to an investor about a package. *)
Definition addressed (l : Notification) (investor : InvestorProfile)
  (package : LeadPackage) : Prop :=
  notified_investor_id l = investor_id investor
  /\ notified_package_id l = package_id package
  /\ notified_lead_tier l = value (lead_tier package)
  /\ notified_price l = price package
  /\ notified_distress_score l
     = overall_score (distress_signals (property_intelligence package))
  /\ match channel l with
     | Email => recipient l = email investor
     | SMS => phone investor = Some (recipient l) /\ recipient l <> EmptyString
     end.

Lemma lines_for_addressed (package : LeadPackage) (investor : InvestorProfile)
  (l : Notification) :
  In l (lines_for package investor) -> addressed l investor package.
Proof.
  unfold lines_for, addressed.
  intros [<-|Hin]; [cbn; repeat split|].
  destruct (phone investor) as [[|c number]|]; [destruct Hin| |destruct Hin].
  destruct Hin as [<-|[]]. cbn. repeat split. discriminate.
Qed.

(** X22.  On [_match_with_investors] and [_notify_investor].  For an
    address and preferred markets made of ASCII characters: when the
    matching returns, what it printed is addressed to eligible investors
    only: every line names the package, its tier, price and score, and
    goes to the e-mail address or the phone number of a registered
    investor who is in the market, whose price range holds the price and
    who wants the type of the property.  Every such investor gets the
    e-mail, and the SMS too when the profile has a phone number that is
    not empty.  Nothing else in the service changes. *)
Theorem notifications_reach_eligible_investors (package : LeadPackage) (w : World) :
  let prop := property (property_intelligence package) in
  let out := _match_with_investors package w in
  ascii_markets prop (values (investors w)) ->
  fst out = Ok tt ->
  exists lines,
    stdout (snd out) = stdout w ++ lines
    /\ same_store w (snd out)
    /\ (forall l,
          In l lines ->
          exists investor,
            In investor (values (investors w))
            /\ eligible prop investor
            /\ addressed l investor package)
    /\ (forall investor,
          In investor (values (investors w)) ->
          eligible prop investor ->
          In (line Email (email investor) investor package) lines
          /\ forall c number,
               phone investor = Some (String c number) ->
               In (line SMS (String c number) investor package) lines).
Proof.
  intros prop out Hascii. unfold out. clear out Hascii.
  destruct (_match_with_investors_outcome package w) as [r [w' [E [_ [_ [Hs _]]]]]].
  rewrite E. cbn [fst snd]. intros ->.
  revert E. unfold _match_with_investors, mbind, get, lift. fold prop.
  pose proof (matching_investors_spec prop (values (investors w)) []) as Hm.
  destruct (matching_investors prop (values (investors w)) []) as [matches|e];
    [|discriminate].
  destruct Hm as [_ [fresh [Hfresh Hf]]]. cbn [app] in Hfresh. subst fresh.
  destruct (notify_all_prints matches package w) as [w2 [E2 S2]].
  rewrite E2. intros [= <-].
  exists (flat_map (lines_for package) matches).
  split; [exact S2|]. split; [exact Hs|]. split.
  - intros l Hin. apply in_flat_map in Hin. destruct Hin as [investor [Hi Hl]].
    apply Hf in Hi. destruct Hi as [Hi He].
    exists investor. split; [exact Hi|]. split; [exact He|].
    apply lines_for_addressed. exact Hl.
  - intros investor Hi He.
    assert (Hin : In investor matches) by (apply Hf; auto).
    split.
    + apply in_flat_map. exists investor. split; [exact Hin|]. left. reflexivity.
    + intros c number Hp. apply in_flat_map. exists investor. split; [exact Hin|].
      unfold lines_for. rewrite Hp. right. left. reflexivity.
Qed.

(** ** When the matching raises *)

Lemma _match_with_investors_raises (package : LeadPackage) (w : World) :
  let prop := property (property_intelligence package) in
  match fst (_match_with_investors package w) with
  | Ok _ => Forall (fun investor => ~ unbounded prop investor) (values (investors w))
  | Raise e =>
      Exists (unbounded prop) (values (investors w))
      /\ (e = KeyError "min" \/ e = KeyError "max")
      /\ snd (_match_with_investors package w) = w
  end.
Proof.
  intro prop. unfold _match_with_investors, mbind, get, lift. fold prop.
  pose proof (matching_investors_spec prop (values (investors w)) []) as Hm.
  destruct (matching_investors prop (values (investors w)) []) as [matches|e].
  - destruct (notify_all_prints matches package w) as [w2 [E2 _]]. rewrite E2.
    cbn [fst]. apply Hm.
  - cbn [fst snd]. destruct Hm as [Hex He]. auto.
Qed.

Section Gate.

Variable clock : nat -> datetime.

(** A lead over the gate: the package is stored and listed, then the
    investors are matched. *)
Lemma process_overflow_lead_unfold (property_intel : PropertyIntelligence) (w : World) :
  passes_gate property_intel = true ->
  let package := package_of clock property_intel w in
  exists w1,
    investors w1 = investors w
    /\ stdout w1 = stdout w
    /\ process_overflow_lead clock property_intel w
       = (match fst (_match_with_investors package w1) with
          | Ok _ => Ok (Some package)
          | Raise e => Raise e
          end,
          snd (_match_with_investors package w1)).
Proof.
  unfold passes_gate, process_overflow_lead. rewrite negb_true_iff. intros ->.
  unfold mbind at 1. unfold datetime_now at 1.
  unfold mbind at 1. unfold datetime_now at 1.
  unfold mbind at 1. unfold datetime_now at 1.
  unfold mbind at 1. unfold modify at 1.
  unfold mbind at 1. unfold _create_marketplace_listing, modify at 1.
  unfold mbind at 1. cbn zeta. cbn [clock_reads].
  match goal with
  | |- context [_match_with_investors ?p ?w0] => exists w0
  end.
  split; [reflexivity|]. split; [reflexivity|].
  unfold package_of. cbn zeta.
  match goal with
  | |- context [_match_with_investors ?p ?w0] =>
      destruct (_match_with_investors p w0) as [[[]|e] w2]
  end; reflexivity.
Qed.

(** X23.  On [process_overflow_lead] and [_match_with_investors].  For
    a lead that the gate lets through, with an address and preferred
    markets made of ASCII characters.  When some registered investor is
    in the market of the property with a price range that lacks ["min"],
    or that lacks ["max"] while the price is not under its ["min"], the
    call raises and returns no package.  When the call raises
    [KeyError], the key is ["min"] or ["max"], there is such an
    investor, the package is by then in store and listed, and no
    investor has been notified, not even those who matched.  When the
    call returns, it returns the package, and there is no such
    investor. *)
Theorem process_overflow_lead_raises (property_intel : PropertyIntelligence) (w : World) :
  let out := process_overflow_lead clock property_intel w in
  let package := package_of clock property_intel w in
  let stuck := Exists (unbounded (property property_intel)) (values (investors w)) in
  ascii_markets (property property_intel) (values (investors w)) ->
  passes_gate property_intel = true ->
  (stuck -> exists e, fst out = Raise e)
  /\ (forall key,
        fst out = Raise (KeyError key) ->
        (key = "min" \/ key = "max")%string
        /\ stuck
        /\ stdout (snd out) = stdout w
        /\ dict_get (package_id package) (lead_packages (snd out)) = Some package
        /\ In ("LIST_" ++ package_id package)%string (keys (marketplace_listings (snd out))))
  /\ (forall answer, fst out = Ok answer -> answer = Some package /\ ~ stuck).
Proof.
  cbv zeta. intros _ G.
  destruct (LedgerSpec.process_overflow_lead_listed clock property_intel w G)
    as [r [w' [E [_ [Hp [_ [listing [Hl _]]]]]]]].
  destruct (process_overflow_lead_unfold property_intel w G) as [w1 [Hi [Ho E1]]].
  cbv zeta in E1.
  pose proof (_match_with_investors_raises (package_of clock property_intel w) w1) as Hm.
  cbv zeta in Hm. rewrite Hi in Hm.
  change (property (property_intelligence (package_of clock property_intel w)))
    with (property property_intel) in Hm.
  rewrite E in E1. injection E1 as Er Ew. rewrite E. cbn [fst snd].
  destruct (fst (_match_with_investors (package_of clock property_intel w) w1))
    as [[]|e0]; subst r.
  - assert (Hnone : ~ Exists (unbounded (property property_intel)) (values (investors w))).
    { intro Hex. apply Exists_exists in Hex.
      destruct Hex as [investor [Hin Hu]]. rewrite Forall_forall in Hm.
      exact (Hm investor Hin Hu). }
    split; [intro Hex; contradiction|].
    split; [intros key H; discriminate H|].
    intros answer [= <-]. split; [reflexivity|exact Hnone].
  - destruct Hm as [Hex [He Hw]].
    split; [intros _; eexists; reflexivity|].
    split; [|intros answer H; discriminate H].
    intros key [= ->].
    split; [destruct He as [[= ->]|[= ->]]; [left|right]; reflexivity|].
    split; [exact Hex|].
    split; [rewrite Ew, Hw; exact Ho|].
    split; [rewrite Hp; apply dict_get_set|].
    rewrite Hl. unfold keys.
    apply in_map_iff. eexists (_, listing). split; [reflexivity|].
    apply dict_get_In. apply dict_get_set.
Qed.

End Gate.

(** ** Alice and the platinum lead *)

(** The package of the platinum lead, once Alice has registered. *)
Definition registered : World := snd (register_investor alice initial_world).

Definition platinum_package : LeadPackage := package_of ticking pictured_lead registered.

Lemma notifications_reach_eligible_investors_witness :
  exists lines,
    stdout (snd (_match_with_investors platinum_package registered)) = lines
    /\ In (line Email "alice@example.com" alice platinum_package) lines
    /\ In (line SMS "+15125550100" alice platinum_package) lines.
Proof.
  destruct (notifications_reach_eligible_investors platinum_package registered)
    as [lines [Hs [_ [_ Hall]]]].
  { split; [reflexivity|].
    intros investor market [<-|[]] [<-|[]]. reflexivity. }
  { reflexivity. }
  destruct (Hall alice) as [Hmail Hsms].
  - left. reflexivity.
  - split; [|split].
    + exists "Austin"%string. split; [left; reflexivity|].
      apply contains_occurs_in. reflexivity.
    + exists 50000%Z, 250000%Z. repeat split; cbn; lia.
    + left. reflexivity.
  - exists lines. split; [exact Hs|]. split; [exact Hmail|].
    apply (Hsms "+"%char "15125550100"%string). reflexivity.
Defined.

(** Bob registered with an empty price range, and the lead on the
    boundary is in Austin: the call raises [KeyError] on ["min"], with
    the package in store and nothing printed. *)
Lemma process_overflow_lead_raises_witness :
  let w := snd (register_investor bob initial_world) in
  let out := process_overflow_lead ticking boundary_lead w in
  (exists e, fst out = Raise e)
  /\ fst out = Raise (KeyError "min")
  /\ dict_get "PKG_2077_1704067200" (lead_packages (snd out))
     = Some (package_of ticking boundary_lead w)
  /\ stdout (snd out) = [].
Proof.
  intros w out.
  destruct (process_overflow_lead_raises ticking boundary_lead w) as [Hraise [Hkey _]].
  - split; [reflexivity|].
    intros investor market [<-|[]] [<-|[]]. reflexivity.
  - reflexivity.
  - assert (E : fst out = Raise (KeyError "min")) by reflexivity.
    split; [|split; [exact E|]].
    + apply Hraise. left. split; [|left; reflexivity].
      exists "Austin"%string. split; [left; reflexivity|].
      apply contains_occurs_in. reflexivity.
    + destruct (Hkey "min"%string E) as [_ [_ [Hout [Hstored _]]]].
      split; [exact Hstored|exact Hout].
Defined.

End MatchingSpec.

(* ================================================================== *)
(** * From the scraper to the marketplace *)
(* ================================================================== *)

Module PipelineSpec.

Import Scraper Market PyFacts.

Section Pipeline.

Variable http_get : nat -> string -> bool.
Variable lattice_run : nat -> LatticeOut.

(** X25.  On [scrape_properties] (the loop body) and
    [_classify_lead_tier].  For an analysis the scraper built, the
    recommendation test of the platinum rule adds nothing: the lead is
    platinum exactly when its score is above 70 and its ROI above 20,
    and then at least five of its six signals are raised.  A listing
    without photos is platinum or bronze, never gold or silver. *)
Theorem scraped_lead_tier
  (prop : ZillowProperty) (s : Scraper.World) (intel : PropertyIntelligence) :
  fst (analyze_property http_get lattice_run prop s) = Ok intel ->
  (_classify_lead_tier intel = PLATINUM
   <-> 70 < overall_score (distress_signals intel) /\ 20 < get_roi_percentage intel)
  /\ (_classify_lead_tier intel = PLATINUM ->
      (5 <= sum_bools (ScraperSpec.signals (distress_signals intel)))%Z)
  /\ (photos prop = [] ->
      _classify_lead_tier intel = PLATINUM \/ _classify_lead_tier intel = BRONZE).
Proof.
  intro H.
  destruct (AnalysisSpec.analyze_property_unfold http_get lattice_run prop s)
    as [[visual [d [inv [ratio [Ev [Ed [_ E]]]]]]]|E]; rewrite H in E; [|discriminate].
  injection E as ->.
  destruct (ScraperSpec.detect_distress_signals_returns prop visual)
    as [d' [Ed' [Hs _]]].
  rewrite Ed in Ed'. injection Ed' as <-.
  pose proof (AnalysisSpec.score_above_70 d Hs) as H70.
  unfold _classify_lead_tier, get_roi_percentage.
  cbn [distress_signals investment_opportunity contract_recommendation
       geometric_analysis property].
  set (roi := match roi_percentage inv with Some r => r | None => 0 end).
  assert (Hphotos : photos prop = [] -> get_overall_visual_score visual = 0).
  { intro Hp. rewrite Hp in Ev. cbn in Ev. injection Ev as <-. reflexivity. }
  destruct (Qltb 70 (overall_score d)) eqn:E70.
  - assert (H5 : (5 <= sum_bools (ScraperSpec.signals d))%Z) by (apply H70; reflexivity).
    apply Qltb_lt in E70. cbn [andb String.eqb Ascii.eqb Bool.eqb].
    destruct (Qltb 20 roi) eqn:E20; cbn [andb].
    + apply Qltb_lt in E20. repeat split; auto.
    + assert (H20 : ~ 20 < roi) by (intro Hlt; apply Qltb_lt in Hlt; congruence).
      split; [|split].
      * split; [|intros [_ Hlt]; contradiction].
        destruct (Qltb 60 (overall_score d) && Qltb 15 roi
                  && Qltb 0 (get_overall_visual_score visual));
          [discriminate|].
        destruct (Qltb 50 (overall_score d) && Qltb 12 roi
                  && match photos prop with [] => false | _ => true end);
          discriminate.
      * intros _. exact H5.
      * intro Hp. right. rewrite (Hphotos Hp), Hp.
        rewrite !andb_false_r. reflexivity.
  - assert (H70' : ~ 70 < overall_score d)
      by (intro Hlt; apply Qltb_lt in Hlt; congruence).
    cbn [andb].
    assert (Hnot : forall t : LeadTier,
               (if Qltb 60 (overall_score d) && Qltb 15 roi
                   && Qltb 0 (get_overall_visual_score visual)
                then GOLD
                else if Qltb 50 (overall_score d) && Qltb 12 roi
                        && match photos prop with [] => false | _ => true end
                     then SILVER else BRONZE) = PLATINUM -> False).
    { intros _. destruct (_ && _ && _); [discriminate|].
      destruct (_ && _ && _); discriminate. }
    split; [|split].
    + split; [intro Ht; destruct (Hnot BRONZE Ht)|intros [Hlt _]; contradiction].
    + intro Ht. destruct (Hnot BRONZE Ht).
    + intro Hp. right. rewrite (Hphotos Hp), Hp.
      rewrite !andb_false_r. reflexivity.
Qed.

End Pipeline.

(** The distressed listing, with every download going through a rough
    lattice: five signals, a zestimate twice the price. *)
Lemma scraped_lead_tier_witness :
  exists intel,
    fst (analyze_property AnalysisSpec.online AnalysisSpec.rough
           ScraperSpec.distressed_property Scraper.initial_world) = Ok intel
    /\ _classify_lead_tier intel = PLATINUM.
Proof.
  destruct (fst (analyze_property AnalysisSpec.online AnalysisSpec.rough
                   ScraperSpec.distressed_property Scraper.initial_world))
    as [intel|e] eqn:E; [|vm_compute in E; discriminate E].
  destruct (scraped_lead_tier AnalysisSpec.online AnalysisSpec.rough
              ScraperSpec.distressed_property Scraper.initial_world E)
    as [Hplat _].
  exists intel. split; [reflexivity|]. apply Hplat.
  vm_compute in E. injection E as <-. split; reflexivity.
Defined.

End PipelineSpec.
